(** * ratarmountcore.factory: resolution of a mount source

    A shallow embedding of [core/ratarmountcore/factory.py]: the backends and
    their registry [_BACKENDS], [matchesExtension], [tryOpenURL] and
    [openMountSource], followed by the properties of the trial of the
    backends and of the URL resolver.

    - Python strings are [string]s, sequences of 8-bit characters.
      [PyStr.lower] lowers the ASCII letters, which is [str.lower] on
      strings of ASCII characters; elsewhere [str.lower] follows Unicode and
      may change the length of a string.  The theorems use of [PyStr.lower]
      only that it is a function of the string; the examples compute it on
      ASCII strings.
    - Keyword arguments ([**options]) are a finite map from names to values,
      passed by value: Python builds a new dict for every call.  Lines 92 to
      99, where the module deletes from a dict, are followed a second time
      over a store of dict objects, to tell the dicts apart.
    - What the module calls and does not define (the archive classes, the
      format tests, [checkForSplitFile] and the tables of
      [ratarmountcore.compressions], [os.path], the transports) is a field of
      the record [Env]; every definition and theorem is for an arbitrary
      [Env].
    - A computation threads the read position of the stream that is being
      resolved, may raise, and leaves a trace of what it printed and of the
      calls it made.
    - [_openGitMountSource], [_openSSHFSMountSource] and the WebDAV branch of
      [tryOpenURL], which [tryOpenURL] takes as single steps, are followed
      statement by statement in a part of their own, with the regular
      expression of the branch and the matcher it needs. *)

From Stdlib Require Import Ascii ZArith.
From stdpp Require Import base decidable option list gmap strings.

Local Open Scope Z_scope.

(** ** Python string operations used by the module *)

Module PyStr.

(** [c.lower()] for one character: the letters [A]..[Z] are shifted. *)
Definition lower_char (c : ascii) : ascii :=
  let n := nat_of_ascii c in
  if (Nat.leb 65 n && Nat.leb n 90)%bool then ascii_of_nat (n + 32) else c.

(** [s.lower()] on ASCII strings.  For other strings [str.lower] is not
    character by character: it may give a longer string, and what it gives
    for a letter may depend on the letters around it. *)
Fixpoint lower (s : string) : string :=
  match s with
  | EmptyString => EmptyString
  | String c s' => String (lower_char c) (lower s')
  end.

(** The rest of [s] behind the prefix [p], when [s.startswith(p)]. *)
Fixpoint strip_prefix (p s : string) : option string :=
  match p with
  | EmptyString => Some s
  | String a p' =>
      match s with
      | EmptyString => None
      | String b s' => if Ascii.eqb a b then strip_prefix p' s' else None
      end
  end.

(** [s.startswith(p)] *)
Definition startswith (s p : string) : bool :=
  match strip_prefix p s with Some _ => true | None => false end.

(** [s.endswith(suffix)]: some tail of [s] is [suffix]. *)
Fixpoint endswith (s suffix : string) : bool :=
  if String.eqb s suffix then true
  else match s with
       | EmptyString => false
       | String _ s' => endswith s' suffix
       end.

(** [sub in s] *)
Fixpoint contains (s sub : string) : bool :=
  if startswith s sub then true
  else match s with
       | EmptyString => false
       | String _ s' => contains s' sub
       end.

(** [s.split(sep, 1)] for a non-empty separator: the part before the first
    occurrence of [sep] and, when there is one, the part behind it.  Python
    returns a list of one or two strings. *)
Fixpoint split1 (sep s : string) : string * option string :=
  match strip_prefix sep s with
  | Some rest => (EmptyString, Some rest)
  | None =>
      match s with
      | EmptyString => (EmptyString, None)
      | String c s' => let '(h, t) := split1 sep s' in (String c h, t)
      end
  end.

(** [s.rsplit(c, maxsplit=1)] for a one-character separator: the part before
    the last occurrence of [c], when there is one, and the part behind it. *)
Fixpoint rsplit1 (c : ascii) (s : string) : option string * string :=
  match s with
  | EmptyString => (None, EmptyString)
  | String a s' =>
      match rsplit1 c s' with
      | (Some h, t) => (Some (String a h), t)
      | (None, t) =>
          if Ascii.eqb a c then (Some EmptyString, t) else (None, String a t)
      end
  end.

(** [s.rsplit(c, maxsplit=1)[0]] *)
Definition rsplit1_head (c : ascii) (s : string) : string :=
  match rsplit1 c s with
  | (Some h, _) => h
  | (None, t) => t
  end.

(** [s.rstrip(c)] for a one-character set. *)
Fixpoint rstrip (c : ascii) (s : string) : string :=
  match s with
  | EmptyString => EmptyString
  | String a s' =>
      match rstrip c s' with
      | EmptyString => if Ascii.eqb a c then EmptyString else String a EmptyString
      | r => String a r
      end
  end.

(** [os.path.basename] of [posixpath]: what follows the last slash. *)
Definition basename (p : string) : string := snd (rsplit1 "/" p).

(** Every character of [s] is [c]. *)
Fixpoint all_chars (c : ascii) (s : string) : bool :=
  match s with
  | EmptyString => true
  | String a s' => Ascii.eqb a c && all_chars c s'
  end.

End PyStr.

(** [matchesExtension(fileName, extensions)] *)
Definition matchesExtension (fileName : string) (extensions : list string) : bool :=
  existsb
    (fun extension =>
       PyStr.endswith (PyStr.lower fileName) ("." +:+ PyStr.lower extension))
    extensions.

(** ** Data model *)

(** Values of keyword arguments, as far as the module looks at them. *)
Inductive value :=
| VNone
| VBool (b : bool)
| VInt (z : Z)
| VStr (s : string)
| VList (l : list string).

(** Python truthiness. *)
Definition truthy (v : value) : bool :=
  match v with
  | VNone => false
  | VBool b => b
  | VInt z => negb (z =? 0)
  | VStr s => negb (String.eqb s "")
  | VList l => match l with [] => false | _ => true end
  end.

(** Exceptions, all of them instances of [Exception]; [RatarmountError] and its
    subclass [CompressionError] come from [ratarmountcore.utils].  Interpreter
    exits ([KeyboardInterrupt], [SystemExit]), which no handler of this module
    catches, are outside the model.  [TypeError] and [IndexError] carry the
    expression that raised them. *)
Inductive exn :=
| RatarmountError (msg : string)
| CompressionError (msg : string)
| TypeError (expr : string)
| IndexError (expr : string)
| Exception (cls msg : string).

(** [str(exception)] *)
Definition exn_str (e : exn) : string :=
  match e with
  | RatarmountError msg | CompressionError msg | Exception _ msg => msg
  | TypeError expr | IndexError expr => expr
  end.

Inductive Result (A : Type) :=
| Ok (a : A)
| Raise (e : exn).
Arguments Ok {A} a.
Arguments Raise {A} e.

(** A file object ([IO[bytes]]): what [str] prints for it, whether it has a
    [seek] attribute, and the exception its [seek] raises, if any.  The read
    position is part of the state the computation threads. *)
Record Stream := {
  s_repr : string;
  s_hasSeek : bool;
  s_seekError : option exn;
}.

(** [Union[str, IO[bytes]]] *)
Inductive Source :=
| Path (p : string)
| File (f : Stream).

(** [isinstance(fileOrPath, str)] *)
Definition isinstance_str (fileOrPath : Source) : bool :=
  match fileOrPath with Path _ => true | File _ => false end.

(** [str(fileOrPath)] *)
Definition Source_str (fileOrPath : Source) : string :=
  match fileOrPath with Path p => p | File f => s_repr f end.

(** The classes the backends instantiate. *)
Inductive MountSourceClass :=
| RarMountSource | SQLiteIndexedTar | ZipMountSource | SquashFSMountSource
| LibarchiveMountSource | Py7zrMountSource | FATMountSource | EXT4MountSource
| SQLARMountSource | SQLiteIndexMountSource.

(** An fsspec file system: the Dropbox one the module builds itself, or one
    that a collaborator ([url_to_fs], the WebDAV client) handed over. *)
Inductive FileSystem :=
| FixedDropboxDriveFileSystem (token : string)
| OtherFileSystem (descr : string).

(** A mount source is recorded by the constructor call that made it. *)
Inductive MountSource :=
| Archive (cls : MountSourceClass) (fileOrPath : Source) (options : gmap string value)
| FolderMountSource (path : string)
| SingleFileMountSource (path : string) (fileobj : Source)
| FSSpecMountSource (fs : FileSystem) (path : string)
| AdapterMountSource (descr : string).

(** [Union[MountSource, IO[bytes], str]], the result of [tryOpenURL]. *)
Inductive Resolved :=
| RMount (m : MountSource)
| RStream (f : Stream)
| RPath (p : string).

(** The format tests of the optional modules. *)
Inductive FormatCheck := is_rarfile_sfx | is_zipfile | is_7zfile | isSquashFS.

Inductive FsOp := fs_info | fs_isdir | fs_exists | fs_open.

(** What a run does besides returning: lines printed, tracebacks printed, and
    the calls into collaborators, in the order they happen. *)
Inductive event :=
| Print (line : string)
| PrintExc (e : exn)
| Probe (name : string) (fileOrPath : Source) (options : gmap string value) (offset : nat)
| Check (what : FormatCheck) (fileOrPath : Source)
| Construct (cls : MountSourceClass) (fileOrPath : Source) (options : gmap string value)
| Seek (f : Stream) (offset : nat)
| Read (f : Stream) (size : nat)
| AdapterCall (adapter url : string)
| FsCall (op : FsOp) (fs : FileSystem) (path : string).

(** [ratarmountcore.compressions.CompressionModuleInfo] and [CompressionInfo],
    with the fields the module reads. *)
Module CompressionModuleInfo.
Record t := { name : string }.
End CompressionModuleInfo.

Module CompressionInfo.
Record t := {
  suffixes : list string;
  doubleSuffixes : list string;
  modules : list CompressionModuleInfo.t;
}.
End CompressionInfo.

Inductive PathKind := Missing | Directory | NotDirectory.

(** ** The computation: state, exceptions and a trace *)

Record Outcome (A : Type) := mkOutcome {
  result : Result A;
  final_pos : nat;
  events : list event;
}.
Arguments mkOutcome {A} result final_pos events.
Arguments result {A} o.
Arguments final_pos {A} o.
Arguments events {A} o.

(** A computation starts with the read position of the stream under
    resolution and ends with a value or an exception, the new position, and
    the events it caused. *)
Definition M (A : Type) : Type := nat -> Outcome A.

Definition ret {A} (a : A) : M A := fun p => mkOutcome (Ok a) p [].

Definition raise {A} (e : exn) : M A := fun p => mkOutcome (Raise e) p [].

Definition bind {A B} (m : M A) (k : A -> M B) : M B :=
  fun p =>
    let o := m p in
    match result o with
    | Ok a =>
        let o' := k a (final_pos o) in
        mkOutcome (result o') (final_pos o') (events o ++ events o')
    | Raise e => mkOutcome (Raise e) (final_pos o) (events o)
    end.

(** [try: m  except Exception as e: handler e] *)
Definition try_except {A} (m : M A) (handler : exn -> M A) : M A :=
  fun p =>
    let o := m p in
    match result o with
    | Ok a => o
    | Raise e =>
        let o' := handler e (final_pos o) in
        mkOutcome (result o') (final_pos o') (events o ++ events o')
    end.

(** [try: m  finally: cleanup]: the cleanup runs on both exits, and its own
    exception, if any, replaces the outcome of [m]. *)
Definition try_finally {A} (m : M A) (cleanup : M unit) : M A :=
  fun p =>
    let o := m p in
    let o' := cleanup (final_pos o) in
    mkOutcome
      (match result o' with Ok _ => result o | Raise e => Raise e end)
      (final_pos o') (events o ++ events o').

Definition emit (e : event) : M unit := fun p => mkOutcome (Ok tt) p [e].

Definition get_pos : M nat := fun p => mkOutcome (Ok p) p [].

Definition set_pos (q : nat) : M unit := fun _ => mkOutcome (Ok tt) q [].

Definition when (b : bool) (m : M unit) : M unit := if b then m else ret tt.

Declare Scope py_scope.
Delimit Scope py_scope with py.
Notation "x <- m ;; k" := (bind m (fun x => k))
  (at level 100, m at next level, right associativity) : py_scope.
Notation "m ;; k" := (bind m (fun _ => k))
  (at level 100, right associativity) : py_scope.

(** [print(line)] and [traceback.print_exc()] *)
Definition print (line : string) : M unit := emit (Print line).
Definition print_exc (e : exn) : M unit := emit (PrintExc e).

(** [f.seek(offset)] *)
Definition seek (f : Stream) (offset : nat) : M unit :=
  fun p =>
    match s_seekError f with
    | None => mkOutcome (Ok tt) offset [Seek f offset]
    | Some e => mkOutcome (Raise e) p [Seek f offset]
    end.

(** ** Collaborators

    Everything the module imports and calls: the optional modules and whether
    they could be imported, the tables and the split-file detection of
    [ratarmountcore.compressions], the operating system, the mount-source
    classes, and the transports behind [tryOpenURL]. *)
Record Env := {
  (* [rarfile is not None] and the like *)
  has_rarfile : bool;
  has_zipfile : bool;
  has_py7zr : bool;
  has_libarchive : bool;
  has_PySquashfsImage : bool;
  has_fsspec : bool;
  has_sshfs : bool;
  has_webdav4 : bool;
  has_dropboxdrivefs : bool;
  (* ratarmountcore.compressions *)
  supportedCompressions : list (string * CompressionInfo.t);
  TAR_COMPRESSION_FORMATS : list (string * CompressionInfo.t);
  checkForSplitFile : string -> option (list string * string);
  (* os.path and os.environ *)
  os_stat : string -> PathKind;
  os_realpath : string -> string;
  os_environ : gmap string string;
  (* StenciledFile.JoinedFileFromFactory over the shards, opened lazily *)
  JoinedFileFromFactory : list string -> Stream;
  (* a format test reads the source: its answer and where it leaves the stream *)
  format_check : FormatCheck -> Source -> nat -> Result bool * nat;
  (* a constructor of a mount-source class: the exception it raises, if any,
     and where it leaves the stream *)
  construct : MountSourceClass -> Source -> gmap string value -> nat -> option exn * nat;
  (* transports *)
  git_adapter : string -> Result Resolved;
  sshfs_adapter : string -> Result Resolved;
  webdav_adapter : string -> Result (FileSystem * string);
  url_to_fs : string -> Result (FileSystem * string);
  fs_isHTTP : string -> bool;
  fs_str : FileSystem -> string;
  fs_call_info : FileSystem -> string -> Result (option string);
  fs_call_isdir : FileSystem -> string -> Result bool;
  fs_call_exists : FileSystem -> string -> Result bool;
  fs_call_open : FileSystem -> string -> Result Stream;
  read_error : Stream -> option exn;
}.

Local Open Scope py_scope.

Section Factory.

Variable env : Env.

(** *** Calls into collaborators *)

Definition call_check (what : FormatCheck) (fileOrPath : Source) : M bool :=
  fun p =>
    let '(r, p') := format_check env what fileOrPath p in
    mkOutcome r p' [Check what fileOrPath].

(** [cls(fileOrPath, **options)]; a stream is what [SQLiteIndexedTar] takes
    as [fileObject]. *)
Definition call_construct (cls : MountSourceClass) (fileOrPath : Source)
    (options : gmap string value) : M MountSource :=
  fun p =>
    let '(r, p') := construct env cls fileOrPath options p in
    mkOutcome
      (match r with
       | None => Ok (Archive cls fileOrPath options)
       | Some e => Raise e
       end)
      p' [Construct cls fileOrPath options].

(** [int(options.get("printDebug", 0)) if isinstance(options.get("printDebug", 0), int) else 0];
    a [bool] is an [int] in Python. *)
Definition getPrintDebug (options : gmap string value) : Z :=
  match options !! "printDebug" with
  | Some (VInt z) => z
  | Some (VBool b) => if b then 1 else 0
  | _ => 0
  end.

(** The statements both [_openLibarchiveMountSource] (in its [finally]) and
    the trial loop (in its [except]) run to rewind the source:
<<
    try:
        if hasattr(fileOrPath, 'seek'):
            fileOrPath.seek(0)
    except Exception as exception:
        if printDebug >= 1:
            print("[Info] seek(0) raised an exception:", exception)
        if printDebug >= 2:
            traceback.print_exc()
>>
    A [str] has no attribute [seek]; a file object has one when [s_hasSeek]
    says so. *)
Definition seekToStart (fileOrPath : Source) (printDebug : Z) : M unit :=
  try_except
    (match fileOrPath with
     | File f => if s_hasSeek f then seek f 0 else ret tt
     | Path _ => ret tt
     end)
    (fun exception =>
       when (1 <=? printDebug)
         (print ("[Info] seek(0) raised an exception: " +:+ exn_str exception)) ;;
       when (2 <=? printDebug) (print_exc exception)).

(** *** The backends *)

Definition _openRarMountSource (fileOrPath : Source) (options : gmap string value)
    : M (option MountSource) :=
  if has_rarfile env then
    isRar <- call_check is_rarfile_sfx fileOrPath ;;
    if isRar : bool then
      m <- call_construct RarMountSource fileOrPath options ;; ret (Some m)
    else ret None
  else ret None.

Definition _openTarMountSource (fileOrPath : Source) (options : gmap string value)
    : M (option MountSource) :=
  match fileOrPath with
  | Path _ =>
      match options !! "tarFileName" with
      | Some _ =>
          let copiedOptions := delete "tarFileName" options in
          m <- call_construct SQLiteIndexedTar fileOrPath copiedOptions ;; ret (Some m)
      | None =>
          m <- call_construct SQLiteIndexedTar fileOrPath options ;; ret (Some m)
      end
  | File _ =>
      m <- call_construct SQLiteIndexedTar fileOrPath options ;; ret (Some m)
  end.

Definition _openZipMountSource (fileOrPath : Source) (options : gmap string value)
    : M (option MountSource) :=
  if has_zipfile env then
    isZip <- call_check is_zipfile fileOrPath ;;
    if isZip : bool then
      m <- call_construct ZipMountSource fileOrPath options ;; ret (Some m)
    else ret None
  else ret None.

Definition _openPy7zrMountSource (fileOrPath : Source) (options : gmap string value)
    : M (option MountSource) :=
  if has_py7zr env then
    is7z <- call_check is_7zfile fileOrPath ;;
    if is7z : bool then
      m <- call_construct Py7zrMountSource fileOrPath options ;; ret (Some m)
    else ret None
  else ret None.

Definition _openLibarchiveMountSource (fileOrPath : Source) (options : gmap string value)
    : M (option MountSource) :=
  if negb (has_libarchive env) then ret None
  else
    let printDebug := getPrintDebug options in
    try_finally
      (try_except
         (when (2 <=? printDebug)
            (print "[Info] Trying to open archive with libarchive backend.") ;;
          m <- call_construct LibarchiveMountSource fileOrPath options ;;
          ret (Some m))
         (fun exception =>
            when (2 <=? printDebug)
              (print ("[Info] Checking for libarchive file raised an exception: "
                      +:+ exn_str exception)) ;;
            when (3 <=? printDebug) (print_exc exception) ;;
            ret None))
      (seekToStart fileOrPath printDebug).

Definition _openPySquashfsImage (fileOrPath : Source) (options : gmap string value)
    : M (option MountSource) :=
  if has_PySquashfsImage env then
    isImage <- (if isinstance_str fileOrPath then ret true
                else call_check isSquashFS fileOrPath) ;;
    if isImage : bool then
      m <- call_construct SquashFSMountSource fileOrPath options ;; ret (Some m)
    else ret None
  else ret None.

Definition _openFATImage (fileOrPath : Source) (options : gmap string value)
    : M (option MountSource) :=
  m <- call_construct FATMountSource fileOrPath options ;; ret (Some m).

Definition _openEXT4Image (fileOrPath : Source) (options : gmap string value)
    : M (option MountSource) :=
  m <- call_construct EXT4MountSource fileOrPath options ;; ret (Some m).

Definition _openSqlar (fileOrPath : Source) (options : gmap string value)
    : M (option MountSource) :=
  m <- call_construct SQLARMountSource fileOrPath options ;; ret (Some m).

Definition _openRatarmountIndex (fileOrPath : Source) (options : gmap string value)
    : M (option MountSource) :=
  m <- call_construct SQLiteIndexMountSource fileOrPath options ;; ret (Some m).

(** *** The registry *)

(** [table[key]] of a dict given by its items, [None] when the key is absent. *)
Fixpoint dict_get {V} (key : string) (items : list (string * V)) : option V :=
  match items with
  | [] => None
  | (k, v) :: items' => if String.eqb k key then Some v else dict_get key items'
  end.

Definition _getTarExtensions : list string :=
  ["tar"]
  ++ flat_map (fun compression =>
                 map (fun suffix => "tar." +:+ suffix) (CompressionInfo.suffixes compression))
       (map snd (TAR_COMPRESSION_FORMATS env))
  ++ flat_map CompressionInfo.doubleSuffixes (map snd (TAR_COMPRESSION_FORMATS env)).

Definition getFormatExtensions (formatName : string) : list string :=
  match dict_get formatName (supportedCompressions env) with
  | Some info => CompressionInfo.suffixes info
  | None => []
  end.

(** The extensions of every format that a module with [libarchive] in its
    name reads. *)
Definition libarchiveExtensions : list string :=
  flat_map
    (fun info =>
       if existsb (fun module => PyStr.contains (CompressionModuleInfo.name module) "libarchive")
            (CompressionInfo.modules info)
       then CompressionInfo.suffixes info else [])
    (map snd (supportedCompressions env)).

Definition BackendOpen : Type := Source -> gmap string value -> M (option MountSource).

(** The dict [_BACKENDS], by its items in insertion order. *)
Definition _BACKENDS : list (string * (BackendOpen * list string)) :=
  [ ("rarfile", (_openRarMountSource, getFormatExtensions "rar"));
    ("tarfile", (_openTarMountSource, _getTarExtensions));
    ("zipfile", (_openZipMountSource, getFormatExtensions "zip"));
    ("pysquashfsimage", (_openPySquashfsImage, getFormatExtensions "squashfs"));
    ("libarchive", (_openLibarchiveMountSource, libarchiveExtensions));
    ("py7zr", (_openPy7zrMountSource, getFormatExtensions "7z"));
    ("pyfatfs", (_openFATImage, getFormatExtensions "fat"));
    ("ext4", (_openEXT4Image, getFormatExtensions "ext4"));
    ("sqlar", (_openSqlar, getFormatExtensions "sqlar"));
    ("SQLiteIndex", (_openRatarmountIndex, getFormatExtensions "ratarmount-index")) ].

(** [list(_BACKENDS.keys())] *)
Definition backendNames : list string := map fst _BACKENDS.

(** [[module.name for _, info in TAR_COMPRESSION_FORMATS.items() for module in info.modules]] *)
Definition tarCompressionBackends : list string :=
  flat_map (fun info => map CompressionModuleInfo.name (CompressionInfo.modules info))
    (map snd (TAR_COMPRESSION_FORMATS env)).

(** [[backend for backend, value in _BACKENDS.items() if matchesExtension(fileOrPath, value[1])]] *)
Definition extensionMatchedBackends (fileOrPath : string) : list string :=
  map fst (filter (fun item => matchesExtension fileOrPath (snd (snd item)) = true) _BACKENDS).

(** *** The trial loop of [openMountSource] *)

(** The loop body starts by renaming a tar compression module to [tarfile]. *)
Definition normalizeBackend (name : string) : string :=
  if bool_decide (name ∈ tarCompressionBackends) then "tarfile" else name.

(** The [try] statement of the loop body for a registered backend: [Some]
    is the [return result] inside it, [None] is falling out of it.  The call
    [backendOpen(fileOrPath, **options)] is recorded in the trace as a
    [Probe], with the position the stream has when the call is made. *)
Definition tryBackend (name : string) (backendOpen : BackendOpen)
    (fileOrPath : Source) (options : gmap string value) (printDebug : Z)
    : M (option MountSource) :=
  try_except
    (when (3 <=? printDebug) (print ("[Info] Try to open with " +:+ name)) ;;
     offset <- get_pos ;;
     emit (Probe name fileOrPath options offset) ;;
     result <- backendOpen fileOrPath options ;;
     match result with
     | Some m =>
         when (2 <=? printDebug)
           (print ("[Info] Opened archive with " +:+ name +:+ " backend.")) ;;
         ret (Some m)
     | None => ret None
     end)
    (fun exception =>
       when (2 <=? printDebug)
         (print ("[Info] Trying to open with " +:+ name +:+ " raised an exception: "
                 +:+ exn_str exception)) ;;
       when (3 <=? printDebug) (print_exc exception) ;;
       seekToStart fileOrPath printDebug ;;
       ret None).

(** [for name in names: ...] with the set [triedBackends]; [Some] is a
    [return] from inside the loop, [None] is the loop running out. *)
Fixpoint trialLoop (names : list string) (triedBackends : gset string)
    (fileOrPath : Source) (options : gmap string value) (printDebug : Z)
    : M (option MountSource) :=
  match names with
  | [] => ret None
  | name :: names' =>
      let name := normalizeBackend name in
      if bool_decide (name ∈ triedBackends) then
        trialLoop names' triedBackends fileOrPath options printDebug
      else
        let triedBackends := {[name]} ∪ triedBackends in
        match dict_get name _BACKENDS with
        | None =>
            when (1 <=? printDebug)
              (print ("[Info] Skipping unknown compression backend: " +:+ name)) ;;
            trialLoop names' triedBackends fileOrPath options printDebug
        | Some (backendOpen, _) =>
            result <- tryBackend name backendOpen fileOrPath options printDebug ;;
            match result with
            | Some m => ret (Some m)
            | None => trialLoop names' triedBackends fileOrPath options printDebug
            end
        end
  end.

(** Lines 438 to 480: the priority list, the loop and what follows it. *)
Definition trialStage (fileOrPath : Source) (options : gmap string value)
    (joinedFileName : string) (autoPrioritizedBackends : list string)
    (printDebug : Z) : M MountSource :=
  prioritizedBackends <-
    match options !! "prioritizedBackends" with
    | None => ret []
    | Some (VList l) => ret l
    | Some _ => raise (TypeError "prioritizedBackends + autoPrioritizedBackends")
    end ;;
  result <- trialLoop (prioritizedBackends ++ autoPrioritizedBackends ++ backendNames)
              ∅ fileOrPath options printDebug ;;
  match result with
  | Some m => ret m
  | None =>
      if negb (String.eqb joinedFileName "") && negb (isinstance_str fileOrPath) then
        ret (SingleFileMountSource joinedFileName fileOrPath)
      else
        raise (CompressionError
                 ("Archive to open (" +:+ Source_str fileOrPath
                  +:+ ") has unrecognized format!"))
  end.

(** *** [tryOpenURL] *)

(** [_openGitMountSource(url)] and [_openSSHFSMountSource(url)] are kept as
    single steps into the transport; a stream they hand over is at its
    start. *)
Definition call_transport (adapter : string) (open : string -> Result Resolved)
    (url : string) : M Resolved :=
  fun _ => mkOutcome (open url) 0%nat [AdapterCall adapter url].

(** [url_to_fs(url)], and the WebDAV branch behind its import test (the
    match of the URI, the credentials and the HTTPS test), as single steps. *)
Definition call_resolver (adapter : string)
    (resolve : string -> Result (FileSystem * string)) (url : string)
    : M (FileSystem * string) :=
  fun p => mkOutcome (resolve url) p [AdapterCall adapter url].

Definition call_fs {A} (op : FsOp) (method : FileSystem -> string -> Result A)
    (fs : FileSystem) (path : string) : M A :=
  fun p => mkOutcome (method fs path) p [FsCall op fs path].

(** [f.read(size)] *)
Definition read (f : Stream) (size : nat) : M unit :=
  fun p =>
    match read_error env f with
    | None => mkOutcome (Ok tt) (p + size)%nat [Read f size]
    | Some e => mkOutcome (Raise e) p [Read f size]
    end.

(** [isinstance(fileSystem, fsspec.implementations.http.HTTPFileSystem)] *)
Definition isHTTPFileSystem (fileSystem : FileSystem) : bool :=
  match fileSystem with
  | FixedDropboxDriveFileSystem _ => false
  | OtherFileSystem descr => fs_isHTTP env descr
  end.

(** [FixedSSHFileSystem.protocols] *)
Definition sshProtocols : list string := ["sftp"; "ssh"; "scp"].

(** The path given to the Dropbox file system (lines 344 to 351):
<<
    if path and not path.startswith('/'):
        path = '/' + path
    path = path.rstrip('/')
>> *)
Definition dropboxPath (path : string) : string :=
  let path :=
    if negb (String.eqb path "") && negb (PyStr.startswith path "/")
    then "/" +:+ path else path in
  PyStr.rstrip "/" path.

(** The error of lines 337 to 341, for [DROPBOX_TOKEN] not set or empty
    ([if not dropboxToken]). *)
Definition dropboxTokenMissing : exn :=
  RatarmountError
    "Please set the DROPBOX_TOKEN environment variable to mount dropbox:// URLs. Please refer to the ratarmount online ReadMe or to the DropBox documentation for creating a token.".

(** Lines 356 to 393: directory or file, and the seek test on the file. *)
Definition openFileSystemPath (url : string) (fileSystem : FileSystem)
    (path : string) (printDebug : Z) : M Resolved :=
  when (3 <=? printDebug)
    (print ("[Info] Opened filesystem: " +:+ fs_str env fileSystem)) ;;
  isDirectory <-
    (if isHTTPFileSystem fileSystem then
       mimetype <- call_fs fs_info (fs_call_info env) fileSystem path ;;
       if bool_decide (mimetype = Some "text/html")
       then call_fs fs_isdir (fs_call_isdir env) fileSystem path
       else ret false
     else call_fs fs_isdir (fs_call_isdir env) fileSystem path) ;;
  if isDirectory : bool then ret (RMount (FSSpecMountSource fileSystem path))
  else
    pathExists <- call_fs fs_exists (fs_call_exists env) fileSystem path ;;
    if negb pathExists then
      raise (RatarmountError
               ("Opening URL " +:+ url +:+ " failed because path " +:+ path
                +:+ " does not exist on remote!"))
    else
      result <- call_fs fs_open (fs_call_open env) fileSystem path ;;
      set_pos 0 ;;
      seek result 1 ;;
      read result 1 ;;
      seek result 0 ;;
      ret (RStream result).

(** The branch for [ftp] on Python before 3.9 makes the same call of
    [url_to_fs] as the last branch, with warnings silenced, and is not told
    apart from it. *)
Definition tryOpenURL (url : string) (printDebug : Z) : M Resolved :=
  let splitURI := PyStr.split1 "://" url in
  match snd splitURI with
  | None =>
      raise (RatarmountError
               ("Expected to be called with URL containing :// but got: " +:+ url))
  | Some remainder =>
      let protocol := fst splitURI in
      if String.eqb protocol "" then
        raise (RatarmountError
                 ("Expected to be called with URL containing :// but got: " +:+ url))
      else
        when (3 <=? printDebug) (print ("[Info] Try to open URL: " +:+ url)) ;;
        if String.eqb protocol "file" then ret (RPath remainder)
        else if String.eqb protocol "git" then
          call_transport "git" (git_adapter env) url
        else if has_sshfs env && bool_decide (protocol ∈ sshProtocols) then
          call_transport "sshfs" (sshfs_adapter env) url
        else if negb (has_fsspec env) then
          raise (RatarmountError
                   "An fsspec URL was detected but fsspec is not installed. Install it with: pip install ratarmount[fsspec]")
        else
          when (3 <=? printDebug) (print "[Info] Try to open with fsspec") ;;
          resolved <-
            (if String.eqb protocol "webdav" then
               if negb (has_webdav4 env) then
                 raise (RatarmountError
                          ("Install the webdav4 Python package to mount " +:+ protocol +:+ "://."))
               else call_resolver "webdav" (webdav_adapter env) remainder
             else if String.eqb protocol "dropbox" then
               if negb (has_dropboxdrivefs env) then
                 raise (RatarmountError
                          ("Install the dropboxdrivefs Python package to mount " +:+ protocol +:+ "://."))
               else
                 match os_environ env !! "DROPBOX_TOKEN" with
                 | Some dropboxToken =>
                     if String.eqb dropboxToken "" then raise dropboxTokenMissing
                     else
                       ret (FixedDropboxDriveFileSystem dropboxToken, dropboxPath remainder)
                 | None => raise dropboxTokenMissing
                 end
             else call_resolver "url_to_fs" (url_to_fs env) url) ;;
          let '(fileSystem, path) := resolved : FileSystem * string in
          openFileSystemPath url fileSystem path printDebug
  end.

(** *** [openMountSource] *)

(** Lines 426 and 427, for the first shard [first] of a split file:
<<
    if 'indexFilePath' not in options or not options['indexFilePath']:
        options['indexFilePath'] = filesToJoin[0] + ".index.sqlite"
>> *)
Definition withIndexFilePath (options : gmap string value) (first : string)
    : gmap string value :=
  match options !! "indexFilePath" with
  | Some v =>
      if truthy v then options
      else <["indexFilePath" := VStr (first +:+ ".index.sqlite")]> options
  | None => <["indexFilePath" := VStr (first +:+ ".index.sqlite")]> options
  end.

(** From line 413 on: [fileOrPath] is a path that is not a URL, or a file
    object. *)
Definition openResolved (fileOrPath : Source) (options : gmap string value)
    (printDebug : Z) : M MountSource :=
  match fileOrPath with
  | Path path =>
      match os_stat env path with
      | Missing => raise (RatarmountError ("Mount source does not exist: " +:+ path))
      | Directory =>
          ret (FolderMountSource
                 (if String.eqb path "." then "." else os_realpath env path))
      | NotDirectory =>
          match checkForSplitFile env path with
          | Some (filesToJoin, _) =>
              match filesToJoin with
              | [] => raise (IndexError "filesToJoin[0]")
              | first :: _ =>
                  let joinedFileName :=
                    PyStr.rsplit1_head "." (PyStr.basename first) in
                  let options := withIndexFilePath options first in
                  set_pos 0 ;;
                  trialStage (File (JoinedFileFromFactory env filesToJoin)) options
                    joinedFileName [] printDebug
              end
          | None =>
              trialStage fileOrPath options "" (extensionMatchedBackends path) printDebug
          end
      end
  | File _ => trialStage fileOrPath options "" [] printDebug
  end.

Definition openMountSource (fileOrPath : Source) (options : gmap string value)
    : M MountSource :=
  let printDebug := getPrintDebug options in
  match fileOrPath with
  | Path url =>
      if PyStr.contains url "://" then
        openedURL <- tryOpenURL url printDebug ;;
        match openedURL with
        | RMount m => ret m
        | RStream f =>
            let options :=
              match options !! "tarFileName" with
              | None => <["tarFileName" := VStr url]> options
              | Some _ => options
              end in
            openResolved (File f) options printDebug
        | RPath p => openResolved (Path p) options printDebug
        end
      else openResolved fileOrPath options printDebug
  | File _ => openResolved fileOrPath options printDebug
  end.

End Factory.

(** * The transports in detail

    [tryOpenURL] above takes the secure-shell transport, the repository
    transport and the WebDAV branch as single steps.  This part follows them
    statement by statement: [_openGitMountSource], [_openSSHFSMountSource]
    and lines 296 to 329 of [tryOpenURL], each over what it calls and does
    not define. *)

(** ** [_openGitMountSource] *)

(** [stat.S_ISDIR(mode)]: the file type bits of the mode are those of a
    directory, [S_IFMT(mode) == S_IFDIR]. *)
Definition S_ISDIR (mode : Z) : bool := Z.land mode 61440 =? 16384.

(** [ratarmountcore.MountSource.FileInfo], with the field the module reads. *)
Record FileInfo := { mode : Z }.

(** [ratarmountcore.GitMountSource]: whether pygit2 could be loaded, the
    exception of the constructor, if any, and the two methods called, which
    are those of the mount source made with the given arguments. *)
Record GitModule := {
  GitMountSource_enabled : bool;
  GitMountSource_init : option string → option string → option exn;
  GitMountSource_getFileInfo :
    option string → option string → string → Result (option FileInfo);
  GitMountSource_open : option string → option string → FileInfo → Result Stream;
}.

(** A [GitMountSource] is recorded by the arguments it was made with and by
    what was assigned to its attribute [prefix], if anything was. *)
Inductive GitRepository :=
| GitMountSource (repositoryPath reference : option string) (prefix : option string).

Inductive GitOpened :=
| GitMount (mountSource : GitRepository)
| GitFile (f : Stream).

(** [parts[0] if len(parts) > 1 else None] and [parts[-1]] for
    [parts = s.split(sep, 1)]. *)
Definition splitHead (parts : string * option string) : option string :=
  match snd parts with Some _ => Some (fst parts) | None => None end.

Definition splitLast (parts : string * option string) : string :=
  match snd parts with Some last => last | None => fst parts end.

(** Lines 215 to 221: the repository path, the reference and the path inside
    the repository in what follows [git://]. *)
Definition gitURLParts (rest : string) : option string * option string * string :=
  let splitRepositoryPath := PyStr.split1 ":" rest in
  let repositoryPath := splitHead splitRepositoryPath in
  let remainder := splitLast splitRepositoryPath in
  let splitReference := PyStr.split1 "@" remainder in
  let reference := splitHead splitReference in
  let pathInsideRepository := splitLast splitReference in
  (repositoryPath, reference, pathInsideRepository).

Definition _openGitMountSource (git : GitModule) (url : string) : Result GitOpened :=
  let splitURI := PyStr.split1 "://" url in
  match snd splitURI with
  | None => Raise (RatarmountError "Expected URL starting with git://")
  | Some rest =>
      if negb (String.eqb (fst splitURI) "git") then
        Raise (RatarmountError "Expected URL starting with git://")
      else if negb (GitMountSource_enabled git) then
        Raise (RatarmountError
                 "Detected git:// URL but GitMountSource could not be loaded. Please ensure that pygit2 is installed.")
      else
        let '(repositoryPath, reference, pathInsideRepository) := gitURLParts rest in
        match GitMountSource_init git repositoryPath reference with
        | Some exception => Raise exception
        | None =>
            if negb (String.eqb pathInsideRepository "") then
              match GitMountSource_getFileInfo git repositoryPath reference
                      pathInsideRepository with
              | Raise exception => Raise exception
              | Ok None =>
                  Raise (RatarmountError
                           ("The path " +:+ pathInsideRepository
                            +:+ " in the git repository specified via '" +:+ url
                            +:+ "' does not exist!"))
              | Ok (Some fileInfo) =>
                  if S_ISDIR (mode fileInfo) then
                    Ok (GitMount (GitMountSource repositoryPath reference
                                    (Some pathInsideRepository)))
                  else
                    match GitMountSource_open git repositoryPath reference fileInfo with
                    | Raise exception => Raise exception
                    | Ok file => Ok (GitFile file)
                    end
              end
            else Ok (GitMount (GitMountSource repositoryPath reference None))
        end
  end.

(** ** [_openSSHFSMountSource] *)

(** What the function calls: the constructor of [FixedSSHFileSystem] on the
    arguments [_get_kwargs_from_urls] takes from the URL,
    [fsspec.utils.infer_storage_options(url)['path']], and three methods of
    the file system. *)
Record SSHModule := {
  FixedSSHFileSystem_init : string → Result FileSystem;
  infer_storage_options_path : string → Result string;
  ssh_exists : FileSystem → string → Result bool;
  ssh_isfile : FileSystem → string → Result bool;
  ssh_open : FileSystem → string → Result Stream;
}.

(** [path[1:]] *)
Definition dropFirst (path : string) : string :=
  match path with EmptyString => EmptyString | String _ rest => rest end.

(** Lines 253 to 256:
<<
    if path.startswith("/"):
        path = path[1:]
    if not path:
        path = "."
>> *)
Definition sshPath (path : string) : string :=
  let path := if PyStr.startswith path "/" then dropFirst path else path in
  if String.eqb path "" then "." else path.

Definition _openSSHFSMountSource (installed : bool) (ssh : SSHModule) (url : string)
    : Result Resolved :=
  if negb installed then
    Raise (RatarmountError
             "Cannot open with sshfs module because it seems to not be installed!")
  else
    match FixedSSHFileSystem_init ssh url with
    | Raise exception => Raise exception
    | Ok fs =>
        match infer_storage_options_path ssh url with
        | Raise exception => Raise exception
        | Ok path =>
            let path := sshPath path in
            match ssh_exists ssh fs path with
            | Raise exception => Raise exception
            | Ok false =>
                Raise (RatarmountError
                         ("Cannot open URL: " +:+ url +:+ " because the remote path: "
                          +:+ path +:+ " does not exist!"))
            | Ok true =>
                match ssh_isfile ssh fs path with
                | Raise exception => Raise exception
                | Ok true =>
                    match ssh_open ssh fs path with
                    | Raise exception => Raise exception
                    | Ok file => Ok (RStream file)
                    end
                | Ok false => Ok (RMount (FSSpecMountSource fs path))
                end
            end
        end
    end.

(** ** The WebDAV branch of [tryOpenURL] *)

(** *** Regular expressions, as far as the pattern of the branch goes *)

(** What matches one character: the character itself, [[^...]], and [.],
    which without [re.DOTALL] is any character but the newline. *)
Inductive CharClass :=
| Literal (c : ascii)
| NoneOf (cs : list ascii)
| AnyChar.

Definition accepts (cls : CharClass) (c : ascii) : bool :=
  match cls with
  | Literal a => Ascii.eqb a c
  | NoneOf cs => negb (existsb (Ascii.eqb c) cs)
  | AnyChar => negb (Ascii.eqb c "010")
  end.

(** One character, [x*] and [(?:r)?], both greedy, concatenation, and the
    capturing group with its number. *)
Inductive Regex :=
| One (cls : CharClass)
| Star (cls : CharClass)
| Optional (r : Regex)
| Seq (r1 r2 : Regex)
| Group (number : nat) (r : Regex).

(** The text of the groups that took part in a match. *)
Definition Captures : Type := gmap nat string.

(** What a match consumed of [s] when [rest] is left of it. *)
Definition consumed (s rest : string) : string :=
  String.substring 0 (String.length s - String.length rest) s.

(** [x*] followed by [k]: as many characters as possible, one less whenever
    what follows does not match. *)
Fixpoint matchStar (cls : CharClass) (s : string) (k : string → option Captures)
    : option Captures :=
  match s with
  | EmptyString => k EmptyString
  | String c s' =>
      if accepts cls c then
        match matchStar cls s' k with
        | Some groups => Some groups
        | None => k s
        end
      else k s
  end.

(** The backtracking matcher of [re]: [r] at the start of [s], followed by
    [k] on what is left, with the groups captured so far. *)
Fixpoint matchFrom (r : Regex) (s : string) (groups : Captures)
    (k : string → Captures → option Captures) : option Captures :=
  match r with
  | One cls =>
      match s with
      | EmptyString => None
      | String c s' => if accepts cls c then k s' groups else None
      end
  | Star cls => matchStar cls s (fun rest => k rest groups)
  | Optional r' =>
      match matchFrom r' s groups k with
      | Some groups' => Some groups'
      | None => k s groups
      end
  | Seq r1 r2 =>
      matchFrom r1 s groups (fun rest groups' => matchFrom r2 rest groups' k)
  | Group number r' =>
      matchFrom r' s groups
        (fun rest groups' => k rest (<[number := consumed s rest]> groups'))
  end.

(** [re.match(pattern, string)]: the pattern at the start of the string, which
    need not end where the match ends. *)
Definition re_match (pattern : Regex) (s : string) : option Captures :=
  matchFrom pattern s ∅ (fun _ groups => Some groups).

(** The pattern of line 302, written with blanks as under [re.VERBOSE]:
<<
    (?: ( [^:/]* ) : ( [^@/]* ) @ )?  ( [^/]* )  ( .* )
>> *)
Definition webdavURI : Regex :=
  Seq (Optional
         (Seq (Group 1 (Star (NoneOf [":"; "/"]%char)))
            (Seq (One (Literal ":"))
               (Seq (Group 2 (Star (NoneOf ["@"; "/"]%char)))
                  (One (Literal "@"))))))
    (Seq (Group 3 (Star (NoneOf ["/"]%char)))
       (Group 4 (Star AnyChar))).

(** *** The branch *)

(** The client the branch makes: [WebdavFileSystem(base_url, auth=auth)]. *)
Inductive WebdavClient :=
| WebdavFileSystem (base_url : string) (auth : option (string * string)).

(** What the branch calls: the HEAD request of [checkForHTTPS] to the host of
    the third group, with the truth value of its response, and the
    constructor of the client with the exception it raises, if any. *)
Record WebdavModule := {
  HTTPSConnection_head : option string → Result bool;
  WebdavFileSystem_init : string → option (string * string) → option exn;
}.

(** [f"{x}"] for a string or [None]. *)
Definition format_optional (x : option string) : string :=
  match x with Some s => s | None => "None" end.

(** The error of lines 304 to 308. *)
Definition webdavURIMismatch : exn :=
  RatarmountError
    ("Failed to match WebDAV URI of the format webdav://[user:password@]host[:port][/path]"
     +:+ String "010" ""
     +:+ "If your user name or password contains special characters such as ':/@', then use the environment variables WEBDAV_USER and WEBDAV_PASSWORD to specify them.").

(** Lines 312 to 316: what the URI does not give is taken from the
    environment, and there is no authentication without both. *)
Definition webdavAuth (environ : gmap string string) (username password : option string)
    : option (string * string) :=
  let username :=
    match username with
    | None => environ !! "WEBDAV_USER"
    | Some _ => username
    end in
  let password :=
    match password with
    | None => environ !! "WEBDAV_PASSWORD"
    | Some _ => password
    end in
  match username, password with
  | Some u, Some p => Some (u, p)
  | _, _ => None
  end.

(** [checkForHTTPS(url)] *)
Definition checkForHTTPS (web : WebdavModule) (url : option string) (printDebug : Z)
    : M bool :=
  match HTTPSConnection_head web url with
  | Ok response => ret response
  | Raise exception =>
      when (3 <=? printDebug)
        (print ("[Info] Determined WebDAV URL to not use HTTP instead HTTPS because of: "
                +:+ exn_str exception)) ;;
      ret false
  end.

(** Lines 296 to 329, for what follows [webdav://]: the file system and the
    path that go on to the test for a directory. *)
Definition openWebdav (env : Env) (web : WebdavModule) (rest : string) (printDebug : Z)
    : M (WebdavClient * string) :=
  if negb (has_webdav4 env) then
    raise (RatarmountError "Install the webdav4 Python package to mount webdav://.")
  else
    match re_match webdavURI rest with
    | None => raise webdavURIMismatch
    | Some groups =>
        let username := groups !! 1%nat in
        let password := groups !! 2%nat in
        let baseURL := groups !! 3%nat in
        let path := match groups !! 4%nat with Some path => path | None => "" end in
        let auth := webdavAuth (os_environ env) username password in
        isHTTPS <- checkForHTTPS web baseURL printDebug ;;
        let transportProtocol := if isHTTPS : bool then "https" else "http" in
        let base_url := transportProtocol +:+ "://" +:+ format_optional baseURL in
        match WebdavFileSystem_init web base_url auth with
        | Some exception => raise exception
        | None => ret (WebdavFileSystem base_url auth, path)
        end
    end.

(** * The options as dict objects

    The computations above pass keyword arguments by value, which is what a
    call [f(x, **options)] does: the callee gets a dict of its own.  One
    function of the module deletes from a dict, [_openTarMountSource] in
    line 96.  To say which dict that is, and that the dict of the caller is
    not it, this part follows lines 92 to 99 over a store of dict
    objects. *)

(** The dicts there are, each with its items; a dict is known by its place
    in the store. *)
Abbreviation Store := (list (gmap string value)).

(** The items of the dict [d]; every dict that the statements below name is
    in the store. *)
Definition dict_items (d : nat) (σ : Store) : gmap string value :=
  match σ !! d with Some items => items | None => ∅ end.

(** [d.copy()], and the dict that a call [f(x, **d)] builds for its callee: a
    new dict with the items of [d]. *)
Definition dict_copy (d : nat) (σ : Store) : nat * Store :=
  (length σ, σ ++ [dict_items d σ]).

(** [del d[key]] *)
Definition dict_del (d : nat) (key : string) (σ : Store) : Store :=
  match σ !! d with
  | Some items => <[d := delete key items]> σ
  | None => σ
  end.

(** ['tarFileName' in options] *)
Definition dict_contains (d : nat) (key : string) (σ : Store) : bool :=
  bool_decide (is_Some (dict_items d σ !! key)).

(** Lines 92 to 99, where [options] is the dict of the keyword arguments the
    function was called with: the dict the constructor of [SQLiteIndexedTar]
    gets as its keyword arguments, and the store the call leaves.
<<
    if isinstance(fileOrPath, str):
        if 'tarFileName' in options:
            copiedOptions = options.copy()
            del copiedOptions['tarFileName']
            return SQLiteIndexedTar(fileOrPath, **copiedOptions)
        return SQLiteIndexedTar(fileOrPath, **options)
    return SQLiteIndexedTar(fileObject=fileOrPath, **options)
>> *)
Definition _openTarMountSource_kwargs (fileOrPath : Source) (options : nat) (σ : Store)
    : nat * Store :=
  if isinstance_str fileOrPath then
    if dict_contains options "tarFileName" σ then
      let '(copiedOptions, σ) := dict_copy options σ in
      let σ := dict_del copiedOptions "tarFileName" σ in
      dict_copy copiedOptions σ
    else dict_copy options σ
  else dict_copy options σ.

(** [backendOpen(fileOrPath, **options)] in line 457 for the backend
    [tarfile], where [options] is the dict of [openMountSource]. *)
Definition call_openTarMountSource (fileOrPath : Source) (options : nat) (σ : Store)
    : nat * Store :=
  let '(kwargs, σ) := dict_copy options σ in
  _openTarMountSource_kwargs fileOrPath kwargs σ.

(** * The vocabulary of the properties *)

(** ** Reading a trace *)

(** The backend probes of a trace: which backend was called, and at which
    read position of the source. *)
Definition probeOf (e : event) : option (string * nat) :=
  match e with
  | Probe name _ _ offset => Some (name, offset)
  | _ => None
  end.

Definition probeSeq (evs : list event) : list (string * nat) := omap probeOf evs.

Definition probedNames (evs : list event) : list string := (probeSeq evs).*1.

Definition isPrint (e : event) : bool :=
  match e with Print _ | PrintExc _ => true | _ => false end.

(** The calls into transports and file systems. *)
Definition isRemoteCall (e : event) : bool :=
  match e with AdapterCall _ _ | FsCall _ _ _ => true | _ => false end.

(** A computation none of whose events is a probe, wherever it starts. *)
Definition quiet {A} (m : M A) : Prop := ∀ p, probeSeq (events (m p)) = [].

(** ** One iteration of the trial loop *)

(** What the handler of the loop prints for an exception of a probe. *)
Definition probeErrorLog (name : string) (exception : exn) (printDebug : Z) : list event :=
  (if 2 <=? printDebug
   then [Print ("[Info] Trying to open with " +:+ name +:+ " raised an exception: "
                +:+ exn_str exception)]
   else [])
  ++ (if 3 <=? printDebug then [PrintExc exception] else []).

(** What is printed when rewinding the source raises. *)
Definition seekErrorLog (exception : exn) (printDebug : Z) : list event :=
  (if 1 <=? printDebug
   then [Print ("[Info] seek(0) raised an exception: " +:+ exn_str exception)]
   else [])
  ++ (if 2 <=? printDebug then [PrintExc exception] else []).

(** An outcome with events put in front of it. *)
Definition prepend {A} (evs : list event) (o : Outcome A) : Outcome A :=
  mkOutcome (result o) (final_pos o) (evs ++ events o).

(** What one pass through the [try] statement leaves in the trace before the
    backend runs. *)
Definition probeIntro (name : string) (fileOrPath : Source)
    (options : gmap string value) (printDebug : Z) (p : nat) : list event :=
  (if 3 <=? printDebug then [Print ("[Info] Try to open with " +:+ name)] else [])
  ++ [Probe name fileOrPath options p].

(** ** The order of the candidates *)

(** A list without its repetitions, the first occurrence of each element
    staying where it is. *)
Fixpoint firstOccurrences (l : list string) : list string :=
  match l with
  | [] => []
  | x :: l' => x :: filter (λ y, y ≠ x) (firstOccurrences l')
  end.

Definition isRegistered (env : Env) (name : string) : Prop :=
  is_Some (dict_get name (_BACKENDS env)).

#[export] Instance isRegistered_dec env name : Decision (isRegistered env name).
Proof. unfold isRegistered. apply _. Defined.

(** The backends a trial probes when none accepts: the names in the order
    given, each tar compression module replaced by [tarfile], repetitions and
    names that are not registered dropped. *)
Definition candidateOrder (env : Env) (names : list string) : list string :=
  filter (isRegistered env) (firstOccurrences (map (normalizeBackend env) names)).

(** The same, as the loop computes it with its set of tried names. *)
Fixpoint loopOrder (env : Env) (names : list string) (tried : gset string) : list string :=
  match names with
  | [] => []
  | name :: names' =>
      let n := normalizeBackend env name in
      if decide (n ∈ tried) then loopOrder env names' tried
      else if decide (isRegistered env n)
           then n :: loopOrder env names' ({[n]} ∪ tried)
           else loopOrder env names' ({[n]} ∪ tried)
  end.

(** ** The runs of the trial loop *)

Definition skipLog (name : string) (printDebug : Z) : list event :=
  if 1 <=? printDebug
  then [Print ("[Info] Skipping unknown compression backend: " +:+ name)]
  else [].

Definition openedLog (name : string) (printDebug : Z) : list event :=
  if 2 <=? printDebug
  then [Print ("[Info] Opened archive with " +:+ name +:+ " backend.")]
  else [].

(** The runs of [trialLoop], one rule for each way through the loop body:
    the name was tried before; it is not registered; its probe returns a
    mount source, returns [None], or raises. *)
Inductive Run (env : Env) (fileOrPath : Source) (options : gmap string value)
    (printDebug : Z)
    : list string → gset string → nat → Outcome (option MountSource) → Prop :=
| Run_done tried p :
    Run env fileOrPath options printDebug [] tried p (mkOutcome (Ok None) p [])
| Run_tried name names tried p o :
    normalizeBackend env name ∈ tried →
    Run env fileOrPath options printDebug names tried p o →
    Run env fileOrPath options printDebug (name :: names) tried p o
| Run_unknown name names tried p o :
    normalizeBackend env name ∉ tried →
    dict_get (normalizeBackend env name) (_BACKENDS env) = None →
    Run env fileOrPath options printDebug names ({[normalizeBackend env name]} ∪ tried) p o →
    Run env fileOrPath options printDebug (name :: names) tried p
      (prepend (skipLog (normalizeBackend env name) printDebug) o)
| Run_accept name names tried p backendOpen extensions m :
    let n := normalizeBackend env name in
    let ob := backendOpen fileOrPath options p in
    n ∉ tried →
    dict_get n (_BACKENDS env) = Some (backendOpen, extensions) →
    result ob = Ok (Some m) →
    Run env fileOrPath options printDebug (name :: names) tried p
      (mkOutcome (Ok (Some m)) (final_pos ob)
         (probeIntro n fileOrPath options printDebug p ++ events ob
          ++ openedLog n printDebug))
| Run_decline name names tried p backendOpen extensions o :
    let n := normalizeBackend env name in
    let ob := backendOpen fileOrPath options p in
    n ∉ tried →
    dict_get n (_BACKENDS env) = Some (backendOpen, extensions) →
    result ob = Ok None →
    Run env fileOrPath options printDebug names ({[n]} ∪ tried) (final_pos ob) o →
    Run env fileOrPath options printDebug (name :: names) tried p
      (prepend (probeIntro n fileOrPath options printDebug p ++ events ob) o)
| Run_raise name names tried p backendOpen extensions e o :
    let n := normalizeBackend env name in
    let ob := backendOpen fileOrPath options p in
    let os := seekToStart fileOrPath printDebug (final_pos ob) in
    n ∉ tried →
    dict_get n (_BACKENDS env) = Some (backendOpen, extensions) →
    result ob = Raise e →
    Run env fileOrPath options printDebug names ({[n]} ∪ tried) (final_pos os) o →
    Run env fileOrPath options printDebug (name :: names) tried p
      (prepend (probeIntro n fileOrPath options printDebug p ++ events ob
                ++ probeErrorLog n e printDebug ++ events os) o).

(** ** What a run of the trial loop does *)

(** A probe that does not hand back a mount source: it returns [None] or
    raises. *)
Definition declinesAt (env : Env) (src : Source) (opts : gmap string value)
    (probe : string * nat) : Prop :=
  ∀ backendOpen extensions m,
    dict_get probe.1 (_BACKENDS env) = Some (backendOpen, extensions) →
    result (backendOpen src opts probe.2) ≠ Ok (Some m).

(** The arguments a probe was called with. *)
Definition probeArgs (e : event) : option (Source * gmap string value) :=
  match e with
  | Probe _ fileOrPath options _ => Some (fileOrPath, options)
  | _ => None
  end.


(** ** The trial stage *)

(** The list under [prioritizedBackends], when it is one. *)
Definition priorityList (options : gmap string value) : option (list string) :=
  match options !! "prioritizedBackends" with
  | None => Some []
  | Some (VList l) => Some l
  | Some _ => None
  end.

(** The message of the error for a source no backend accepts. *)
Definition unrecognizedFormat (fileOrPath : Source) : exn :=
  CompressionError
    ("Archive to open (" +:+ Source_str fileOrPath +:+ ") has unrecognized format!").


(** Whether the fallback to a single joined file applies (line 477). *)
Definition joinedFallback (joinedFileName : string) (fileOrPath : Source) : bool :=
  negb (String.eqb joinedFileName "") && negb (isinstance_str fileOrPath).

(** ** The URL resolver *)

(** A computation all of whose events satisfy [P], wherever it starts. *)
Definition emits {A} (P : event → Prop) (m : M A) : Prop :=
  ∀ p, Forall P (events (m p)).

(** The line of level 3 that [tryOpenURL] starts with. *)
Definition tryOpenLog (url : string) (printDebug : Z) : list event :=
  if 3 <=? printDebug then [Print ("[Info] Try to open URL: " +:+ url)] else [].

(** The events of [tryOpenURL] before it has a file system: lines of the
    log and the calls of the adapters. *)
Definition beforeFileSystem (e : event) : bool :=
  match e with Print _ | AdapterCall _ _ => true | _ => false end.

(** Whatever [openFileSystemPath] asks of a file system, it asks the one it
    was given about the path it was given; and it probes no backend. *)
Definition onFileSystem (fs : FileSystem) (path : string) (e : event) : Prop :=
  match e with
  | FsCall _ fs' path' => fs' = fs ∧ path' = path
  | Probe _ _ _ _ | AdapterCall _ _ => False
  | _ => True
  end.

Definition notProbe (e : event) : Prop := probeOf e = None.

(** ** Concrete environments *)

Module Sample.

(** The shape of the tables of [ratarmountcore.compressions]: the compressions
    of TAR archives with the modules that read them, and some of the other
    formats. *)
Definition compression (suffixes doubleSuffixes modules : list string)
    : CompressionInfo.t :=
  {| CompressionInfo.suffixes := suffixes;
     CompressionInfo.doubleSuffixes := doubleSuffixes;
     CompressionInfo.modules :=
       map (λ n, {| CompressionModuleInfo.name := n |}) modules |}.

Definition tarCompressions : list (string * CompressionInfo.t) :=
  [ ("bz2", compression ["bz2"; "bzip2"] ["tb2"; "tbz"; "tbz2"; "tz2"] ["rapidgzip"]);
    ("gz", compression ["gz"; "gzip"] ["taz"; "tgz"] ["rapidgzip"; "indexed_gzip"]);
    ("xz", compression ["xz"] ["txz"] ["xz"]);
    ("zst", compression ["zst"; "zstd"] ["tzst"] ["indexed_zstd"]) ].

Definition compressions : list (string * CompressionInfo.t) :=
  tarCompressions ++
  [ ("7z", compression ["7z"] [] ["libarchive"; "py7zr"]);
    ("ar", compression ["a"; "ar"] [] ["libarchive"]);
    ("rar", compression ["rar"] [] ["rarfile"]);
    ("zip", compression ["zip"] [] ["zipfile"]);
    ("squashfs", compression ["squashfs"] [] ["PySquashfsImage"]);
    ("sqlar", compression ["sqlar"] [] ["sqlite3"]) ].

(** A stream with a working [seek]. *)
Definition stream (repr : string) : Stream :=
  {| s_repr := repr; s_hasSeek := true; s_seekError := None |}.

(** A format test that reads [n] bytes and says no. *)
Definition readsAndDeclines (n : nat)
    : FormatCheck → Source → nat → Result bool * nat :=
  λ _ _ p, (Ok false, (p + n)%nat).

(** A constructor that rejects whatever it is given. *)
Definition rejects : MountSourceClass → Source → gmap string value → nat → option exn * nat :=
  λ _ _ _ p, (Some (Exception "ValueError" "not a valid archive"), p).

(** A constructor that accepts TAR archives and rejects everything else. *)
Definition acceptsTar : MountSourceClass → Source → gmap string value → nat → option exn * nat :=
  λ cls _ _ p,
    match cls with
    | SQLiteIndexedTar => (None, p)
    | _ => (Some (Exception "ValueError" "not a valid archive"), p)
    end.

(** An installation with every optional module, on which the paths of
    [stat] exist, [split] detects split files, and the format tests and the
    constructors behave as given; the secure-shell transport hands over a
    stream, the others are out of reach. *)
Definition env (stat : string → PathKind)
    (split : string → option (list string * string))
    (check : FormatCheck → Source → nat → Result bool * nat)
    (ctor : MountSourceClass → Source → gmap string value → nat → option exn * nat)
    (environ : gmap string string) : Env :=
  {| has_rarfile := true; has_zipfile := true; has_py7zr := true;
     has_libarchive := true; has_PySquashfsImage := true;
     has_fsspec := true; has_sshfs := true; has_webdav4 := true;
     has_dropboxdrivefs := true;
     supportedCompressions := compressions;
     TAR_COMPRESSION_FORMATS := tarCompressions;
     checkForSplitFile := split;
     os_stat := stat;
     os_realpath := λ path, path;
     os_environ := environ;
     JoinedFileFromFactory := λ files, stream "<JoinedFileFromFactory>";
     format_check := check;
     construct := ctor;
     git_adapter := λ _, Raise (RatarmountError "unreachable");
     sshfs_adapter := λ url, Ok (RStream (stream "<SSHFile>"));
     webdav_adapter := λ _, Raise (RatarmountError "unreachable");
     url_to_fs := λ _, Raise (RatarmountError "unreachable");
     fs_isHTTP := λ _, false;
     fs_str := λ _, "<filesystem>";
     fs_call_info := λ _ _, Ok None;
     fs_call_isdir := λ _ path, Ok (bool_decide (path = ""));
     fs_call_exists := λ _ _, Ok true;
     fs_call_open := λ _ path, Ok (stream path);
     read_error := λ _, None |}.

Definition allFiles : string → PathKind := λ _, NotDirectory.
Definition noSplit : string → option (list string * string) := λ _, None.

(** Nothing is an archive: the format tests say no and leave the stream where
    it was, the constructors raise. *)
Definition plain : Env := env allFiles noSplit (readsAndDeclines 0) rejects ∅.

(** [libfoo.a] and [libfoo.b] lie side by side and are taken for the two
    shards of a split file. *)
Definition sideBySide : Env :=
  env allFiles
    (λ path, if String.eqb path "libfoo.a"
             then Some (["libfoo.a"; "libfoo.b"], "a") else None)
    (readsAndDeclines 0) rejects ∅.

(** The format tests read seven bytes before they say no. *)
Definition reading : Env := env allFiles noSplit (readsAndDeclines 7) rejects ∅.

(** The two shards of [archive.bin]. *)
Definition shards : Env :=
  env allFiles
    (λ path, if String.eqb path "/data/archive.bin.001"
             then Some (["/data/archive.bin.001"; "/data/archive.bin.002"], "0")
             else None)
    (readsAndDeclines 0) rejects ∅.

(** A Dropbox token is set. *)
Definition withToken : Env :=
  env allFiles noSplit (readsAndDeclines 0) rejects {[ "DROPBOX_TOKEN" := "secret" ]}.

(** TAR archives are recognized. *)
Definition tars : Env := env allFiles noSplit (readsAndDeclines 0) acceptsTar ∅.

(** [/data] is a directory, [/data/blob.bin] a file, nothing else exists. *)
Definition disk : Env :=
  env (λ path, if String.eqb path "/data" then Directory
               else if String.eqb path "/data/blob.bin" then NotDirectory
               else Missing)
    noSplit (readsAndDeclines 0) rejects ∅.

(** Options that put the unknown name [Z] first. *)
Definition priorityZ : gmap string value :=
  {[ "prioritizedBackends" := VList ["Z"] ]}.

End Sample.

(** ** What the backends hand back *)

(** A computation whose value, when it has one, satisfies [Q]. *)
Definition yields {A} (Q : A → Prop) (m : M A) : Prop :=
  ∀ p a, result (m p) = Ok a → Q a.

Definition isArchive (m : MountSource) : Prop :=
  match m with Archive _ _ _ => True | _ => False end.

Definition archiveOrNone (r : option MountSource) : Prop :=
  match r with Some m => isArchive m | None => True end.

(** ** The stages of [openMountSource] *)

(** The source and the options the candidates of a local path are probed
    with: the path itself, or the joined shards when it is one of a split
    file. *)
Definition trialSource (env : Env) (path : string) : Source :=
  match checkForSplitFile env path with
  | Some (filesToJoin, _) => File (JoinedFileFromFactory env filesToJoin)
  | None => Path path
  end.

Definition trialOptions (env : Env) (path : string) (opts : gmap string value)
    : gmap string value :=
  match checkForSplitFile env path with
  | Some (first :: _, _) => withIndexFilePath opts first
  | _ => opts
  end.

(** The backends whose extensions are tried first for a local path: none for
    a shard of a split file. *)
Definition autoPrioritizedBackends (env : Env) (path : string) : list string :=
  match checkForSplitFile env path with
  | Some _ => []
  | None => extensionMatchedBackends env path
  end.

(** The name of the joined file: the first shard's base name up to its last
    dot; empty when the path is no shard. *)
Definition joinedFileName (env : Env) (path : string) : string :=
  match checkForSplitFile env path with
  | Some (first :: _, _) => PyStr.rsplit1_head "." (PyStr.basename first)
  | _ => ""
  end.

(** A shard list that [checkForSplitFile] returned is empty. *)
Definition emptySplit (env : Env) (path : string) : Prop :=
  ∃ format, checkForSplitFile env path = Some ([], format).

(** ** C1: the order of the candidates *)

(** The order as the specification words it: the priority list, with the tar
    compression modules it names replaced by [tarfile], then the backends
    whose extensions match the file name, then every registered backend,
    without repetitions and without the names that are not registered. *)
Definition statedCandidateOrder (env : Env) (prio : list string) (path : string)
    : list string :=
  filter (isRegistered env)
    (firstOccurrences
       (map (normalizeBackend env) prio ++ extensionMatchedBackends env path
        ++ backendNames env)).

(** ** C2: rewinding the stream between probes *)

(** C2 as stated, for a call on a stream: every probe after the first one
    finds the stream at its start. *)
Definition C2_as_stated (env : Env) (f : Stream) (opts : gmap string value) (p : nat)
    : Prop :=
  ∀ l1 n1 p1 n2 p2 l2,
    probeSeq (events (openMountSource env (File f) opts p))
    = l1 ++ (n1, p1) :: (n2, p2) :: l2 →
    p2 = 0%nat.

(** ** C3: the error for an unrecognized format *)


(** Nothing was printed. *)
Definition noPrints (evs : list event) : bool := forallb (λ e, negb (isPrint e)) evs.

(** ** C4: exceptions of probes *)


(** ** C5: the fallback for split files *)


(** ** C8: [dropbox://] *)

(** C8 as stated, on the path: every path that is handed to a file system
    while a [dropbox://] URL is resolved starts with a slash and does not end
    with one. *)
Definition C8_as_stated (env : Env) (rest : string) (pd : Z) (p : nat) : Prop :=
  ∀ op fs path,
    FsCall op fs path ∈ events (tryOpenURL env ("dropbox://" +:+ rest) pd p) →
    PyStr.startswith path "/" = true ∧ PyStr.endswith path "/" = false.

(** ** C9: names in the priority list that are not registered *)

(** The line the loop prints for a name it does not know. *)
Definition skipLine (name : string) : event :=
  Print ("[Info] Skipping unknown compression backend: " +:+ name).

Definition isSkipLine (name : string) (e : event) : bool :=
  match e with
  | Print line =>
      String.eqb line ("[Info] Skipping unknown compression backend: " +:+ name)
  | _ => false
  end.

(** A trace without the lines about skipping [name]. *)
Definition withoutSkipLines (name : string) (evs : list event) : list event :=
  filter (λ e, isSkipLine name e = false) evs.

(** Two sets of tried names that differ by [unknown] at most. *)
Definition sameButFor (unknown : string) (tried tried' : gset string) : Prop :=
  ∀ n, n ≠ unknown → n ∈ tried ↔ n ∈ tried'.

(** [triedBackends] after the loop has gone through all of [names], when it
    was [tried] before. *)
Definition triedAfter (env : Env) (names : list string) (tried : gset string)
    : gset string :=
  list_to_set (map (normalizeBackend env) names) ∪ tried.

(** C9 as stated, on the logging: for a name of the priority list that is
    neither registered nor a tar compression module, the line about skipping
    it is printed. *)
Definition C9_as_stated (env : Env) (src : Source) (opts : gmap string value)
    (p : nat) : Prop :=
  ∀ prio unknown,
    priorityList opts = Some prio →
    unknown ∈ prio →
    dict_get unknown (_BACKENDS env) = None →
    unknown ∉ tarCompressionBackends env →
    skipLine unknown ∈ events (openMountSource env src opts p).

(** ** Further vocabulary *)

(** *** The backends *)

(** The class each backend instantiates (lines 88 to 163). *)
Definition backendClass (name : string) : option MountSourceClass :=
  dict_get name
    [ ("rarfile", RarMountSource); ("tarfile", SQLiteIndexedTar);
      ("zipfile", ZipMountSource); ("pysquashfsimage", SquashFSMountSource);
      ("libarchive", LibarchiveMountSource); ("py7zr", Py7zrMountSource);
      ("pyfatfs", FATMountSource); ("ext4", EXT4MountSource);
      ("sqlar", SQLARMountSource); ("SQLiteIndex", SQLiteIndexMountSource) ].

(** The options a backend gives to the constructor of its class: those it
    was called with, without [tarFileName] when [tarfile] opens a path. *)
Definition constructorOptions (name : string) (fileOrPath : Source)
    (options : gmap string value) : gmap string value :=
  if String.eqb name "tarfile" && isinstance_str fileOrPath
  then delete "tarFileName" options else options.

(** The backends that test the format before they construct anything. *)
Definition testingBackends : list string :=
  ["rarfile"; "zipfile"; "pysquashfsimage"; "py7zr"].

(** What a backend hands back, when it hands back anything: an object of
    its class, made from the source and the options above. *)
Definition builtBy (name : string) (src : Source) (opts : gmap string value)
    (r : option MountSource) : Prop :=
  ∀ m, r = Some m →
    ∃ cls, backendClass name = Some cls
           ∧ m = Archive cls src (constructorOptions name src opts).

(** *** Printing *)

(** A computation that prints nothing, wherever it starts. *)
Definition silent {A} (m : M A) : Prop := emits (λ e, isPrint e = false) m.

(** *** The URL resolver *)

(** The error of [tryOpenURL] for a string without a protocol (line 268). *)
Definition notAURL (url : string) : exn :=
  RatarmountError ("Expected to be called with URL containing :// but got: " +:+ url).

(** Lines 370 to 393 of [tryOpenURL]: the path is no directory. *)
Definition remoteFileMissing (url path : string) : exn :=
  RatarmountError
    ("Opening URL " +:+ url +:+ " failed because path " +:+ path
     +:+ " does not exist on remote!").

(** What [openFileSystemPath] does once the path is known to be no directory,
    by the answers of the file system and of the stream. *)
Definition openedFile (env : Env) (url : string) (fs : FileSystem) (path : string)
    (p : nat) : Outcome Resolved :=
  match fs_call_exists env fs path with
  | Raise e => mkOutcome (Raise e) p [FsCall fs_exists fs path]
  | Ok false => mkOutcome (Raise (remoteFileMissing url path)) p [FsCall fs_exists fs path]
  | Ok true =>
      match fs_call_open env fs path with
      | Raise e => mkOutcome (Raise e) p [FsCall fs_exists fs path; FsCall fs_open fs path]
      | Ok f =>
          match s_seekError f with
          | Some e =>
              mkOutcome (Raise e) 0%nat
                [FsCall fs_exists fs path; FsCall fs_open fs path; Seek f 1]
          | None =>
              match read_error env f with
              | Some e =>
                  mkOutcome (Raise e) 1%nat
                    [FsCall fs_exists fs path; FsCall fs_open fs path; Seek f 1; Read f 1]
              | None =>
                  mkOutcome (Ok (RStream f)) 0%nat
                    [FsCall fs_exists fs path; FsCall fs_open fs path;
                     Seek f 1; Read f 1; Seek f 0]
              end
          end
      end
  end.

(** The test for a directory: its answer, or its exception, and the calls it
    made. *)
Definition directoryTest (env : Env) (fs : FileSystem) (path : string)
    : Result bool * list event :=
  if isHTTPFileSystem env fs then
    match fs_call_info env fs path with
    | Raise e => (Raise e, [FsCall fs_info fs path])
    | Ok mimetype =>
        if bool_decide (mimetype = Some "text/html")
        then (fs_call_isdir env fs path, [FsCall fs_info fs path; FsCall fs_isdir fs path])
        else (Ok false, [FsCall fs_info fs path])
    end
  else (fs_call_isdir env fs path, [FsCall fs_isdir fs path]).

(** *** The transports in detail *)

(** The string a repository path, a reference and a path are written as. *)
Definition gitURLRest (parts : option string * option string * string) : string :=
  let '(repositoryPath, reference, pathInsideRepository) := parts in
  match repositoryPath with Some r => r +:+ ":" | None => "" end
  +:+ match reference with Some r => r +:+ "@" | None => "" end
  +:+ pathInsideRepository.

(** The longest start of [s] whose characters [cls] accepts, and what
    follows it. *)
Fixpoint span (cls : CharClass) (s : string) : string * string :=
  match s with
  | EmptyString => (EmptyString, EmptyString)
  | String c s' =>
      if accepts cls c then let '(a, b) := span cls s' in (String c a, b)
      else (EmptyString, s)
  end.

(** Every character of [s] is accepted by [cls]. *)
Fixpoint allAccepted (cls : CharClass) (s : string) : bool :=
  match s with
  | EmptyString => true
  | String c s' => accepts cls c && allAccepted cls s'
  end.

(** [s] does not start with a character that [cls] accepts. *)
Definition stopsAt (cls : CharClass) (s : string) : bool :=
  match s with
  | EmptyString => true
  | String c _ => negb (accepts cls c)
  end.

(** The user name and the password in front of the host, when the URI has
    them: [user:password@], neither with a slash, the user name without a
    colon, the password without an at sign. *)
Definition webdavCredentials (rest : string) : option (string * string * string) :=
  let '(username, afterUser) := span (NoneOf [":"; "/"]%char) rest in
  match afterUser with
  | String c afterColon =>
      if Ascii.eqb ":" c then
        let '(password, afterPassword) := span (NoneOf ["@"; "/"]%char) afterColon in
        match afterPassword with
        | String c' afterAt =>
            if Ascii.eqb "@" c' then Some (username, password, afterAt) else None
        | EmptyString => None
        end
      else None
  | EmptyString => None
  end.

(** The four groups of the pattern on [rest]. *)
Definition webdavGroups (rest : string) : Captures :=
  match webdavCredentials rest with
  | Some (username, password, afterAt) =>
      let '(host, afterHost) := span (NoneOf ["/"]%char) afterAt in
      <[4%nat := fst (span AnyChar afterHost)]>
        (<[3%nat := host]> (<[2%nat := password]> (<[1%nat := username]> ∅)))
  | None =>
      let '(host, afterHost) := span (NoneOf ["/"]%char) rest in
      <[4%nat := fst (span AnyChar afterHost)]> (<[3%nat := host]> ∅)
  end.

(** ** Collaborators of the transports, for the examples *)

Module Remote.

(** A repository in which [src] is a directory and [README.md] a regular
    file, whatever the repository path and the reference are. *)
Definition git : GitModule :=
  {| GitMountSource_enabled := true;
     GitMountSource_init := λ _ _, None;
     GitMountSource_getFileInfo := λ _ _ path,
       if String.eqb path "src" then Ok (Some {| mode := 16877 |})
       else if String.eqb path "README.md" then Ok (Some {| mode := 33188 |})
       else Ok None;
     GitMountSource_open := λ _ _ _, Ok (Sample.stream "<GitFile>") |}.

(** A host on which [.] and [data] are directories and [data/archive.tar] is
    a file; the path of a URL is what follows the first slash after the
    host, with that slash. *)
Definition ssh : SSHModule :=
  {| FixedSSHFileSystem_init := λ _, Ok (OtherFileSystem "<SSHFileSystem>");
     infer_storage_options_path := λ url,
       match snd (PyStr.split1 "://" url) with
       | Some rest =>
           match PyStr.split1 "/" rest with
           | (_, Some path) => Ok ("/" +:+ path)
           | (_, None) => Ok ""
           end
       | None => Ok url
       end;
     ssh_exists := λ _ path,
       Ok (String.eqb path "." || String.eqb path "data"
           || String.eqb path "data/archive.tar");
     ssh_isfile := λ _ path, Ok (String.eqb path "data/archive.tar");
     ssh_open := λ _ path, Ok (Sample.stream path) |}.

(** A host that does not answer HTTPS. *)
Definition webdav : WebdavModule :=
  {| HTTPSConnection_head := λ _, Raise (Exception "ConnectionRefusedError" "Connection refused");
     WebdavFileSystem_init := λ _ _, None |}.

(** The credentials for WebDAV are in the environment. *)
Definition withCredentials : Env :=
  Sample.env Sample.allFiles Sample.noSplit (Sample.readsAndDeclines 0) Sample.rejects
    {[ "WEBDAV_USER" := "ada"; "WEBDAV_PASSWORD" := "from the environment" ]}.

End Remote.

(** * Proofs *)

(** ** Equations of the computation *)

Section MonadFacts.

Context {A B : Type}.

Lemma result_bind (m : M A) (k : A -> M B) p :
  result (bind m k p) =
  match result (m p) with
  | Ok a => result (k a (final_pos (m p)))
  | Raise e => Raise e
  end.
Proof. unfold bind. destruct (result (m p)); reflexivity. Qed.

Lemma final_pos_bind (m : M A) (k : A -> M B) p :
  final_pos (bind m k p) =
  match result (m p) with
  | Ok a => final_pos (k a (final_pos (m p)))
  | Raise _ => final_pos (m p)
  end.
Proof. unfold bind. destruct (result (m p)); reflexivity. Qed.

Lemma events_bind (m : M A) (k : A -> M B) p :
  events (bind m k p) =
  events (m p) ++
  match result (m p) with
  | Ok a => events (k a (final_pos (m p)))
  | Raise _ => []
  end.
Proof.
  unfold bind. destruct (result (m p)); simpl; [reflexivity|].
  symmetry. apply app_nil_r.
Qed.

End MonadFacts.

Lemma probeSeq_app (l1 l2 : list event) :
  probeSeq (l1 ++ l2) = probeSeq l1 ++ probeSeq l2.
Proof. unfold probeSeq. apply omap_app. Qed.

Lemma probedNames_app (l1 l2 : list event) :
  probedNames (l1 ++ l2) = probedNames l1 ++ probedNames l2.
Proof. unfold probedNames. rewrite probeSeq_app. apply fmap_app. Qed.

Lemma quiet_ret {A} (a : A) : quiet (ret a).
Proof. intros p. reflexivity. Qed.

Lemma quiet_raise {A} (e : exn) : quiet (@raise A e).
Proof. intros p. reflexivity. Qed.

Lemma quiet_bind {A B} (m : M A) (k : A -> M B) :
  quiet m → (∀ a, quiet (k a)) → quiet (bind m k).
Proof.
  intros Hm Hk p. rewrite events_bind, probeSeq_app, Hm.
  destruct (result (m p)); [apply Hk | reflexivity].
Qed.

Lemma quiet_try_except {A} (m : M A) (h : exn -> M A) :
  quiet m → (∀ e, quiet (h e)) → quiet (try_except m h).
Proof.
  intros Hm Hh p. unfold try_except.
  destruct (result (m p)) eqn:E; [apply Hm|].
  simpl. rewrite probeSeq_app, Hm. apply Hh.
Qed.

Lemma quiet_try_finally {A} (m : M A) (c : M unit) :
  quiet m → quiet c → quiet (try_finally m c).
Proof.
  intros Hm Hc p. unfold try_finally. simpl.
  rewrite probeSeq_app, Hm. apply Hc.
Qed.

Lemma quiet_when (b : bool) (m : M unit) : quiet m → quiet (when b m).
Proof. intros Hm. destruct b; [exact Hm | apply quiet_ret]. Qed.

Lemma quiet_print (line : string) : quiet (print line).
Proof. intros p. reflexivity. Qed.

Lemma quiet_print_exc (e : exn) : quiet (print_exc e).
Proof. intros p. reflexivity. Qed.

Lemma quiet_seek (f : Stream) (offset : nat) : quiet (seek f offset).
Proof. intros p. unfold seek. destruct (s_seekError f); reflexivity. Qed.

Lemma quiet_set_pos (q : nat) : quiet (set_pos q).
Proof. intros p. reflexivity. Qed.

Lemma quiet_call_check env what src : quiet (call_check env what src).
Proof. intros p. unfold call_check. destruct (format_check _ _ _ _). reflexivity. Qed.

Lemma quiet_call_construct env cls src opts : quiet (call_construct env cls src opts).
Proof. intros p. unfold call_construct. destruct (construct _ _ _ _ _). reflexivity. Qed.

Lemma quiet_seekToStart src pd : quiet (seekToStart src pd).
Proof.
  unfold seekToStart. apply quiet_try_except.
  - destruct src as [?|f]; [apply quiet_ret|].
    destruct (s_hasSeek f); [apply quiet_seek | apply quiet_ret].
  - intros e. apply quiet_bind; [apply quiet_when, quiet_print|].
    intros _. apply quiet_when, quiet_print_exc.
Qed.

Create HintDb quiet.
#[export] Hint Resolve quiet_ret quiet_raise quiet_print quiet_print_exc
  quiet_seek quiet_set_pos quiet_call_check quiet_call_construct
  quiet_seekToStart quiet_when : quiet.

Ltac quiet_steps :=
  repeat first
    [ apply quiet_bind; [|intros ?]
    | apply quiet_try_finally
    | apply quiet_try_except; [|intros ?]
    | match goal with
      | |- quiet (if ?b then _ else _) => destruct b
      | |- quiet (match ?x with _ => _ end) => destruct x
      end
    | solve [auto with quiet] ].

(** No backend records a probe of its own: probes are what the trial loop
    does. *)
Lemma backend_quiet env name backendOpen extensions fileOrPath options :
  dict_get name (_BACKENDS env) = Some (backendOpen, extensions) →
  quiet (backendOpen fileOrPath options).
Proof.
  unfold _BACKENDS. cbn [dict_get].
  repeat (destruct (String.eqb _ name);
          [intros [= <- _]; clear;
           cbv delta [_openRarMountSource _openTarMountSource _openZipMountSource
                      _openPySquashfsImage _openLibarchiveMountSource
                      _openPy7zrMountSource _openFATImage _openEXT4Image
                      _openSqlar _openRatarmountIndex] beta;
           quiet_steps |]).
  discriminate.
Qed.

(** ** One iteration of the trial loop *)

Lemma seekToStart_unfold (fileOrPath : Source) (printDebug : Z) (p : nat) :
  seekToStart fileOrPath printDebug p =
  match fileOrPath with
  | Path _ => mkOutcome (Ok tt) p []
  | File f =>
      if s_hasSeek f then
        match s_seekError f with
        | None => mkOutcome (Ok tt) 0%nat [Seek f 0]
        | Some e => mkOutcome (Ok tt) p (Seek f 0 :: seekErrorLog e printDebug)
        end
      else mkOutcome (Ok tt) p []
  end.
Proof.
  unfold seekToStart, try_except, seekErrorLog.
  destruct fileOrPath as [path|f]; [reflexivity|].
  destruct (s_hasSeek f); [|reflexivity].
  unfold seek. destruct (s_seekError f) as [e|]; [|reflexivity].
  cbn. destruct (1 <=? printDebug), (2 <=? printDebug); reflexivity.
Qed.

Lemma seekToStart_result (fileOrPath : Source) (printDebug : Z) (p : nat) :
  result (seekToStart fileOrPath printDebug p) = Ok tt.
Proof.
  rewrite seekToStart_unfold.
  destruct fileOrPath as [?|f]; [reflexivity|].
  destruct (s_hasSeek f); [|reflexivity]. destruct (s_seekError f); reflexivity.
Qed.

Lemma bind_prepend {A B} (m : M A) (k : A → M B) p a :
  result (m p) = Ok a →
  bind m k p = prepend (events (m p)) (k a (final_pos (m p))).
Proof. intros H. unfold bind, prepend. rewrite H. reflexivity. Qed.

Lemma bind_raise {A B} (m : M A) (k : A → M B) p e :
  result (m p) = Raise e →
  bind m k p = mkOutcome (Raise e) (final_pos (m p)) (events (m p)).
Proof. intros H. unfold bind. rewrite H. reflexivity. Qed.

Lemma bind_when_print {B} (b : bool) (line : string) (k : unit → M B) p :
  bind (when b (print line)) k p = prepend (if b then [Print line] else []) (k tt p).
Proof. destruct b; reflexivity. Qed.

Lemma bind_when_print_exc {B} (b : bool) (e : exn) (k : unit → M B) p :
  bind (when b (print_exc e)) k p = prepend (if b then [PrintExc e] else []) (k tt p).
Proof. destruct b; reflexivity. Qed.

Lemma bind_get_pos {B} (k : nat → M B) p : bind get_pos k p = prepend [] (k p p).
Proof. reflexivity. Qed.

Lemma bind_emit {B} (e : event) (k : unit → M B) p :
  bind (emit e) k p = prepend [e] (k tt p).
Proof. reflexivity. Qed.

Lemma bind_set_pos {B} (q : nat) (k : unit → M B) p :
  bind (set_pos q) k p = prepend [] (k tt q).
Proof. reflexivity. Qed.

Lemma try_except_unfold {A} (m : M A) (h : exn → M A) p :
  try_except m h p =
  match result (m p) with
  | Ok _ => m p
  | Raise e => prepend (events (m p)) (h e (final_pos (m p)))
  end.
Proof. unfold try_except. destruct (result (m p)); reflexivity. Qed.

Lemma prepend_prepend {A} (l1 l2 : list event) (o : Outcome A) :
  prepend l1 (prepend l2 o) = prepend (l1 ++ l2) o.
Proof. unfold prepend. cbn [result final_pos events]. rewrite app_assoc. reflexivity. Qed.

Lemma tryBackend_unfold name (backendOpen : BackendOpen) fileOrPath options printDebug p :
  tryBackend name backendOpen fileOrPath options printDebug p =
  let ob := backendOpen fileOrPath options p in
  match result ob with
  | Ok (Some m) =>
      mkOutcome (Ok (Some m)) (final_pos ob)
        (probeIntro name fileOrPath options printDebug p ++ events ob ++
         (if 2 <=? printDebug
          then [Print ("[Info] Opened archive with " +:+ name +:+ " backend.")]
          else []))
  | Ok None => mkOutcome (Ok None) (final_pos ob) (probeIntro name fileOrPath options printDebug p ++ events ob)
  | Raise e =>
      let os := seekToStart fileOrPath printDebug (final_pos ob) in
      mkOutcome (Ok None) (final_pos os)
        (probeIntro name fileOrPath options printDebug p ++ events ob ++ probeErrorLog name e printDebug ++ events os)
  end.
Proof.
  cbv zeta. unfold tryBackend. rewrite try_except_unfold.
  rewrite bind_when_print, bind_get_pos, bind_emit, !prepend_prepend.
  rewrite app_nil_r. fold (probeIntro name fileOrPath options printDebug p).
  destruct (result (backendOpen fileOrPath options p)) as [[m|]|e] eqn:Hres.
  - erewrite bind_prepend by exact Hres. cbv beta iota.
    rewrite bind_when_print, !prepend_prepend.
    unfold prepend, ret. cbn [result final_pos events].
    rewrite app_nil_r, <- app_assoc. reflexivity.
  - erewrite bind_prepend by exact Hres. cbv beta iota.
    rewrite !prepend_prepend.
    unfold prepend, ret. cbn [result final_pos events].
    rewrite app_nil_r. reflexivity.
  - erewrite bind_raise by exact Hres.
    cbn [prepend result final_pos events].
    rewrite bind_when_print, bind_when_print_exc, !prepend_prepend.
    erewrite bind_prepend by apply seekToStart_result.
    rewrite prepend_prepend.
    unfold prepend, ret. cbn [result final_pos events].
    unfold probeErrorLog. rewrite app_nil_r, <- !app_assoc. reflexivity.
Qed.

(** ** The order of the candidates *)

Lemma firstOccurrences_NoDup (l : list string) : NoDup (firstOccurrences l).
Proof.
  induction l as [|x l IH]; simpl; [constructor|].
  constructor.
  - rewrite list_elem_of_filter. tauto.
  - apply NoDup_filter, IH.
Qed.

Lemma filter_filter_comm {A} (P Q : A → Prop)
    `{!∀ x, Decision (P x)} `{!∀ x, Decision (Q x)} (l : list A) :
  filter P (filter Q l) = filter Q (filter P l).
Proof.
  induction l as [|x l IH]; [reflexivity|].
  rewrite !filter_cons.
  destruct (decide (Q x)), (decide (P x)); rewrite ?filter_cons;
    repeat case_decide; try tauto; rewrite IH; reflexivity.
Qed.

Lemma filter_all {A} (P : A → Prop) `{!∀ x, Decision (P x)} (l : list A) :
  Forall P l → filter P l = l.
Proof.
  induction 1 as [|x l Hx _ IH]; [reflexivity|].
  rewrite filter_cons. case_decide; [|tauto]. rewrite IH. reflexivity.
Qed.

Lemma filter_ext_in {A} (P Q : A → Prop)
    `{!∀ x, Decision (P x)} `{!∀ x, Decision (Q x)} (l : list A) :
  (∀ x, x ∈ l → P x ↔ Q x) → filter P l = filter Q l.
Proof.
  induction l as [|x l IH]; intros HPQ; [reflexivity|].
  rewrite !filter_cons.
  assert (P x ↔ Q x) as Hx by (apply HPQ; left).
  rewrite IH by (intros y Hy; apply HPQ; right; exact Hy).
  repeat case_decide; tauto.
Qed.

Lemma loopOrder_spec env names (tried : gset string) :
  loopOrder env names tried =
  filter (isRegistered env)
    (filter (λ n, n ∉ tried) (firstOccurrences (map (normalizeBackend env) names))).
Proof.
  revert tried. induction names as [|name names IH]; intros tried; [reflexivity|].
  cbn [loopOrder map firstOccurrences].
  set (n := normalizeBackend env name).
  set (rest := firstOccurrences (map (normalizeBackend env) names)) in *.
  rewrite (filter_cons (λ n0, n0 ∉ tried)).
  destruct (decide (n ∈ tried)) as [Hin|Hout].
  - rewrite (decide_False (P := n ∉ tried)) by tauto.
    rewrite IH. f_equal.
    rewrite filter_filter_comm. symmetry. apply filter_all.
    apply Forall_forall. intros y Hy.
    apply list_elem_of_filter in Hy as [Hy _]. congruence.
  - rewrite (decide_True (P := n ∉ tried)) by exact Hout.
    rewrite filter_cons.
    assert (filter (λ n0, n0 ∉ ({[n]} ∪ tried)) rest
            = filter (λ n0, n0 ∉ tried) (filter (λ y, y ≠ n) rest)) as Heq.
    { rewrite list_filter_filter. apply filter_ext_in.
      intros y _. rewrite not_elem_of_union, not_elem_of_singleton. tauto. }
    destruct (decide (isRegistered env n)); rewrite IH, Heq; reflexivity.
Qed.

Lemma loopOrder_candidateOrder env names :
  loopOrder env names ∅ = candidateOrder env names.
Proof.
  rewrite loopOrder_spec. unfold candidateOrder. f_equal.
  apply filter_all, Forall_forall. intros y _. apply not_elem_of_empty.
Qed.

Lemma candidateOrder_NoDup env names : NoDup (candidateOrder env names).
Proof. apply NoDup_filter, firstOccurrences_NoDup. Qed.

(** ** The runs of the trial loop *)

(** Every call of [trialLoop] is such a run. *)
Lemma trialLoop_Run env fileOrPath options printDebug names tried p :
  Run env fileOrPath options printDebug names tried p
    (trialLoop env names tried fileOrPath options printDebug p).
Proof.
  revert tried p. induction names as [|name names IH]; intros tried p.
  { apply Run_done. }
  cbn [trialLoop]. case_bool_decide as Htried.
  { apply Run_tried; [exact Htried | apply IH]. }
  destruct (dict_get (normalizeBackend env name) (_BACKENDS env))
    as [[backendOpen extensions]|] eqn:Hget.
  - pose proof (tryBackend_unfold (normalizeBackend env name) backendOpen
                  fileOrPath options printDebug p) as Hu.
    cbv zeta in Hu.
    destruct (result (backendOpen fileOrPath options p)) as [[m|]|e] eqn:Hres.
    + unfold bind. rewrite Hu. cbn [result final_pos events].
      unfold ret. cbn [result final_pos events]. rewrite app_nil_r.
      eapply Run_accept; eauto.
    + erewrite bind_prepend by (rewrite Hu; reflexivity).
      rewrite Hu. cbn [result final_pos events].
      eapply Run_decline; eauto.
    + erewrite bind_prepend by (rewrite Hu; reflexivity).
      rewrite Hu. cbn [result final_pos events].
      eapply Run_raise; eauto.
  - unfold skipLog. destruct (1 <=? printDebug) eqn:Hpd.
    + cbn [when]. erewrite bind_prepend by reflexivity.
      cbn [print emit events final_pos].
      apply (Run_unknown env fileOrPath options printDebug name names tried p _ Htried Hget)
        in IH as IH'.
      unfold skipLog in IH'. rewrite Hpd in IH'. exact IH'.
    + cbn [when]. erewrite bind_prepend by reflexivity.
      cbn [ret events final_pos].
      apply (Run_unknown env fileOrPath options printDebug name names tried p _ Htried Hget)
        in IH as IH'.
      unfold skipLog in IH'. rewrite Hpd in IH'. exact IH'.
Qed.

(** ** What a run of the trial loop does *)

Lemma probeSeq_probeIntro name src opts pd p :
  probeSeq (probeIntro name src opts pd p) = [(name, p)].
Proof. unfold probeIntro. destruct (3 <=? pd); reflexivity. Qed.

Lemma probeSeq_skipLog name pd : probeSeq (skipLog name pd) = [].
Proof. unfold skipLog. destruct (1 <=? pd); reflexivity. Qed.

Lemma probeSeq_openedLog name pd : probeSeq (openedLog name pd) = [].
Proof. unfold openedLog. destruct (2 <=? pd); reflexivity. Qed.

Lemma probeSeq_probeErrorLog name e pd : probeSeq (probeErrorLog name e pd) = [].
Proof. unfold probeErrorLog. destruct (2 <=? pd), (3 <=? pd); reflexivity. Qed.

Lemma probeSeq_seekToStart src pd p : probeSeq (events (seekToStart src pd p)) = [].
Proof. apply quiet_seekToStart. Qed.

Lemma probeSeq_backend env name backendOpen extensions src opts p :
  dict_get name (_BACKENDS env) = Some (backendOpen, extensions) →
  probeSeq (events (backendOpen src opts p)) = [].
Proof. intros H. eapply backend_quiet, H. Qed.

Section RunFacts.

Variable env : Env.
Variables (src : Source) (opts : gmap string value) (pd : Z).

Local Abbreviation Run := (Run env src opts pd).

Ltac unlet := repeat match goal with x := _ |- _ => subst x end.

(** The probes among the events of one pass through the loop body. *)
Ltac probes :=
  unlet; cbn [prepend events result final_pos];
  rewrite ?probeSeq_app, ?probeSeq_probeIntro, ?probeSeq_skipLog,
    ?probeSeq_openedLog, ?probeSeq_probeErrorLog, ?probeSeq_seekToStart;
  try match goal with
    | H : dict_get _ (_BACKENDS env) = Some _ |- _ =>
        rewrite ?(probeSeq_backend _ _ _ _ _ _ _ H)
    end;
  cbn [app fmap list_fmap fst].

(** The tests of [loopOrder], decided by the premises of the rule. *)
Ltac order :=
  unlet; cbn [loopOrder];
  first [ rewrite (decide_True (P := _ ∈ _)) by assumption
        | rewrite (decide_False (P := _ ∈ _)) by assumption;
          match goal with
          | H : dict_get _ (_BACKENDS env) = Some _ |- _ =>
              rewrite (decide_True (P := isRegistered _ _))
                by (unfold isRegistered; rewrite H; eauto)
          | H : dict_get _ (_BACKENDS env) = None |- _ =>
              rewrite (decide_False (P := isRegistered _ _))
                by (unfold isRegistered; rewrite H; apply is_Some_None)
          end
        | idtac ].

(** The probe of the rule at hand did not hand back a mount source. *)
Ltac declined :=
  unlet; intros ? ? ? Hget'; cbn [fst snd] in Hget' |- *;
  match goal with
  | H : dict_get _ (_BACKENDS env) = Some _, Hres : result _ = _ |- _ =>
      rewrite H in Hget'; injection Hget' as <- <-; cbn [snd];
      rewrite Hres; discriminate
  end.

(** The loop itself never raises. *)
Lemma Run_result names tried p o :
  Run names tried p o → ∃ r, result o = Ok r.
Proof. induction 1; cbn [prepend result]; eauto. Qed.

Lemma Run_probeSeq_cases names tried p o :
  Run names tried p o →
  probeSeq (events o) = [] ∨ ∃ n l, probeSeq (events o) = (n, p) :: l.
Proof.
  induction 1; probes; eauto.
Qed.

(** The first probe of a run sees the position the run started with. *)
Lemma Run_head_pos names tried p o n q l :
  Run names tried p o → probeSeq (events o) = (n, q) :: l → q = p.
Proof.
  intros HR Heq. destruct (Run_probeSeq_cases _ _ _ _ HR) as [H|(n' & l' & H)];
    rewrite H in Heq; congruence.
Qed.

Lemma Run_probedNames_prefix names tried p o :
  Run names tried p o → probedNames (events o) `prefix_of` loopOrder env names tried.
Proof.
  unfold probedNames.
  induction 1; order; probes;
    first [ assumption | apply prefix_nil | apply prefix_cons; first [assumption | apply prefix_nil] ].
Qed.

(** When the loop runs out, every candidate was probed, and none of the
    probes handed back a mount source. *)
Lemma Run_exhausted names tried p o :
  Run names tried p o →
  result o = Ok None →
  probedNames (events o) = loopOrder env names tried
  ∧ Forall (declinesAt env src opts) (probeSeq (events o)).
Proof.
  unfold probedNames.
  induction 1; cbn [prepend result]; intros Hnone; order; probes;
    try lazymatch goal with
      | IH : result _ = _ → _ |- _ => destruct (IH Hnone) as [-> HF]
      end.
  - split; [reflexivity | constructor].
  - auto.
  - auto.
  - discriminate.
  - split; [reflexivity|]. constructor; [declined | exact HF].
  - split; [reflexivity|]. constructor; [declined | exact HF].
Qed.

(** A mount source that the loop returns is what the last probe handed back,
    and every probe before it declined. *)
Lemma Run_accepted names tried p o m :
  Run names tried p o →
  result o = Ok (Some m) →
  ∃ l n q backendOpen extensions,
    probeSeq (events o) = l ++ [(n, q)]
    ∧ Forall (declinesAt env src opts) l
    ∧ dict_get n (_BACKENDS env) = Some (backendOpen, extensions)
    ∧ result (backendOpen src opts q) = Ok (Some m).
Proof.
  induction 1; cbn [prepend result]; intros Hsome; probes;
    try lazymatch goal with
      | IH : result _ = _ → _ |- _ =>
          destruct (IH Hsome) as (l & n' & q & bo' & exts' & -> & HF & Hlast & Hres')
      end.
  - discriminate.
  - eauto 10.
  - eauto 10.
  - injection Hsome as ->.
    exists [], (normalizeBackend env name), p, backendOpen, extensions. auto.
  - exists ((normalizeBackend env name, p) :: l), n', q, bo', exts'.
    repeat split; auto. constructor; [declined | exact HF].
  - exists ((normalizeBackend env name, p) :: l), n', q, bo', exts'.
    repeat split; auto. constructor; [declined | exact HF].
Qed.

(** After a probe that raised, the next probe sees the stream where the
    handler left it: at its start when [seek(0)] went through, and where the
    failed probe left it when [seek(0)] raised as well. *)
Lemma Run_reset names tried p o f l1 n1 p1 n2 p2 l2 backendOpen extensions e :
  Run names tried p o →
  src = File f →
  s_hasSeek f = true →
  probeSeq (events o) = l1 ++ (n1, p1) :: (n2, p2) :: l2 →
  dict_get n1 (_BACKENDS env) = Some (backendOpen, extensions) →
  result (backendOpen src opts p1) = Raise e →
  p2 = match s_seekError f with
       | None => 0%nat
       | Some _ => final_pos (backendOpen src opts p1)
       end.
Proof.
  intros HR Hsrc Hseek. revert l1.
  induction HR; intros l1; probes; intros Heq Hget1 Hres1.
  - destruct l1; discriminate.
  - eauto.
  - eauto.
  - destruct l1 as [|? [|? ?]]; discriminate.
  - destruct l1 as [|x l1]; cbn [app] in Heq.
    + injection Heq as <- <- _.
      rewrite H0 in Hget1. injection Hget1 as <- <-. congruence.
    + injection Heq as _ Heq. eauto.
  - destruct l1 as [|x l1]; cbn [app] in Heq.
    + injection Heq as <- <- Heq.
      rewrite H0 in Hget1. injection Hget1 as <- <-.
      apply (Run_head_pos _ _ _ _ _ _ _ HR) in Heq. subst p2.
      rewrite Hsrc in *. rewrite seekToStart_unfold, Hseek.
      destruct (s_seekError f); reflexivity.
    + injection Heq as _ Heq. eauto.
Qed.


(** So is what it prints when rewinding the stream raises. *)
Lemma Run_seek_error_logged names tried p o f n q backendOpen extensions e e' :
  Run names tried p o →
  src = File f →
  s_hasSeek f = true →
  s_seekError f = Some e' →
  (n, q) ∈ probeSeq (events o) →
  dict_get n (_BACKENDS env) = Some (backendOpen, extensions) →
  result (backendOpen src opts q) = Raise e →
  seekErrorLog e' pd ⊆ events o.
Proof.
  intros HR Hsrc Hseek Herr. induction HR; probes; intros Hin Hget1 Hres1.
  - apply elem_of_nil in Hin as [].
  - eauto.
  - intros x Hx. apply elem_of_app. right. exact (IHHR Hin Hget1 Hres1 x Hx).
  - apply list_elem_of_singleton in Hin. injection Hin as -> ->.
    rewrite H0 in Hget1. injection Hget1 as <- <-. congruence.
  - apply elem_of_cons in Hin as [Hin|Hin].
    + injection Hin as -> ->.
      rewrite H0 in Hget1. injection Hget1 as <- <-. congruence.
    + intros x Hx. apply elem_of_app. right. exact (IHHR Hin Hget1 Hres1 x Hx).
  - apply elem_of_cons in Hin as [Hin|Hin].
    + injection Hin as -> ->.
      intros x Hx. rewrite !elem_of_app. left. right. right. right.
      rewrite Hsrc, seekToStart_unfold, Hseek, Herr. cbn [events].
      right. exact Hx.
    + intros x Hx. apply elem_of_app. right. exact (IHHR Hin Hget1 Hres1 x Hx).
Qed.

End RunFacts.

Lemma probeArgs_quiet (evs : list event) :
  probeSeq evs = [] → omap probeArgs evs = [].
Proof.
  induction evs as [|e evs IH]; [reflexivity|].
  destruct e; cbn; try discriminate; exact IH.
Qed.

(** Every probe of a run is called with the source and the options of the
    run. *)
Lemma Run_probe_args env src opts pd names tried p o :
  Run env src opts pd names tried p o →
  Forall (λ a, a = (src, opts)) (omap probeArgs (events o)).
Proof.
  assert (∀ n q, omap probeArgs (probeIntro n src opts pd q) = [(src, opts)]) as Hintro.
  { intros n q. unfold probeIntro. destruct (3 <=? pd); reflexivity. }
  assert (∀ n, omap probeArgs (skipLog n pd) = []) as Hskip.
  { intros n. apply probeArgs_quiet, probeSeq_skipLog. }
  assert (∀ n, omap probeArgs (openedLog n pd) = []) as Hopened.
  { intros n. apply probeArgs_quiet, probeSeq_openedLog. }
  assert (∀ n e, omap probeArgs (probeErrorLog n e pd) = []) as Herr.
  { intros n e. apply probeArgs_quiet, probeSeq_probeErrorLog. }
  assert (∀ q, omap probeArgs (events (seekToStart src pd q)) = []) as Hseek.
  { intros q. apply probeArgs_quiet, probeSeq_seekToStart. }
  induction 1; cbn [prepend events];
    repeat match goal with x := _ |- _ => subst x end;
    rewrite ?omap_app, ?Hintro, ?Hskip, ?Hopened, ?Herr, ?Hseek;
    try match goal with
      | H : dict_get _ (_BACKENDS env) = Some _ |- _ =>
          rewrite ?(probeArgs_quiet _ (probeSeq_backend _ _ _ _ _ _ _ H))
      end;
    cbn [app]; auto.
Qed.

(** ** The trial stage *)

Lemma trialStage_unfold env src opts joinedFileName auto pd p prio :
  priorityList opts = Some prio →
  trialStage env src opts joinedFileName auto pd p =
  let o := trialLoop env (prio ++ auto ++ backendNames env) ∅ src opts pd p in
  mkOutcome
    (match result o with
     | Ok (Some m) => Ok m
     | Ok None =>
         if joinedFallback joinedFileName src
         then Ok (SingleFileMountSource joinedFileName src)
         else Raise (unrecognizedFormat src)
     | Raise e => Raise e
     end)
    (final_pos o) (events o).
Proof.
  unfold priorityList, trialStage, joinedFallback, unrecognizedFormat. intros Hprio.
  assert (match opts !! "prioritizedBackends" with
          | None => ret []
          | Some (VList l) => ret l
          | Some _ => raise (TypeError "prioritizedBackends + autoPrioritizedBackends")
          end = ret prio) as ->.
  { destruct (opts !! "prioritizedBackends") as [[]|]; congruence. }
  erewrite bind_prepend by reflexivity. cbn [ret events final_pos]. cbv zeta.
  set (o := trialLoop env _ ∅ src opts pd p).
  destruct (result o) as [[m|]|e] eqn:Hres.
  - erewrite bind_prepend by exact Hres.
    unfold prepend, ret; cbn [result final_pos events app].
    rewrite app_nil_r. reflexivity.
  - erewrite bind_prepend by exact Hres. cbv beta iota.
    destruct (negb (String.eqb joinedFileName "") && negb (isinstance_str src));
      unfold prepend, ret, raise; cbn [result final_pos events app];
      rewrite app_nil_r; reflexivity.
  - erewrite bind_raise by exact Hres. reflexivity.
Qed.

Lemma trialStage_ill_typed env src opts joinedFileName auto pd p :
  priorityList opts = None →
  trialStage env src opts joinedFileName auto pd p =
  mkOutcome (Raise (TypeError "prioritizedBackends + autoPrioritizedBackends")) p [].
Proof.
  unfold priorityList, trialStage. intros Hprio.
  destruct (opts !! "prioritizedBackends") as [[]|]; try discriminate; reflexivity.
Qed.

(** ** Facts about the string operations *)

Lemma endswith_spec (s suffix : string) :
  PyStr.endswith s suffix = true ↔ ∃ stem, s = stem +:+ suffix.
Proof.
  split.
  - induction s as [|a s IH]; cbn [PyStr.endswith].
    + destruct (String.eqb "" suffix) eqn:E; [|discriminate].
      apply String.eqb_eq in E. intros _. exists "". rewrite <- E. reflexivity.
    + destruct (String.eqb (String a s) suffix) eqn:E.
      * apply String.eqb_eq in E. intros _. exists "". rewrite <- E. reflexivity.
      * intros H. destruct (IH H) as [stem ->]. exists (String a stem). reflexivity.
  - intros [stem ->]. induction stem as [|a stem IH].
    + change ("" +:+ suffix) with suffix.
      destruct suffix; cbn [PyStr.endswith]; rewrite String.eqb_refl; reflexivity.
    + change (String a stem +:+ suffix) with (String a (stem +:+ suffix)).
      cbn [PyStr.endswith]. rewrite IH.
      destruct (String.eqb _ suffix); reflexivity.
Qed.

(** [matchesExtension] is a suffix test on the lower-cased name: the name ends
    with a dot and one of the extensions, whatever the case of either. *)
Lemma matchesExtension_spec (fileName : string) (extensions : list string) :
  matchesExtension fileName extensions = true ↔
  ∃ extension stem,
    extension ∈ extensions
    ∧ PyStr.lower fileName = stem +:+ "." +:+ PyStr.lower extension.
Proof.
  unfold matchesExtension. rewrite existsb_exists. split.
  - intros (extension & Hin & Hends). apply endswith_spec in Hends as [stem Hstem].
    exists extension, stem. split; [apply list_elem_of_In, Hin | exact Hstem].
  - intros (extension & stem & Hin & Hstem). exists extension.
    split; [apply list_elem_of_In, Hin|]. apply endswith_spec. eauto.
Qed.

Lemma rstrip_empty (c : ascii) (s : string) :
  PyStr.rstrip c s = "" ↔ PyStr.all_chars c s = true.
Proof.
  induction s as [|a s IH]; cbn [PyStr.rstrip PyStr.all_chars]; [tauto|].
  destruct (PyStr.rstrip c s) eqn:E.
  - destruct (Ascii.eqb a c); cbn [andb].
    + split; [intros _; apply IH; reflexivity | reflexivity].
    + split; discriminate.
  - split; [discriminate|]. intros H. apply andb_true_iff in H as [_ H].
    apply IH in H. discriminate.
Qed.

Lemma rstrip_no_trailing (c : ascii) (s : string) :
  PyStr.endswith (PyStr.rstrip c s) (String c "") = false.
Proof.
  induction s as [|a s IH]; cbn [PyStr.rstrip]; [reflexivity|].
  destruct (PyStr.rstrip c s) as [|b r] eqn:E.
  - destruct (Ascii.eqb a c) eqn:Eac; [reflexivity|].
    cbn [PyStr.endswith String.eqb]. rewrite Eac. reflexivity.
  - cbn [PyStr.endswith String.eqb] in *.
    destruct (Ascii.eqb a c); exact IH.
Qed.

Lemma rstrip_head (c a : ascii) (s : string) :
  PyStr.rstrip c (String a s) = "" ∨ ∃ r, PyStr.rstrip c (String a s) = String a r.
Proof.
  cbn [PyStr.rstrip]. destruct (PyStr.rstrip c s); [|eauto].
  destruct (Ascii.eqb a c); eauto.
Qed.

Lemma startswith_slash (a : ascii) (s : string) :
  PyStr.startswith (String a s) "/" = Ascii.eqb "/" a.
Proof.
  unfold PyStr.startswith. cbn [PyStr.strip_prefix].
  destruct (Ascii.eqb "/" a); reflexivity.
Qed.

(** The path given to the Dropbox file system never ends with a slash, and it
    starts with one unless it is empty, which it is exactly for a path made of
    slashes only (the empty path among them). *)
Lemma dropboxPath_shape (path : string) :
  PyStr.endswith (dropboxPath path) "/" = false
  ∧ (dropboxPath path = "" ↔ PyStr.all_chars "/" path = true)
  ∧ (dropboxPath path ≠ "" → PyStr.startswith (dropboxPath path) "/" = true).
Proof.
  unfold dropboxPath. split; [apply rstrip_no_trailing|].
  destruct path as [|a path].
  { cbn. split; [tauto | congruence]. }
  cbn [String.eqb negb andb]. rewrite (startswith_slash a path).
  destruct (Ascii.eqb "/" a) eqn:Ea; cbn [negb].
  - apply Ascii.eqb_eq in Ea as <-. split; [apply rstrip_empty|].
    intros Hne. destruct (rstrip_head "/" "/" path) as [H|[r H]]; [tauto|].
    rewrite H. reflexivity.
  - change ("/" +:+ String a path) with (String "/" (String a path)).
    split.
    + rewrite rstrip_empty. cbn [PyStr.all_chars].
      rewrite Ascii.eqb_refl, (Ascii.eqb_sym a "/"), Ea. reflexivity.
    + intros Hne.
      destruct (rstrip_head "/" "/" (String a path)) as [H|[r H]]; [tauto|].
      rewrite H. reflexivity.
Qed.

Lemma split1_file (rest : string) :
  PyStr.split1 "://" ("file://" +:+ rest) = ("file", Some rest).
Proof. reflexivity. Qed.

Lemma split1_dropbox (rest : string) :
  PyStr.split1 "://" ("dropbox://" +:+ rest) = ("dropbox", Some rest).
Proof. reflexivity. Qed.

(** ** The URL resolver *)

Section Emits.

Context (P : event → Prop).

Lemma emits_ret {A} (a : A) : emits P (ret a).
Proof. intros p. constructor. Qed.

Lemma emits_raise {A} (e : exn) : emits P (@raise A e).
Proof. intros p. constructor. Qed.

Lemma emits_set_pos (q : nat) : emits P (set_pos q).
Proof. intros p. constructor. Qed.

Lemma emits_bind {A B} (m : M A) (k : A → M B) :
  emits P m → (∀ a, emits P (k a)) → emits P (bind m k).
Proof.
  intros Hm Hk p. rewrite events_bind. apply Forall_app. split; [apply Hm|].
  destruct (result (m p)); [apply Hk | constructor].
Qed.

Lemma emits_emit (e : event) : P e → emits P (emit e).
Proof. intros He p. repeat constructor. exact He. Qed.

Lemma emits_when (b : bool) (m : M unit) : emits P m → emits P (when b m).
Proof. intros Hm. destruct b; [exact Hm | apply emits_ret]. Qed.

Lemma emits_seek (f : Stream) (offset : nat) : P (Seek f offset) → emits P (seek f offset).
Proof. intros He p. unfold seek. destruct (s_seekError f); repeat constructor; exact He. Qed.

Lemma emits_read env (f : Stream) (size : nat) : P (Read f size) → emits P (read env f size).
Proof. intros He p. unfold read. destruct (read_error env f); repeat constructor; exact He. Qed.

Lemma emits_call_fs {A} op (method : FileSystem → string → Result A) fs path :
  P (FsCall op fs path) → emits P (call_fs op method fs path).
Proof. intros He p. repeat constructor. exact He. Qed.

Lemma emits_call_transport adapter open url :
  P (AdapterCall adapter url) → emits P (call_transport adapter open url).
Proof. intros He p. repeat constructor. exact He. Qed.

Lemma emits_call_resolver adapter resolve url :
  P (AdapterCall adapter url) → emits P (call_resolver adapter resolve url).
Proof. intros He p. repeat constructor. exact He. Qed.

End Emits.

Ltac emits_steps :=
  repeat first
    [ apply emits_bind; [|intros ?]
    | apply emits_ret | apply emits_raise | apply emits_set_pos
    | apply emits_when
    | apply emits_emit | apply emits_seek | apply emits_read
    | apply emits_call_fs | apply emits_call_transport | apply emits_call_resolver
    | match goal with
      | |- emits _ (if ?b then _ else _) => destruct b
      | |- emits _ (match ?x with _ => _ end) => destruct x
      | |- emits _ (let '(_, _) := ?x in _) => destruct x
      end ].

Lemma openFileSystemPath_calls env url fs path pd :
  emits (onFileSystem fs path) (openFileSystemPath env url fs path pd).
Proof. unfold openFileSystemPath, print. emits_steps; cbn; auto. Qed.

Lemma emits_notProbe_quiet {A} (m : M A) : emits notProbe m → quiet m.
Proof.
  intros Hm p. specialize (Hm p). induction Hm as [|e evs He _ IH]; [reflexivity|].
  unfold probeSeq in *. cbn [omap list_omap]. rewrite He. exact IH.
Qed.

(** [tryOpenURL] probes no backend. *)
Lemma tryOpenURL_quiet env url pd : quiet (tryOpenURL env url pd).
Proof.
  apply emits_notProbe_quiet.
  unfold tryOpenURL, openFileSystemPath, print. emits_steps; reflexivity.
Qed.

(** ** What the backends hand back *)

Lemma yields_ret {A} (Q : A → Prop) (a : A) : Q a → yields Q (ret a).
Proof. intros Ha p a' [= <-]. exact Ha. Qed.

Lemma yields_bind {A B} (R : A → Prop) (Q : B → Prop) (m : M A) (k : A → M B) :
  yields R m → (∀ a, R a → yields Q (k a)) → yields Q (bind m k).
Proof.
  intros Hm Hk p b. rewrite result_bind.
  destruct (result (m p)) as [a|e] eqn:E; [|discriminate].
  apply (Hk a (Hm p a E)).
Qed.

Lemma yields_any {A} (m : M A) : yields (λ _, True) m.
Proof. intros p a _. exact I. Qed.

Lemma yields_try_except {A} (Q : A → Prop) (m : M A) (h : exn → M A) :
  yields Q m → (∀ e, yields Q (h e)) → yields Q (try_except m h).
Proof.
  intros Hm Hh p a. unfold try_except.
  destruct (result (m p)) as [a'|e] eqn:E.
  - rewrite E. intros [= <-]. eapply Hm, E.
  - cbn [result]. apply Hh.
Qed.

Lemma yields_try_finally {A} (Q : A → Prop) (m : M A) (c : M unit) :
  yields Q m → yields Q (try_finally m c).
Proof.
  intros Hm p a. unfold try_finally. cbn [result].
  destruct (result (c _)); [|discriminate]. apply Hm.
Qed.

Lemma yields_call_construct env cls src opts :
  yields isArchive (call_construct env cls src opts).
Proof.
  intros p m. unfold call_construct. destruct (construct _ _ _ _ _) as [[e|] q].
  - discriminate.
  - intros [= <-]. exact I.
Qed.

Ltac yields_steps :=
  repeat first
    [ apply yields_ret; solve [exact I | assumption]
    | apply yields_try_finally
    | apply yields_try_except; [|intros ?]
    | eapply yields_bind; [apply yields_call_construct | intros ? ?]
    | eapply yields_bind; [apply yields_any | intros ? _]
    | match goal with
      | |- yields _ (if ?b then _ else _) => destruct b
      | |- yields _ (match ?x with _ => _ end) => destruct x
      end ].

(** A mount source that a backend hands back is one of the archive classes. *)
Lemma backend_yields_archive env name backendOpen extensions src opts :
  dict_get name (_BACKENDS env) = Some (backendOpen, extensions) →
  yields archiveOrNone (backendOpen src opts).
Proof.
  unfold _BACKENDS. cbn [dict_get].
  repeat (destruct (String.eqb _ name);
          [intros [= <- _]; clear;
           cbv delta [_openRarMountSource _openTarMountSource _openZipMountSource
                      _openPySquashfsImage _openLibarchiveMountSource
                      _openPy7zrMountSource _openFATImage _openEXT4Image
                      _openSqlar _openRatarmountIndex] beta;
           yields_steps |]).
  discriminate.
Qed.

(** So a mount source that the loop returns is one. *)
Lemma trialLoop_yields_archive env names tried src opts pd :
  yields archiveOrNone (trialLoop env names tried src opts pd).
Proof.
  intros p [m|] Hres; [|exact I].
  destruct (Run_accepted _ _ _ _ _ _ _ _ _ (trialLoop_Run env src opts pd names tried p) Hres)
    as (l & n & q & bo & exts & _ & _ & Hget & Hbo).
  exact (backend_yields_archive env n bo exts src opts Hget q (Some m) Hbo).
Qed.

(** ** The stages of [openMountSource] *)

Lemma trialStage_summary env src opts joinedFileName auto pd p prio :
  priorityList opts = Some prio →
  let o := trialStage env src opts joinedFileName auto pd p in
  let loop := trialLoop env (prio ++ auto ++ backendNames env) ∅ src opts pd p in
  events o = events loop
  ∧ final_pos o = final_pos loop
  ∧ ((∃ m, result loop = Ok (Some m) ∧ result o = Ok m ∧ isArchive m)
     ∨ (result loop = Ok None
        ∧ result o = if joinedFallback joinedFileName src
                     then Ok (SingleFileMountSource joinedFileName src)
                     else Raise (unrecognizedFormat src))).
Proof.
  intros Hprio. cbv zeta. rewrite (trialStage_unfold _ _ _ _ _ _ _ _ Hprio).
  cbv zeta. cbn [events final_pos result]. split; [reflexivity|]. split; [reflexivity|].
  destruct (Run_result _ _ _ _ _ _ _ _
              (trialLoop_Run env src opts pd (prio ++ auto ++ backendNames env) ∅ p))
    as [[m|] Hres]; rewrite Hres.
  - left. exists m. repeat split.
    exact (trialLoop_yields_archive env _ ∅ src opts pd p (Some m) Hres).
  - right. split; reflexivity.
Qed.

(** A path without [://] goes to the path stage as it is. *)
Lemma openMountSource_local env path opts :
  PyStr.contains path "://" = false →
  openMountSource env (Path path) opts
  = openResolved env (Path path) opts (getPrintDebug opts).
Proof. intros H. unfold openMountSource. rewrite H. reflexivity. Qed.

Lemma priorityList_withIndexFilePath opts first :
  priorityList (withIndexFilePath opts first) = priorityList opts.
Proof.
  unfold withIndexFilePath, priorityList.
  destruct (opts !! "indexFilePath") as [v|]; [destruct (truthy v)|];
    rewrite ?lookup_insert_ne by discriminate; reflexivity.
Qed.

Lemma priorityList_tarFileName opts (v : value) :
  priorityList (<["tarFileName" := v]> opts) = priorityList opts.
Proof. unfold priorityList. rewrite lookup_insert_ne by discriminate. reflexivity. Qed.

Lemma getPrintDebug_withIndexFilePath opts first :
  getPrintDebug (withIndexFilePath opts first) = getPrintDebug opts.
Proof.
  unfold withIndexFilePath, getPrintDebug.
  destruct (opts !! "indexFilePath") as [v|]; [destruct (truthy v)|];
    rewrite ?lookup_insert_ne by discriminate; reflexivity.
Qed.

(** An existing file goes to the trial stage, with the source, the options,
    the joined name and the extension matches above, the stream at its
    start when it is a joined one. *)
Lemma openResolved_file env path opts pd p :
  os_stat env path = NotDirectory →
  ¬ emptySplit env path →
  ∃ q,
    openResolved env (Path path) opts pd p
    = prepend [] (trialStage env (trialSource env path) (trialOptions env path opts)
                    (joinedFileName env path) (autoPrioritizedBackends env path) pd q).
Proof.
  intros Hstat Hsplit.
  unfold openResolved, trialSource, trialOptions, joinedFileName,
    autoPrioritizedBackends, emptySplit in *.
  rewrite Hstat.
  destruct (checkForSplitFile env path) as [[[|first rest] format]|].
  - exfalso. apply Hsplit. eauto.
  - exists 0%nat. rewrite bind_set_pos. reflexivity.
  - exists p. unfold prepend. cbn [app].
    destruct (trialStage _ _ _ _ _ _ _). reflexivity.
Qed.

Lemma openMountSource_file env path opts p prio :
  PyStr.contains path "://" = false →
  os_stat env path = NotDirectory →
  priorityList opts = Some prio →
  ¬ emptySplit env path →
  ∃ q,
    let loop :=
      trialLoop env (prio ++ autoPrioritizedBackends env path ++ backendNames env) ∅
        (trialSource env path) (trialOptions env path opts) (getPrintDebug opts) q in
    let o := openMountSource env (Path path) opts p in
    events o = events loop
    ∧ ((∃ m, result loop = Ok (Some m) ∧ result o = Ok m ∧ isArchive m)
       ∨ (result loop = Ok None
          ∧ result o =
            if joinedFallback (joinedFileName env path) (trialSource env path)
            then Ok (SingleFileMountSource (joinedFileName env path) (trialSource env path))
            else Raise (unrecognizedFormat (trialSource env path)))).
Proof.
  intros Hlocal Hstat Hprio Hsplit.
  rewrite (openMountSource_local _ _ _ Hlocal).
  destruct (openResolved_file env path opts (getPrintDebug opts) p Hstat Hsplit) as [q ->].
  exists q. cbv zeta. unfold prepend. cbn [events result app].
  assert (priorityList (trialOptions env path opts) = Some prio) as Hprio'.
  { unfold trialOptions. destruct (checkForSplitFile env path) as [[[|first rest] ?]|];
      rewrite ?priorityList_withIndexFilePath; exact Hprio. }
  destruct (trialStage_summary env (trialSource env path) (trialOptions env path opts)
              (joinedFileName env path) (autoPrioritizedBackends env path)
              (getPrintDebug opts) q prio Hprio') as (Hev & _ & Hres).
  split; [exact Hev | exact Hres].
Qed.

Lemma openMountSource_emptySplit env path opts p :
  PyStr.contains path "://" = false →
  os_stat env path = NotDirectory →
  emptySplit env path →
  openMountSource env (Path path) opts p
  = mkOutcome (Raise (IndexError "filesToJoin[0]")) p [].
Proof.
  intros Hlocal Hstat [format Hsplit].
  rewrite (openMountSource_local _ _ _ Hlocal).
  unfold openResolved. rewrite Hstat, Hsplit. reflexivity.
Qed.

Lemma emptySplit_dec env path : emptySplit env path ∨ ¬ emptySplit env path.
Proof.
  unfold emptySplit. destruct (checkForSplitFile env path) as [[[|first rest] format]|].
  - left. eauto.
  - right. intros [? [=]].
  - right. intros [? [=]].
Qed.

Lemma extensionMatchedBackends_spec env path name :
  name ∈ extensionMatchedBackends env path ↔
  ∃ backendOpen extensions extension stem,
    (name, (backendOpen, extensions)) ∈ _BACKENDS env
    ∧ extension ∈ extensions
    ∧ PyStr.lower path = stem +:+ "." +:+ PyStr.lower extension.
Proof.
  unfold extensionMatchedBackends. rewrite list_elem_of_fmap. split.
  - intros ([n [bo exts]] & -> & Hin). apply list_elem_of_filter in Hin as [Hm Hin].
    cbn [snd] in Hm. apply matchesExtension_spec in Hm as (ext & stem & Hext & Hstem).
    exists bo, exts, ext, stem. auto.
  - intros (bo & exts & ext & stem & Hin & Hext & Hstem).
    exists (name, (bo, exts)). split; [reflexivity|].
    apply list_elem_of_filter. split; [|exact Hin].
    cbn [snd]. apply matchesExtension_spec. eauto.
Qed.

(** * The properties *)

(** ** C1: the order of the candidates *)

(** C1, counterexample.  [libfoo.a] has the extension of the libarchive
    backend, and is taken for a shard of a split file: no backend is tried
    first for its extension, and the probes go in registration order, not in
    the order stated. *)
Lemma C1_shard_extension_is_not_prioritized :
  PyStr.contains "libfoo.a" "://" = false
  ∧ os_stat Sample.sideBySide "libfoo.a" = NotDirectory
  ∧ priorityList ∅ = Some []
  ∧ probedNames (events (openMountSource Sample.sideBySide (Path "libfoo.a") ∅ 0%nat))
    ≠ statedCandidateOrder Sample.sideBySide [] "libfoo.a".
Proof.
  repeat split. intros H. vm_compute in H. discriminate.
Qed.

(** C1, as amended.  For an existing file given by a local path, the probes
    of a call go in the order of: the priority list of the caller, then the
    registered backends one of whose extensions the path ends with (after a
    dot, whatever the case) unless the path is a shard of a split file, then
    every registered backend in registration order; with each tar compression
    module replaced by [tarfile], repetitions after the first occurrence and
    names that are not registered dropped.  The probes made are a beginning
    of that list, all of it when the call ends without a backend accepting,
    and no backend is probed twice. *)
Theorem C1_candidate_order env path opts prio p :
  PyStr.contains path "://" = false →
  os_stat env path = NotDirectory →
  priorityList opts = Some prio →
  let o := openMountSource env (Path path) opts p in
  let order :=
    candidateOrder env (prio ++ autoPrioritizedBackends env path ++ backendNames env) in
  probedNames (events o) `prefix_of` order
  ∧ NoDup (probedNames (events o))
  ∧ (result o = Raise (unrecognizedFormat (trialSource env path))
     ∨ result o = Ok (SingleFileMountSource (joinedFileName env path) (trialSource env path))
     → probedNames (events o) = order)
  ∧ (∀ name,
       name ∈ autoPrioritizedBackends env path ↔
       checkForSplitFile env path = None
       ∧ ∃ backendOpen extensions extension stem,
           (name, (backendOpen, extensions)) ∈ _BACKENDS env
           ∧ extension ∈ extensions
           ∧ PyStr.lower path = stem +:+ "." +:+ PyStr.lower extension).
Proof.
  intros Hlocal Hstat Hprio. cbv zeta.
  assert (probedNames (events (openMountSource env (Path path) opts p))
            `prefix_of` candidateOrder env
                          (prio ++ autoPrioritizedBackends env path ++ backendNames env)
          ∧ (result (openMountSource env (Path path) opts p)
               = Raise (unrecognizedFormat (trialSource env path))
             ∨ result (openMountSource env (Path path) opts p)
               = Ok (SingleFileMountSource (joinedFileName env path) (trialSource env path))
             → probedNames (events (openMountSource env (Path path) opts p))
               = candidateOrder env
                   (prio ++ autoPrioritizedBackends env path ++ backendNames env)))
    as [Hprefix Hall].
  { destruct (emptySplit_dec env path) as [Hempty|Hsplit].
    - rewrite (openMountSource_emptySplit _ _ _ _ Hlocal Hstat Hempty).
      cbn [events result]. split; [apply prefix_nil|].
      intros [H|H]; discriminate.
    - destruct (openMountSource_file env path opts p prio Hlocal Hstat Hprio Hsplit)
        as (q & Hev & Hres).
      cbv zeta in Hev, Hres. rewrite Hev.
      pose proof (trialLoop_Run env (trialSource env path) (trialOptions env path opts)
                    (getPrintDebug opts)
                    (prio ++ autoPrioritizedBackends env path ++ backendNames env) ∅ q)
        as HR.
      rewrite <- loopOrder_candidateOrder. split.
      + eapply Run_probedNames_prefix, HR.
      + intros Hend. eapply Run_exhausted; [exact HR|].
        destruct Hres as [(m & _ & Hm & Harch)|[Hnone _]]; [|exact Hnone].
        exfalso. rewrite Hm in Hend. destruct Hend as [H|H]; [discriminate|].
        injection H as ->. exact Harch. }
  split; [exact Hprefix|]. split.
  { destruct Hprefix as [k Hk].
    pose proof (candidateOrder_NoDup env
                  (prio ++ autoPrioritizedBackends env path ++ backendNames env)) as Hnd.
    rewrite Hk in Hnd. apply NoDup_app in Hnd. tauto. }
  split; [exact Hall|].
  intros name. unfold autoPrioritizedBackends.
  destruct (checkForSplitFile env path) as [split|].
  - split; [intros H; apply elem_of_nil in H as [] | intros [[=] _]].
  - rewrite extensionMatchedBackends_spec. tauto.
Qed.

(** C1, witness: [archive.tar.gz] with a priority list that names a tar
    compression module and a backend that does not exist. *)
Lemma C1_candidate_order_witness :
  PyStr.contains "archive.tar.gz" "://" = false
  ∧ os_stat Sample.plain "archive.tar.gz" = NotDirectory
  ∧ priorityList {[ "prioritizedBackends" := VList ["zipfile"; "rapidgzip"; "nonsense"] ]}
    = Some ["zipfile"; "rapidgzip"; "nonsense"]
  ∧ NoDup (probedNames
             (events (openMountSource Sample.plain (Path "archive.tar.gz")
                        {[ "prioritizedBackends" := VList ["zipfile"; "rapidgzip"; "nonsense"] ]}
                        0%nat))).
Proof.
  split; [reflexivity|]. split; [reflexivity|]. split; [reflexivity|].
  exact (proj1 (proj2
           (C1_candidate_order Sample.plain "archive.tar.gz"
              {[ "prioritizedBackends" := VList ["zipfile"; "rapidgzip"; "nonsense"] ]}
              ["zipfile"; "rapidgzip"; "nonsense"] 0%nat eq_refl eq_refl eq_refl))).
Defined.

(** ** C2: rewinding the stream between probes *)

(** C2, counterexample.  The test [is_rarfile_sfx] reads seven bytes of a
    stream and says no; [_openRarMountSource] returns [None] without raising,
    the loop goes on without rewinding, and the probe of [tarfile] finds the
    stream at offset 7. *)
Lemma C2_declining_probe_is_not_rewound :
  ¬ C2_as_stated Sample.reading (Sample.stream "<stream>") ∅ 0%nat.
Proof.
  intros H.
  specialize (H [] "rarfile" 0%nat "tarfile" 7%nat
                [("zipfile", 0%nat); ("pysquashfsimage", 7%nat); ("libarchive", 14%nat);
                 ("py7zr", 0%nat); ("pyfatfs", 7%nat); ("ext4", 0%nat);
                 ("sqlar", 0%nat); ("SQLiteIndex", 0%nat)]).
  assert (7 = 0)%nat as Habs by (apply H; vm_compute; reflexivity).
  discriminate.
Qed.

(** [_openLibarchiveMountSource] rewinds the stream itself, whatever its
    constructor did. *)
Lemma libarchive_rewinds env f opts p :
  has_libarchive env = true →
  s_hasSeek f = true →
  s_seekError f = None →
  final_pos (_openLibarchiveMountSource env (File f) opts p) = 0%nat.
Proof.
  intros Hlib Hseek Herr. unfold _openLibarchiveMountSource, try_finally.
  rewrite Hlib. cbn [negb final_pos].
  rewrite seekToStart_unfold, Hseek, Herr. reflexivity.
Qed.

(** C2, as amended.  In a trial on a stream that has a [seek], the probe that
    follows a probe that raised finds the stream at its start when [seek(0)]
    went through; when [seek(0)] raised as well, it finds the stream where
    the failed probe left it, the failure is printed at debug level 1 and
    above, and the trial goes on all the same: the loop never raises.  (After
    a probe that returned [None] the loop does not rewind; the libarchive
    backend rewinds the stream itself.) *)
Theorem C2_rewind_after_raising_probe env names tried f opts pd p
    l1 n1 p1 n2 p2 l2 backendOpen extensions e :
  s_hasSeek f = true →
  probeSeq (events (trialLoop env names tried (File f) opts pd p))
  = l1 ++ (n1, p1) :: (n2, p2) :: l2 →
  dict_get n1 (_BACKENDS env) = Some (backendOpen, extensions) →
  result (backendOpen (File f) opts p1) = Raise e →
  match s_seekError f with
  | None => p2 = 0%nat
  | Some seekException =>
      p2 = final_pos (backendOpen (File f) opts p1)
      ∧ (1 <= pd →
         Print ("[Info] seek(0) raised an exception: " +:+ exn_str seekException)
         ∈ events (trialLoop env names tried (File f) opts pd p))
  end
  ∧ (∃ r, result (trialLoop env names tried (File f) opts pd p) = Ok r)
  ∧ (has_libarchive env = true → s_seekError f = None →
     ∀ q, final_pos (_openLibarchiveMountSource env (File f) opts q) = 0%nat).
Proof.
  intros Hseek Heq Hget Hres.
  pose proof (trialLoop_Run env (File f) opts pd names tried p) as HR.
  pose proof (Run_reset env (File f) opts pd names tried p _ f l1 n1 p1 n2 p2 l2
                backendOpen extensions e HR eq_refl Hseek Heq Hget Hres) as Hp2.
  split; [|split].
  - destruct (s_seekError f) as [seekException|] eqn:Herr; [|exact Hp2].
    split; [exact Hp2|]. intros Hpd.
    assert ((n1, p1) ∈ probeSeq (events (trialLoop env names tried (File f) opts pd p)))
      as Hin.
    { rewrite Heq. apply elem_of_app. right. left. }
    pose proof (Run_seek_error_logged env (File f) opts pd names tried p _ f n1 p1
                  backendOpen extensions e seekException HR eq_refl Hseek Herr Hin Hget Hres)
      as Hlog.
    apply Hlog. unfold seekErrorLog.
    apply Z.leb_le in Hpd. rewrite Hpd. left.
  - eapply Run_result, HR.
  - intros Hlib Herr q. apply libarchive_rewinds; assumption.
Qed.

(** C2, witness: on the stream above the constructor of [SQLiteIndexedTar]
    raises at offset 7, and the probe of [zipfile] that follows finds the
    stream at offset 0. *)
Lemma C2_rewind_after_raising_probe_witness :
  s_hasSeek (Sample.stream "<stream>") = true
  ∧ probeSeq (events (trialLoop Sample.reading (backendNames Sample.reading) ∅
                        (File (Sample.stream "<stream>")) ∅ 0 0%nat))
    = [("rarfile", 0%nat)] ++ ("tarfile", 7%nat) :: ("zipfile", 0%nat)
      :: [("pysquashfsimage", 7%nat); ("libarchive", 14%nat); ("py7zr", 0%nat);
          ("pyfatfs", 7%nat); ("ext4", 0%nat); ("sqlar", 0%nat); ("SQLiteIndex", 0%nat)]
  ∧ dict_get "tarfile" (_BACKENDS Sample.reading)
    = Some (_openTarMountSource Sample.reading, _getTarExtensions Sample.reading)
  ∧ result (_openTarMountSource Sample.reading (File (Sample.stream "<stream>")) ∅ 7%nat)
    = Raise (Exception "ValueError" "not a valid archive")
  ∧ ∃ r, result (trialLoop Sample.reading (backendNames Sample.reading) ∅
                   (File (Sample.stream "<stream>")) ∅ 0 0%nat) = Ok r.
Proof.
  split; [reflexivity|]. split; [vm_compute; reflexivity|].
  split; [reflexivity|]. split; [reflexivity|].
  exact (proj1 (proj2
           (C2_rewind_after_raising_probe Sample.reading (backendNames Sample.reading) ∅
              (Sample.stream "<stream>") ∅ 0 0%nat
              [("rarfile", 0%nat)] "tarfile" 7%nat "zipfile" 0%nat
              [("pysquashfsimage", 7%nat); ("libarchive", 14%nat); ("py7zr", 0%nat);
               ("pyfatfs", 7%nat); ("ext4", 0%nat); ("sqlar", 0%nat); ("SQLiteIndex", 0%nat)]
              (_openTarMountSource Sample.reading) (_getTarExtensions Sample.reading)
              (Exception "ValueError" "not a valid archive")
              eq_refl eq_refl eq_refl eq_refl))).
Defined.

(** ** C3: the error for an unrecognized format *)


(** Every probe of the trial stage gets the source and the options of the
    stage. *)
Lemma trialStage_probe_args env src opts joinedName auto pd p :
  Forall (λ a, a = (src, opts))
    (omap probeArgs (events (trialStage env src opts joinedName auto pd p))).
Proof.
  destruct (priorityList opts) as [prio|] eqn:Hprio.
  - destruct (trialStage_summary env src opts joinedName auto pd p prio Hprio)
      as (Hev & _). cbv zeta in Hev. rewrite Hev.
    eapply Run_probe_args, trialLoop_Run.
  - rewrite (trialStage_ill_typed _ _ _ _ _ _ _ Hprio). constructor.
Qed.


(** *** Probes that declined *)
















Lemma noPrints_spec (evs : list event) (e : event) :
  noPrints evs = true → e ∈ evs → isPrint e = false.
Proof.
  unfold noPrints. rewrite forallb_forall. intros H Hin.
  apply list_elem_of_In, H in Hin. destruct (isPrint e); [discriminate | reflexivity].
Qed.

(** ** C4: exceptions of probes *)



(** ** C5: the fallback for split files *)




(** ** C6: missing paths and directories *)

(** C6.  A local path that does not exist raises the error that names it, and
    a directory comes back as a [FolderMountSource]; in both cases nothing
    else happens: no backend is probed, and the stream position is not
    touched. *)
Theorem C6_missing_path_and_directory env path opts p :
  PyStr.contains path "://" = false →
  (os_stat env path = Missing →
   openMountSource env (Path path) opts p
   = mkOutcome (Raise (RatarmountError ("Mount source does not exist: " +:+ path))) p [])
  ∧ (os_stat env path = Directory →
     openMountSource env (Path path) opts p
     = mkOutcome
         (Ok (FolderMountSource (if String.eqb path "." then "." else os_realpath env path)))
         p []).
Proof.
  intros Hlocal. rewrite (openMountSource_local _ _ _ Hlocal). unfold openResolved.
  split; intros ->; reflexivity.
Qed.

(** C6, witness: on the sample disk [/data] is a directory and [/nowhere]
    does not exist. *)
Lemma C6_missing_path_and_directory_witness :
  (PyStr.contains "/data" "://" = false
   ∧ os_stat Sample.disk "/data" = Directory
   ∧ openMountSource Sample.disk (Path "/data") ∅ 0%nat
     = mkOutcome (Ok (FolderMountSource "/data")) 0%nat [])
  ∧ (PyStr.contains "/nowhere" "://" = false
     ∧ os_stat Sample.disk "/nowhere" = Missing
     ∧ openMountSource Sample.disk (Path "/nowhere") ∅ 0%nat
       = mkOutcome (Raise (RatarmountError "Mount source does not exist: /nowhere")) 0%nat []).
Proof.
  split.
  - split; [reflexivity|]. split; [reflexivity|].
    exact (proj2 (C6_missing_path_and_directory Sample.disk "/data" ∅ 0%nat eq_refl) eq_refl).
  - split; [reflexivity|]. split; [reflexivity|].
    exact (proj1 (C6_missing_path_and_directory Sample.disk "/nowhere" ∅ 0%nat eq_refl) eq_refl).
Defined.

(** ** C7: [file://] *)

(** C7.  For a URL with the scheme [file], [tryOpenURL] returns what follows
    [file://] as a path.  It prints one line at debug level 3 and does
    nothing else: no transport and no file system is called, whatever the
    installation.  [openMountSource] goes on with that path as with any
    local path. *)
Theorem C7_file_url_is_a_local_path env rest printDebug p :
  tryOpenURL env ("file://" +:+ rest) printDebug p
  = mkOutcome (Ok (RPath rest)) p
      (if 3 <=? printDebug
       then [Print ("[Info] Try to open URL: " +:+ "file://" +:+ rest)]
       else [])
  ∧ Forall (λ e, isRemoteCall e = false)
      (events (tryOpenURL env ("file://" +:+ rest) printDebug p))
  ∧ ∀ opts,
      openMountSource env (Path ("file://" +:+ rest)) opts p
      = prepend
          (if 3 <=? getPrintDebug opts
           then [Print ("[Info] Try to open URL: " +:+ "file://" +:+ rest)]
           else [])
          (openResolved env (Path rest) opts (getPrintDebug opts) p).
Proof.
  assert (∀ pd, tryOpenURL env ("file://" +:+ rest) pd p
          = mkOutcome (Ok (RPath rest)) p
              (if 3 <=? pd
               then [Print ("[Info] Try to open URL: " +:+ "file://" +:+ rest)]
               else [])) as Heq.
  { intros pd. unfold tryOpenURL. rewrite split1_file. cbn [fst snd].
    change (String.eqb "file" "") with false.
    change (String.eqb "file" "file") with true. cbv iota.
    rewrite bind_when_print. unfold prepend, ret. cbn [result final_pos events].
    rewrite app_nil_r. reflexivity. }
  split; [apply Heq|]. split.
  - rewrite Heq. cbn [events]. destruct (3 <=? printDebug); repeat constructor.
  - intros opts. unfold openMountSource.
    change (PyStr.contains ("file://" +:+ rest) "://") with true. cbv iota.
    erewrite bind_prepend by (rewrite Heq; reflexivity).
    rewrite Heq. reflexivity.
Qed.

(** ** C8: [dropbox://] *)

Lemma bind_ret {A B} (a : A) (k : A → M B) p : bind (ret a) k p = prepend [] (k a p).
Proof. reflexivity. Qed.

Lemma prepend_raise {A} (l : list event) (e : exn) p :
  prepend l (@raise A e p) = mkOutcome (Raise e) p l.
Proof. unfold prepend, raise. cbn [result final_pos events]. rewrite app_nil_r. reflexivity. Qed.

(** The ways of [tryOpenURL] through a [dropbox://] URL. *)
Lemma tryOpenURL_dropbox env rest pd p :
  tryOpenURL env ("dropbox://" +:+ rest) pd p =
  let url := "dropbox://" +:+ rest in
  let log := if 3 <=? pd then [Print ("[Info] Try to open URL: " +:+ url)] else [] in
  let log' := log ++ (if 3 <=? pd then [Print "[Info] Try to open with fsspec"] else []) in
  if negb (has_fsspec env) then
    mkOutcome
      (Raise (RatarmountError
                "An fsspec URL was detected but fsspec is not installed. Install it with: pip install ratarmount[fsspec]"))
      p log
  else if negb (has_dropboxdrivefs env) then
    mkOutcome
      (Raise (RatarmountError "Install the dropboxdrivefs Python package to mount dropbox://."))
      p log'
  else
    match os_environ env !! "DROPBOX_TOKEN" with
    | Some token =>
        if String.eqb token "" then mkOutcome (Raise dropboxTokenMissing) p log'
        else prepend log'
               (openFileSystemPath env url (FixedDropboxDriveFileSystem token)
                  (dropboxPath rest) pd p)
    | None => mkOutcome (Raise dropboxTokenMissing) p log'
    end.
Proof.
  cbv zeta. unfold tryOpenURL. rewrite split1_dropbox. cbn [fst snd].
  change (String.eqb "dropbox" "") with false.
  change (String.eqb "dropbox" "file") with false.
  change (String.eqb "dropbox" "git") with false.
  change (String.eqb "dropbox" "webdav") with false.
  change (String.eqb "dropbox" "dropbox") with true.
  change (bool_decide ("dropbox" ∈ sshProtocols)) with false.
  rewrite andb_false_r. cbv iota.
  rewrite bind_when_print.
  destruct (has_fsspec env); cbn [negb]; [|apply prepend_raise].
  rewrite bind_when_print, prepend_prepend.
  destruct (has_dropboxdrivefs env); cbn [negb].
  - destruct (os_environ env !! "DROPBOX_TOKEN") as [token|].
    + destruct (String.eqb token "").
      * erewrite bind_raise by reflexivity. apply prepend_raise.
      * rewrite bind_ret, prepend_prepend, app_nil_r. reflexivity.
    + erewrite bind_raise by reflexivity. apply prepend_raise.
  - erewrite bind_raise by reflexivity. apply prepend_raise.
Qed.

(** C8, counterexample.  For the root, [dropbox://], the path that goes to
    the file system is the empty string: the slash is only put in front of a
    path that is not empty (line 347). *)
Lemma C8_root_path_is_empty :
  ¬ C8_as_stated Sample.withToken "" 0 0%nat.
Proof.
  intros H.
  destruct (H fs_isdir (FixedDropboxDriveFileSystem "secret") "") as [Hstart _].
  - vm_compute. apply list_elem_of_here.
  - vm_compute in Hstart. discriminate.
Qed.

Lemma onFileSystem_not_remote_log (l : list event) fs path :
  Forall (λ e, isPrint e = true) l → Forall (onFileSystem fs path) l.
Proof.
  intros Hl. eapply Forall_impl; [exact Hl|]. intros [] H; try discriminate; exact I.
Qed.

(** C8, as amended.  For a URL [dropbox://rest]: when [DROPBOX_TOKEN] is not
    set or empty, the resolution raises a [RatarmountError] without calling
    any transport or file system, and on an installation with fsspec and
    dropboxdrivefs that error is the instruction to set the token.
    Otherwise every call goes to the Dropbox file system made with the token,
    with the one path [dropboxPath rest], and the first of them asks whether
    that path is a directory.  That path never ends with a slash; it is empty
    exactly when [rest] is empty or made of slashes only, and starts with a
    slash in every other case. *)
Theorem C8_dropbox_url env rest pd p :
  let o := tryOpenURL env ("dropbox://" +:+ rest) pd p in
  let path := dropboxPath rest in
  (os_environ env !! "DROPBOX_TOKEN" = None ∨ os_environ env !! "DROPBOX_TOKEN" = Some "" →
   (∃ msg, result o = Raise (RatarmountError msg))
   ∧ Forall (λ e, isRemoteCall e = false) (events o)
   ∧ (has_fsspec env = true → has_dropboxdrivefs env = true →
      result o = Raise dropboxTokenMissing))
  ∧ (∀ token,
       os_environ env !! "DROPBOX_TOKEN" = Some token →
       Forall (onFileSystem (FixedDropboxDriveFileSystem token) path) (events o)
       ∧ (token ≠ "" → has_fsspec env = true → has_dropboxdrivefs env = true →
          FsCall fs_isdir (FixedDropboxDriveFileSystem token) path ∈ events o))
  ∧ PyStr.endswith path "/" = false
  ∧ (path = "" ↔ PyStr.all_chars "/" rest = true)
  ∧ (path ≠ "" → PyStr.startswith path "/" = true).
Proof.
  cbv zeta. rewrite tryOpenURL_dropbox. cbv zeta.
  assert (∀ l1 l2, Forall (λ e, isPrint e = true)
            ((if 3 <=? pd then [Print l1] else [])
             ++ (if 3 <=? pd then [Print l2] else []))) as Hlogs.
  { intros l1 l2. destruct (3 <=? pd); repeat constructor. }
  assert (∀ l1, Forall (λ e, isPrint e = true) (if 3 <=? pd then [Print l1] else []))
    as Hlog1.
  { intros l1. destruct (3 <=? pd); repeat constructor. }
  assert (∀ l : list event, Forall (λ e, isPrint e = true) l →
                            Forall (λ e, isRemoteCall e = false) l) as Hlocal.
  { intros l Hl. eapply Forall_impl; [exact Hl|].
    intros [] H; try discriminate; reflexivity. }
  split; [|split; [|apply dropboxPath_shape]].
  - intros Htoken.
    destruct (has_fsspec env); cbn [negb result events].
    2:{ split; [eauto|]. split; [apply Hlocal, Hlog1 | discriminate]. }
    destruct (has_dropboxdrivefs env); cbn [negb result events].
    2:{ split; [eauto|]. split; [apply Hlocal, Hlogs | discriminate]. }
    destruct Htoken as [-> | ->]; cbn [String.eqb result events].
    + split; [unfold dropboxTokenMissing; eauto|]. split; [apply Hlocal, Hlogs | reflexivity].
    + split; [unfold dropboxTokenMissing; eauto|]. split; [apply Hlocal, Hlogs | reflexivity].
  - intros token ->.
    destruct (has_fsspec env); cbn [negb result events].
    2:{ split; [apply onFileSystem_not_remote_log, Hlog1 | discriminate]. }
    destruct (has_dropboxdrivefs env); cbn [negb result events].
    2:{ split; [apply onFileSystem_not_remote_log, Hlogs | discriminate]. }
    destruct (String.eqb token "") eqn:Etoken; cbn [result events].
    { split; [apply onFileSystem_not_remote_log, Hlogs|].
      apply String.eqb_eq in Etoken. tauto. }
    unfold prepend. cbn [events]. split.
    + apply Forall_app. split; [apply onFileSystem_not_remote_log, Hlogs|].
      apply openFileSystemPath_calls.
    + intros _ _ _. apply elem_of_app. right.
      unfold openFileSystemPath. rewrite bind_when_print. unfold prepend. cbn [events].
      apply elem_of_app. right. rewrite events_bind. apply elem_of_app. left.
      cbn [isHTTPFileSystem]. cbv iota. unfold call_fs. cbn [events]. left.
Qed.

(** ** C9: names in the priority list that are not registered *)

Lemma withoutSkipLines_app name l1 l2 :
  withoutSkipLines name (l1 ++ l2) = withoutSkipLines name l1 ++ withoutSkipLines name l2.
Proof. apply filter_app. Qed.

Lemma withoutSkipLines_skipLog name pd : withoutSkipLines name (skipLog name pd) = [].
Proof.
  unfold skipLog. destruct (1 <=? pd); [|reflexivity].
  unfold withoutSkipLines. rewrite filter_cons. cbn [isSkipLine].
  rewrite String.eqb_refl. reflexivity.
Qed.

Lemma normalizeBackend_unknown env unknown :
  unknown ∉ tarCompressionBackends env → normalizeBackend env unknown = unknown.
Proof. intros H. unfold normalizeBackend. rewrite bool_decide_eq_false_2; auto. Qed.

Lemma normalizeBackend_other env unknown name :
  dict_get unknown (_BACKENDS env) = None →
  name ≠ unknown → normalizeBackend env name ≠ unknown.
Proof.
  unfold normalizeBackend. intros Hun Hne. case_bool_decide; [|exact Hne].
  intros <-. discriminate Hun.
Qed.

Lemma sameButFor_add unknown tried tried' n :
  sameButFor unknown tried tried' →
  sameButFor unknown ({[n]} ∪ tried) ({[n]} ∪ tried').
Proof.
  intros H x Hx. rewrite !elem_of_union, !elem_of_singleton, (H x Hx). tauto.
Qed.

Lemma sameButFor_add_unknown unknown tried tried' :
  sameButFor unknown tried tried' →
  sameButFor unknown ({[unknown]} ∪ tried) tried'.
Proof.
  intros H x Hx. rewrite elem_of_union, elem_of_singleton, (H x Hx). tauto.
Qed.

(** Taking the unknown name out of the list changes nothing but the lines
    about skipping it. *)
Lemma trialLoop_without_unknown env unknown src opts pd names
    (tried tried' : gset string) p :
  dict_get unknown (_BACKENDS env) = None →
  unknown ∉ tarCompressionBackends env →
  sameButFor unknown tried tried' →
  let o := trialLoop env names tried src opts pd p in
  let o' := trialLoop env (filter (λ n, n ≠ unknown) names) tried' src opts pd p in
  result o = result o'
  ∧ final_pos o = final_pos o'
  ∧ withoutSkipLines unknown (events o) = withoutSkipLines unknown (events o').
Proof.
  intros Hun Hmod. cbv zeta. revert tried tried' p.
  induction names as [|name names IH]; intros tried tried' p Hsets; [auto|].
  rewrite filter_cons. destruct (decide (name ≠ unknown)) as [Hne|Heq].
  - pose proof (normalizeBackend_other env unknown name Hun Hne) as Hnorm.
    cbn [trialLoop].
    assert (bool_decide (normalizeBackend env name ∈ tried)
            = bool_decide (normalizeBackend env name ∈ tried')) as ->.
    { apply bool_decide_ext, Hsets, Hnorm. }
    case_bool_decide; [apply IH, Hsets|].
    pose proof (sameButFor_add unknown tried tried' (normalizeBackend env name) Hsets)
      as Hsets'.
    destruct (dict_get (normalizeBackend env name) (_BACKENDS env))
      as [[backendOpen extensions]|].
    + rewrite !result_bind, !final_pos_bind, !events_bind, !withoutSkipLines_app.
      destruct (result (tryBackend _ backendOpen src opts pd p)) as [[m|]|e];
        [auto| |auto].
      destruct (IH _ _ (final_pos (tryBackend (normalizeBackend env name)
                                     backendOpen src opts pd p)) Hsets')
        as (Hres & Hpos & Hev).
      rewrite Hres, Hpos, Hev. auto.
    + rewrite !result_bind, !final_pos_bind, !events_bind, !withoutSkipLines_app.
      destruct (1 <=? pd); cbn [when print emit ret result final_pos events];
        destruct (IH _ _ p Hsets') as (Hres & Hpos & Hev);
        rewrite Hres, Hpos, Hev; auto.
  - apply dec_stable in Heq. subst name.
    cbn [trialLoop]. rewrite (normalizeBackend_unknown env unknown Hmod).
    case_bool_decide; [apply IH, Hsets|].
    rewrite Hun.
    pose proof (sameButFor_add_unknown unknown tried tried' Hsets) as Hsets'.
    rewrite result_bind, final_pos_bind, events_bind, withoutSkipLines_app.
    destruct (IH ({[unknown]} ∪ tried) tried' p Hsets') as (Hres & Hpos & Hev).
    destruct (1 <=? pd) eqn:Hpd; cbn [when print emit ret result final_pos events];
      rewrite Hres, Hpos, Hev; auto.
    pose proof (withoutSkipLines_skipLog unknown pd) as Hskip.
    unfold skipLog in Hskip. rewrite Hpd in Hskip. rewrite Hskip. auto.
Qed.

(** C9, counterexample.  With [Z] in the priority list and no [printDebug]
    among the options, [Z] is skipped and nothing is printed: the line is
    printed at level 1 and above (line 449). *)
Lemma C9_skip_is_not_logged_at_level_0 :
  ¬ C9_as_stated Sample.plain (File (Sample.stream "<stream>")) Sample.priorityZ 0%nat.
Proof.
  intros H.
  specialize (H ["Z"] "Z" eq_refl (list_elem_of_here _ _) eq_refl).
  assert (noPrints
            (events (openMountSource Sample.plain (File (Sample.stream "<stream>"))
                       Sample.priorityZ 0%nat))
          = true) as Hquiet by (vm_compute; reflexivity).
  assert ("Z" ∉ tarCompressionBackends Sample.plain) as Hmod.
  { vm_compute. intros Hin.
    repeat (apply elem_of_cons in Hin as [Hin|Hin]; [discriminate|]).
    apply elem_of_nil in Hin as []. }
  pose proof (noPrints_spec _ _ Hquiet (H Hmod)). discriminate.
Qed.

(** *** The loop on a list joined of two *)

Lemma prepend_nil {A} (o : Outcome A) : prepend [] o = o.
Proof. destruct o. reflexivity. Qed.

Lemma triedAfter_cons_tried env name names (tried : gset string) :
  normalizeBackend env name ∈ tried →
  triedAfter env (name :: names) tried = triedAfter env names tried.
Proof.
  intros Htried. unfold triedAfter. cbn [map list_to_set].
  apply set_eq. intros x. rewrite !elem_of_union, elem_of_singleton.
  split; [intros [[->|?]|?]; auto | intros [?|?]; auto].
Qed.

Lemma triedAfter_cons env name names (tried : gset string) :
  triedAfter env (name :: names) tried
  = triedAfter env names ({[normalizeBackend env name]} ∪ tried).
Proof.
  unfold triedAfter. cbn [map list_to_set].
  apply set_eq. intros x. rewrite !elem_of_union, elem_of_singleton. tauto.
Qed.

(** The loop over [first ++ rest] is the loop over [first], followed, when
    that runs out, by the loop over [rest] from where the stream was left,
    the names of [first] counted as tried. *)
Lemma trialLoop_app env first rest tried src opts pd p :
  trialLoop env (first ++ rest) tried src opts pd p
  = let o1 := trialLoop env first tried src opts pd p in
    match result o1 with
    | Ok None =>
        prepend (events o1)
          (trialLoop env rest (triedAfter env first tried) src opts pd (final_pos o1))
    | _ => o1
    end.
Proof.
  cbv zeta. revert tried p.
  induction first as [|name first IH]; intros tried p.
  - cbn [app trialLoop ret result events final_pos].
    unfold triedAfter. cbn [map list_to_set].
    rewrite (left_id_L ∅ (∪)). symmetry. apply prepend_nil.
  - cbn [app trialLoop]. case_bool_decide as Htried.
    { rewrite IH, (triedAfter_cons_tried _ _ _ _ Htried). reflexivity. }
    rewrite triedAfter_cons.
    destruct (dict_get (normalizeBackend env name) (_BACKENDS env))
      as [[backendOpen extensions]|].
    + destruct (result (tryBackend (normalizeBackend env name) backendOpen src opts pd p))
        as [[m|]|e] eqn:Hres.
      * rewrite !(bind_prepend _ _ _ _ Hres). reflexivity.
      * rewrite !(bind_prepend _ _ _ _ Hres), IH.
        cbn [prepend result final_pos events].
        destruct (result (trialLoop env first _ src opts pd _)) as [[m|]|e];
          try reflexivity.
        unfold prepend. cbn [result final_pos events]. rewrite app_assoc. reflexivity.
      * rewrite !(bind_raise _ _ _ _ Hres). reflexivity.
    + rewrite !bind_when_print, IH. cbn [prepend result final_pos events].
      destruct (result (trialLoop env first _ src opts pd p)) as [[m|]|e];
        try reflexivity.
      unfold prepend. cbn [result final_pos events]. rewrite app_assoc. reflexivity.
Qed.

Lemma normalized_unknown_in env unknown (names : list string) :
  dict_get unknown (_BACKENDS env) = None →
  unknown ∈ map (normalizeBackend env) names → unknown ∈ names.
Proof.
  intros Hun Hin. apply list_elem_of_fmap in Hin as (name & Heq & Hname).
  destruct (decide (name = unknown)) as [->|Hne]; [exact Hname|].
  exfalso. exact (normalizeBackend_other env unknown name Hun Hne (eq_sym Heq)).
Qed.

(** The loop that comes by a name it does not know prints the line about
    it, and goes on. *)
Lemma trialLoop_reaches_unknown env unknown before after tried src opts pd p :
  dict_get unknown (_BACKENDS env) = None →
  unknown ∉ tarCompressionBackends env →
  unknown ∉ before →
  unknown ∉ tried →
  let o := trialLoop env (before ++ unknown :: after) tried src opts pd p in
  let o1 := trialLoop env before tried src opts pd p in
  result o1 = Ok None →
  events o
  = events o1 ++ skipLog unknown pd
    ++ events (trialLoop env after ({[unknown]} ∪ triedAfter env before tried)
                 src opts pd (final_pos o1)).
Proof.
  intros Hun Hmod Hbefore Htried. cbv zeta. intros Hnone.
  rewrite trialLoop_app. cbv zeta. rewrite Hnone. cbn [prepend events]. f_equal.
  cbn [trialLoop]. rewrite (normalizeBackend_unknown env unknown Hmod).
  rewrite bool_decide_eq_false_2.
  2:{ unfold triedAfter. rewrite elem_of_union, elem_of_list_to_set.
      intros [Hin|Hin]; [|contradiction].
      apply Hbefore. eapply normalized_unknown_in; eauto. }
  rewrite Hun, bind_when_print. unfold skipLog. reflexivity.
Qed.

(** C9, as amended.  A name in the list of candidates that is neither
    registered nor a tar compression module is never probed and never makes
    the loop raise; the loop returns the same, leaves the stream at the same
    position and makes the same calls as without that name, the traces
    differing in the lines about skipping it only.  The loop reaches the
    first occurrence of the name when no backend named before it accepts:
    the trace is then the trace of the loop over the names before it, the
    line about skipping the name when the debug level is 1 or more, and the
    trace of the loop over the names behind it.  When a backend named before
    it accepts, the loop ends there. *)
Theorem C9_unknown_backend_is_skipped env unknown names tried src opts pd p :
  dict_get unknown (_BACKENDS env) = None →
  unknown ∉ tarCompressionBackends env →
  let o := trialLoop env names tried src opts pd p in
  let o' := trialLoop env (filter (λ n, n ≠ unknown) names) tried src opts pd p in
  result o = result o'
  ∧ final_pos o = final_pos o'
  ∧ withoutSkipLines unknown (events o) = withoutSkipLines unknown (events o')
  ∧ (unknown ∉ probedNames (events o))
  ∧ (∃ r, result o = Ok r)
  ∧ (∀ before after,
       names = before ++ unknown :: after →
       unknown ∉ before →
       unknown ∉ tried →
       let o1 := trialLoop env before tried src opts pd p in
       (∀ m, result o1 = Ok (Some m) → o = o1)
       ∧ (result o1 = Ok None →
          events o
          = events o1 ++ skipLog unknown pd
            ++ events (trialLoop env after ({[unknown]} ∪ triedAfter env before tried)
                         src opts pd (final_pos o1)))
       ∧ (result o1 = Ok None → 1 <= pd → skipLine unknown ∈ events o)).
Proof.
  intros Hun Hmod. cbv zeta.
  pose proof (trialLoop_Run env src opts pd names tried p) as HR.
  destruct (trialLoop_without_unknown env unknown src opts pd names tried tried p Hun Hmod)
    as (Hres & Hpos & Hev); [intros n _; reflexivity|].
  split; [exact Hres|]. split; [exact Hpos|]. split; [exact Hev|]. split; [|split].
  - intros Hin.
    destruct (Run_probedNames_prefix _ _ _ _ _ _ _ _ HR) as [k Hk].
    assert (unknown ∈ loopOrder env names tried) as Hin'.
    { rewrite Hk. apply elem_of_app. left. exact Hin. }
    rewrite loopOrder_spec in Hin'. apply list_elem_of_filter in Hin' as [Hreg _].
    unfold isRegistered in Hreg. rewrite Hun in Hreg. destruct Hreg as [? [=]].
  - eapply Run_result, HR.
  - intros before after -> Hbefore Htried.
    pose proof (trialLoop_reaches_unknown env unknown before after tried src opts pd p
                  Hun Hmod Hbefore Htried) as Hreach.
    cbv zeta in Hreach.
    split; [|split].
    + intros m Hm. rewrite trialLoop_app. cbv zeta. rewrite Hm. reflexivity.
    + exact Hreach.
    + intros Hnone Hpd. rewrite (Hreach Hnone).
      rewrite !elem_of_app. right. left.
      unfold skipLog, skipLine. apply Z.leb_le in Hpd. rewrite Hpd. left.
Qed.

Lemma Z_not_a_module : "Z" ∉ tarCompressionBackends Sample.plain.
Proof.
  vm_compute. intros Hin.
  repeat (apply elem_of_cons in Hin as [Hin|Hin]; [discriminate|]).
  apply elem_of_nil in Hin as [].
Qed.

(** C9, witness: [Z] behind [rarfile] in the priority list, at level 1. *)
Lemma C9_unknown_backend_is_skipped_witness :
  dict_get "Z" (_BACKENDS Sample.plain) = None
  ∧ ("Z" ∉ tarCompressionBackends Sample.plain)
  ∧ ("Z" ∉ ["rarfile"])
  ∧ result (trialLoop Sample.plain ["rarfile"] ∅ (File (Sample.stream "<stream>")) ∅ 1 0%nat)
    = Ok None
  ∧ skipLine "Z"
    ∈ events (trialLoop Sample.plain (["rarfile"] ++ "Z" :: backendNames Sample.plain) ∅
                (File (Sample.stream "<stream>")) ∅ 1 0%nat).
Proof.
  assert ("Z" ∉ ["rarfile"]) as Hbefore.
  { intros Hin. apply list_elem_of_singleton in Hin. discriminate. }
  split; [reflexivity|]. split; [exact Z_not_a_module|]. split; [exact Hbefore|].
  assert (result (trialLoop Sample.plain ["rarfile"] ∅ (File (Sample.stream "<stream>")) ∅
                    1 0%nat) = Ok None) as Hnone by (vm_compute; reflexivity).
  split; [exact Hnone|].
  destruct (C9_unknown_backend_is_skipped Sample.plain "Z"
              (["rarfile"] ++ "Z" :: backendNames Sample.plain) ∅
              (File (Sample.stream "<stream>")) ∅ 1 0%nat eq_refl Z_not_a_module)
    as (_ & _ & _ & _ & _ & Hreach).
  destruct (Hreach ["rarfile"] (backendNames Sample.plain) eq_refl Hbefore
              (not_elem_of_empty _)) as (_ & _ & Hlogged).
  apply Hlogged; [exact Hnone | lia].
Defined.

(** ** C10: the option [tarFileName] *)

(** *** The first candidate is probed *)

Lemma Run_first_probe env src opts pd names tried p o n rest :
  Run env src opts pd names tried p o →
  loopOrder env names tried = n :: rest →
  Probe n src opts p ∈ events o.
Proof.
  assert (∀ name q, Probe name src opts q ∈ probeIntro name src opts pd q) as Hintro.
  { intros name q. unfold probeIntro. apply elem_of_app. right. left. }
  induction 1 as [| name names tried p o Htried HR IH
                  | name names tried p o Hnew Hget HR IH
                  | name names tried p backendOpen extensions m n' ob Hnew Hget Hres
                  | name names tried p backendOpen extensions o n' ob Hnew Hget Hres HR IH
                  | name names tried p backendOpen extensions e o n' ob os Hnew Hget Hres HR IH];
    cbn [loopOrder prepend events].
  - discriminate.
  - rewrite decide_True by assumption. exact IH.
  - rewrite decide_False by assumption.
    rewrite (decide_False (P := isRegistered _ _))
      by (unfold isRegistered; rewrite Hget; apply is_Some_None).
    intros Heq. apply elem_of_app. right. exact (IH Heq).
  - subst n' ob. rewrite decide_False by assumption.
    rewrite (decide_True (P := isRegistered _ _))
      by (unfold isRegistered; rewrite Hget; eauto).
    intros [= <- _]. apply elem_of_app. left. apply Hintro.
  - subst n' ob. rewrite decide_False by assumption.
    rewrite (decide_True (P := isRegistered _ _))
      by (unfold isRegistered; rewrite Hget; eauto).
    intros [= <- _]. rewrite <- app_assoc. apply elem_of_app. left. apply Hintro.
  - subst n' ob os. rewrite decide_False by assumption.
    rewrite (decide_True (P := isRegistered _ _))
      by (unfold isRegistered; rewrite Hget; eauto).
    intros [= <- _]. rewrite <- app_assoc. apply elem_of_app. left. apply Hintro.
Qed.

Lemma tarfile_is_a_candidate env (names : list string) :
  "tarfile" ∈ names → "tarfile" ∈ candidateOrder env names.
Proof.
  intros Hin. unfold candidateOrder. apply list_elem_of_filter. split.
  - eexists. reflexivity.
  - induction names as [|name names IH]; [apply elem_of_nil in Hin as []|].
    cbn [map firstOccurrences].
    destruct (decide (normalizeBackend env name = "tarfile")) as [->|Hne]; [left|].
    right. apply list_elem_of_filter. split; [congruence|].
    apply IH. apply elem_of_cons in Hin as [<-|Hin]; [|exact Hin].
    exfalso. apply Hne. unfold normalizeBackend. case_bool_decide; reflexivity.
Qed.

(** The trial stage probes a backend, unless [prioritizedBackends] is no
    list. *)
Lemma trialStage_probes env src opts joinedName auto pd p :
  is_Some (priorityList opts) →
  ∃ name, Probe name src opts p ∈ events (trialStage env src opts joinedName auto pd p).
Proof.
  intros [prio Hprio].
  destruct (trialStage_summary env src opts joinedName auto pd p prio Hprio) as (Hev & _).
  cbv zeta in Hev. rewrite Hev.
  pose proof (trialLoop_Run env src opts pd (prio ++ auto ++ backendNames env) ∅ p) as HR.
  destruct (loopOrder env (prio ++ auto ++ backendNames env) ∅) as [|n rest] eqn:Horder.
  - exfalso.
    assert ("tarfile" ∈ candidateOrder env (prio ++ auto ++ backendNames env)) as Hin.
    { apply tarfile_is_a_candidate. rewrite !elem_of_app. right. right.
      unfold backendNames, _BACKENDS. cbn [map fst].
      apply list_elem_of_further, list_elem_of_here. }
    rewrite <- loopOrder_candidateOrder, Horder in Hin. apply elem_of_nil in Hin as [].
  - exists n. eapply Run_first_probe; eauto.
Qed.

(** *** The dict that [_openTarMountSource] changes *)

Lemma dict_copy_lookup_old (d d' : nat) (σ : Store) :
  (d' < length σ)%nat → (dict_copy d σ).2 !! d' = σ !! d'.
Proof. intros Hd. unfold dict_copy. cbn [snd]. apply lookup_app_l, Hd. Qed.

Lemma dict_copy_lookup_new (d : nat) (σ : Store) :
  (dict_copy d σ).2 !! (dict_copy d σ).1 = Some (dict_items d σ).
Proof.
  unfold dict_copy. cbn [fst snd]. rewrite lookup_app_r by lia.
  rewrite Nat.sub_diag. reflexivity.
Qed.

Lemma openTarMountSource_kwargs_unfold path (σ : Store) d items v :
  σ !! d = Some items →
  items !! "tarFileName" = Some v →
  _openTarMountSource_kwargs (Path path) d σ
  = (S (length σ),
     <[length σ := delete "tarFileName" items]> (σ ++ [items])
     ++ [delete "tarFileName" items]).
Proof.
  intros Hd Hv.
  assert (dict_items d σ = items) as Hitems by (unfold dict_items; rewrite Hd; reflexivity).
  assert ((σ ++ [items]) !! length σ = Some items) as Hcopy.
  { rewrite lookup_app_r by lia. rewrite Nat.sub_diag. reflexivity. }
  assert (length σ < length (σ ++ [items]))%nat as Hlen by (rewrite length_app; cbn; lia).
  unfold _openTarMountSource_kwargs, dict_contains.
  cbn [isinstance_str]. rewrite Hitems.
  rewrite bool_decide_eq_true_2 by (rewrite Hv; eauto).
  unfold dict_copy. rewrite Hitems. cbv beta iota zeta.
  unfold dict_del. rewrite Hcopy.
  unfold dict_items. rewrite list_lookup_insert_eq by exact Hlen.
  rewrite length_insert, length_app. cbn [length]. f_equal. lia.
Qed.

Lemma openTarMountSource_kwargs_path path (σ : Store) d items v :
  σ !! d = Some items →
  items !! "tarFileName" = Some v →
  let σ' := (_openTarMountSource_kwargs (Path path) d σ).2 in
  let kwargs := (_openTarMountSource_kwargs (Path path) d σ).1 in
  σ' !! kwargs = Some (delete "tarFileName" items)
  ∧ ∀ d', (d' < length σ)%nat → σ' !! d' = σ !! d'.
Proof.
  intros Hd Hv. cbv zeta.
  rewrite (openTarMountSource_kwargs_unfold path σ d items v Hd Hv). cbn [fst snd].
  set (σ2 := <[length σ := delete "tarFileName" items]> (σ ++ [items])).
  assert (length σ2 = S (length σ)) as Hlen2.
  { unfold σ2. rewrite length_insert, length_app. cbn [length]. lia. }
  split.
  - rewrite lookup_app_r by lia. rewrite Hlen2, Nat.sub_diag. reflexivity.
  - intros d' Hd'. rewrite lookup_app_l by lia. unfold σ2.
    rewrite list_lookup_insert_ne by lia. apply lookup_app_l, Hd'.
Qed.

(** C10.  When a URL is resolved to a stream and the caller gave no
    [tarFileName], the call goes on as the trial on that stream with the
    options of the caller and [tarFileName] set to the URL: every probe of
    the call gets the stream and these options, and a probe is made unless
    [prioritizedBackends] is no list.  [_openTarMountSource], for a path and
    a dict of keyword arguments that has [tarFileName], hands to the
    constructor of [SQLiteIndexedTar] a new dict with the items of its own
    but that key; its own dict keeps its items, and so does every dict there
    was before the call, the dict of [openMountSource] among them. *)
Theorem C10_tarFileName env url opts p f :
  PyStr.contains url "://" = true →
  result (tryOpenURL env url (getPrintDebug opts) p) = Ok (RStream f) →
  opts !! "tarFileName" = None →
  let resolved := tryOpenURL env url (getPrintDebug opts) p in
  let o := openMountSource env (Path url) opts p in
  let options := <["tarFileName" := VStr url]> opts in
  o = prepend (events resolved)
        (trialStage env (File f) options "" [] (getPrintDebug opts) (final_pos resolved))
  ∧ Forall (λ a, a = (File f, options)) (omap probeArgs (events o))
  ∧ (is_Some (priorityList opts) →
     ∃ name, Probe name (File f) options (final_pos resolved) ∈ events o)
  ∧ (∀ path (σ : Store) d items v q,
       σ !! d = Some items →
       items !! "tarFileName" = Some v →
       let σ' := (_openTarMountSource_kwargs (Path path) d σ).2 in
       let kwargs := (_openTarMountSource_kwargs (Path path) d σ).1 in
       σ' !! kwargs = Some (delete "tarFileName" items)
       ∧ σ' !! d = Some items
       ∧ (∀ d', (d' < length σ)%nat → σ' !! d' = σ !! d')
       ∧ events (_openTarMountSource env (Path path) items q)
         = [Construct SQLiteIndexedTar (Path path) (delete "tarFileName" items)])
  ∧ (∀ path (σ : Store) d items v,
       σ !! d = Some items →
       items !! "tarFileName" = Some v →
       let σ' := (call_openTarMountSource (Path path) d σ).2 in
       let kwargs := (call_openTarMountSource (Path path) d σ).1 in
       σ' !! kwargs = Some (delete "tarFileName" items)
       ∧ ∀ d', (d' < length σ)%nat → σ' !! d' = σ !! d').
Proof.
  intros Hurl Hres Hnone. cbv zeta.
  assert (openMountSource env (Path url) opts p
          = prepend (events (tryOpenURL env url (getPrintDebug opts) p))
              (trialStage env (File f) (<["tarFileName" := VStr url]> opts) "" []
                 (getPrintDebug opts)
                 (final_pos (tryOpenURL env url (getPrintDebug opts) p)))) as Heq.
  { unfold openMountSource. rewrite Hurl.
    erewrite bind_prepend by exact Hres. cbv beta iota. rewrite Hnone. reflexivity. }
  split; [exact Heq|]. rewrite Heq. cbn [prepend events].
  split; [|split; [|split]].
  - rewrite omap_app, (probeArgs_quiet _ (tryOpenURL_quiet env url _ p)). cbn [app].
    apply trialStage_probe_args.
  - intros Hprio.
    destruct (trialStage_probes env (File f) (<["tarFileName" := VStr url]> opts) "" []
                (getPrintDebug opts)
                (final_pos (tryOpenURL env url (getPrintDebug opts) p))) as [name Hname].
    { rewrite priorityList_tarFileName. exact Hprio. }
    exists name. apply elem_of_app. right. exact Hname.
  - intros path σ d items v q Hd Hv. cbv zeta.
    destruct (openTarMountSource_kwargs_path path σ d items v Hd Hv) as [Hkwargs Hold].
    cbv zeta in Hkwargs, Hold.
    split; [exact Hkwargs|]. split; [|split; [exact Hold|]].
    + rewrite Hold by (eapply lookup_lt_Some, Hd). exact Hd.
    + unfold _openTarMountSource. rewrite Hv.
      rewrite events_bind. unfold call_construct.
      destruct (construct env SQLiteIndexedTar (Path path) (delete "tarFileName" items) q)
        as [[e|] q']; reflexivity.
  - intros path σ d items v Hd Hv. cbv zeta.
    unfold call_openTarMountSource.
    pose proof (dict_copy_lookup_new d σ) as Hnew.
    unfold dict_items in Hnew at 1. rewrite Hd in Hnew.
    destruct (dict_copy d σ) as [kwargs σ1] eqn:Hcopy. cbn [fst snd] in Hnew.
    destruct (openTarMountSource_kwargs_path path σ1 kwargs items v Hnew Hv)
      as [Hkwargs Hold].
    cbv zeta in Hkwargs, Hold. split; [exact Hkwargs|].
    intros d' Hd'.
    assert (length σ1 = S (length σ)) as Hlen.
    { injection Hcopy as _ <-. rewrite length_app. cbn. lia. }
    rewrite Hold by lia.
    injection Hcopy as _ <-. apply lookup_app_l, Hd'.
Qed.

(** C10, witness: the secure-shell transport of the sample installation
    hands over a stream, and a probe gets the URL under [tarFileName]. *)
Lemma C10_tarFileName_witness :
  PyStr.contains "ssh://host/archive.tar" "://" = true
  ∧ result (tryOpenURL Sample.plain "ssh://host/archive.tar" (getPrintDebug ∅) 0%nat)
    = Ok (RStream (Sample.stream "<SSHFile>"))
  ∧ (∅ : gmap string value) !! "tarFileName" = None
  ∧ is_Some (priorityList ∅)
  ∧ ∃ name,
      Probe name (File (Sample.stream "<SSHFile>"))
        (<["tarFileName" := VStr "ssh://host/archive.tar"]> ∅)
        (final_pos (tryOpenURL Sample.plain "ssh://host/archive.tar" (getPrintDebug ∅) 0%nat))
      ∈ events (openMountSource Sample.plain (Path "ssh://host/archive.tar") ∅ 0%nat).
Proof.
  assert (is_Some (priorityList ∅)) as Hprio by (eexists; reflexivity).
  split; [reflexivity|]. split; [reflexivity|]. split; [reflexivity|].
  split; [exact Hprio|].
  assert (result (tryOpenURL Sample.plain "ssh://host/archive.tar" (getPrintDebug ∅) 0%nat)
          = Ok (RStream (Sample.stream "<SSHFile>"))) as Hstream by reflexivity.
  destruct (C10_tarFileName Sample.plain "ssh://host/archive.tar" (∅ : gmap string value)
              0%nat (Sample.stream "<SSHFile>") eq_refl Hstream eq_refl)
    as (_ & _ & Hprobe & _).
  exact (Hprobe Hprio).
Defined.

(** * More properties of the module *)

(** ** The extension test *)

Lemma length_append (s t : string) :
  String.length (s +:+ t) = (String.length s + String.length t)%nat.
Proof.
  induction s as [|c s IH]; [reflexivity|].
  change (String c s +:+ t) with (String c (s +:+ t)).
  cbn [String.length]. rewrite IH. reflexivity.
Qed.

Lemma matchesExtension_lowered (fileName : string) (extensions : list string) :
  matchesExtension fileName extensions
  = existsb (λ e, PyStr.endswith (PyStr.lower fileName) ("." +:+ e)) (map PyStr.lower extensions).
Proof.
  unfold matchesExtension. induction extensions as [|e l IH]; [reflexivity|].
  cbn [existsb map]. rewrite IH. reflexivity.
Qed.

(** X1.  [matchesExtension] ignores the case of the letters, in the file
    name and in the extensions: two names that are equal once lowered, with
    two lists of extensions that are equal once lowered, get the same
    answer. *)
Theorem matchesExtension_ignores_case (fileName fileName' : string)
    (extensions extensions' : list string) :
  PyStr.lower fileName = PyStr.lower fileName' →
  map PyStr.lower extensions = map PyStr.lower extensions' →
  matchesExtension fileName extensions = matchesExtension fileName' extensions'.
Proof.
  intros Hname Hexts. rewrite !matchesExtension_lowered, Hname, Hexts. reflexivity.
Qed.

(** X1, witness: [Photos.TAR.Gz] against [tar.GZ] and [Tgz]. *)
Lemma matchesExtension_ignores_case_witness :
  PyStr.lower "Photos.TAR.Gz" = PyStr.lower "photos.tar.gz"
  ∧ map PyStr.lower ["tar.GZ"; "Tgz"] = map PyStr.lower ["tar.gz"; "tgz"]
  ∧ matchesExtension "Photos.TAR.Gz" ["tar.GZ"; "Tgz"]
    = matchesExtension "photos.tar.gz" ["tar.gz"; "tgz"].
Proof.
  split; [reflexivity|]. split; [reflexivity|].
  exact (matchesExtension_ignores_case "Photos.TAR.Gz" "photos.tar.gz"
           ["tar.GZ"; "Tgz"] ["tar.gz"; "tgz"] eq_refl eq_refl).
Defined.

(** X2.  [matchesExtension] holds exactly when the lowered file name ends
    with a dot followed by one of the extensions, lowered.  The empty list
    matches nothing; a list joined of two matches when one of the two does;
    and the answer depends on which extensions are in the list only, not on
    their order or on how often they occur. *)
Theorem matchesExtension_is_a_dotted_suffix (fileName : string) (extensions : list string) :
  (matchesExtension fileName extensions = true ↔
   ∃ extension stem,
     extension ∈ extensions
     ∧ PyStr.lower fileName = stem +:+ "." +:+ PyStr.lower extension)
  ∧ matchesExtension fileName [] = false
  ∧ (∀ more, matchesExtension fileName (extensions ++ more)
             = matchesExtension fileName extensions || matchesExtension fileName more)
  ∧ (∀ extensions',
       (∀ extension, extension ∈ extensions ↔ extension ∈ extensions') →
       matchesExtension fileName extensions = matchesExtension fileName extensions').
Proof.
  split; [apply matchesExtension_spec|]. split; [reflexivity|]. split.
  - intros more. unfold matchesExtension. apply existsb_app.
  - intros extensions' Hsame.
    destruct (matchesExtension fileName extensions) eqn:E.
    + apply matchesExtension_spec in E as (extension & stem & Hin & Heq).
      symmetry. apply matchesExtension_spec. exists extension, stem.
      split; [apply Hsame, Hin | exact Heq].
    + destruct (matchesExtension fileName extensions') eqn:E'; [|reflexivity].
      apply matchesExtension_spec in E' as (extension & stem & Hin & Heq).
      rewrite <- E. apply matchesExtension_spec. exists extension, stem.
      split; [apply Hsame, Hin | exact Heq].
Qed.

(** ** The extensions of the registry *)

Lemma elem_of_flat_map_iff {A B} (f : A → list B) (l : list A) (b : B) :
  b ∈ flat_map f l ↔ ∃ a, a ∈ l ∧ b ∈ f a.
Proof.
  rewrite list_elem_of_In, in_flat_map. split.
  - intros (a & Ha & Hb). exists a. rewrite !list_elem_of_In. auto.
  - intros (a & Ha & Hb). exists a. rewrite <- !list_elem_of_In. auto.
Qed.

(** What [_getTarExtensions] returns. *)
Lemma elem_of_getTarExtensions env (extension : string) :
  extension ∈ _getTarExtensions env ↔
  extension = "tar"
  ∨ ∃ key compression suffix,
      (key, compression) ∈ TAR_COMPRESSION_FORMATS env
      ∧ ((suffix ∈ CompressionInfo.suffixes compression ∧ extension = "tar." +:+ suffix)
         ∨ (suffix ∈ CompressionInfo.doubleSuffixes compression ∧ extension = suffix)).
Proof.
  unfold _getTarExtensions. rewrite !elem_of_app, list_elem_of_singleton, !elem_of_flat_map_iff.
  split.
  - intros [->|[(c & Hc & Hs)|(c & Hc & Hs)]]; [left; reflexivity| |].
    + apply list_elem_of_fmap in Hc as ([key c'] & -> & Hc).
      apply list_elem_of_In, in_map_iff in Hs as (s & <- & Hs).
      right. exists key, c', s. split; [exact Hc|]. left.
      split; [apply list_elem_of_In, Hs | reflexivity].
    + apply list_elem_of_fmap in Hc as ([key c'] & -> & Hc).
      right. exists key, c', extension. split; [exact Hc|]. right. auto.
  - intros [->|(key & c & s & Hc & [[Hs ->]|[Hs ->]])]; [left; reflexivity| |].
    + right. left. exists c. split.
      * apply list_elem_of_fmap. exists (key, c). auto.
      * apply list_elem_of_In, in_map_iff. exists s.
        split; [reflexivity | apply list_elem_of_In, Hs].
    + right. right. exists c. split; [|exact Hs].
      apply list_elem_of_fmap. exists (key, c). auto.
Qed.

Lemma tarfile_item env backendOpen extensions :
  ("tarfile", (backendOpen, extensions)) ∈ _BACKENDS env →
  extensions = _getTarExtensions env.
Proof.
  unfold _BACKENDS. intros Hin.
  repeat (apply elem_of_cons in Hin as [Hin|Hin]; [congruence|]).
  apply elem_of_nil in Hin as [].
Qed.

Lemma tarfile_registered env :
  ("tarfile", (_openTarMountSource env, _getTarExtensions env)) ∈ _BACKENDS env.
Proof. unfold _BACKENDS. apply list_elem_of_further, list_elem_of_here. Qed.

(** X3.  [tarfile] is among the backends that lines 422 to 436 put first
    for a local path exactly when the path is no shard of a split file and
    the lowered path ends with a dot and the lowered form of one of these
    extensions: [tar], [tar.] with a suffix of a compression of TAR
    archives, a double suffix of such a compression.  For the local path of
    a file, when [prioritizedBackends] is a list or absent and
    [checkForSplitFile] has not returned an empty list of shards, the trace
    of [openMountSource] is that of the loop over the priority list, then
    these backends, then the registry. *)
Theorem tarfile_is_prioritized_by_tar_extensions env (path : string) :
  ("tarfile" ∈ autoPrioritizedBackends env path ↔
   checkForSplitFile env path = None
   ∧ ∃ extension stem,
       PyStr.lower path = stem +:+ "." +:+ PyStr.lower extension
       ∧ (extension = "tar"
          ∨ ∃ key compression suffix,
              (key, compression) ∈ TAR_COMPRESSION_FORMATS env
              ∧ ((suffix ∈ CompressionInfo.suffixes compression
                  ∧ extension = "tar." +:+ suffix)
                 ∨ (suffix ∈ CompressionInfo.doubleSuffixes compression
                    ∧ extension = suffix))))
  ∧ (∀ opts p prio,
       PyStr.contains path "://" = false →
       os_stat env path = NotDirectory →
       priorityList opts = Some prio →
       ¬ emptySplit env path →
       ∃ q,
         events (openMountSource env (Path path) opts p)
         = events (trialLoop env
                     (prio ++ autoPrioritizedBackends env path ++ backendNames env) ∅
                     (trialSource env path) (trialOptions env path opts)
                     (getPrintDebug opts) q)).
Proof.
  split.
  - unfold autoPrioritizedBackends.
    destruct (checkForSplitFile env path) as [split|].
    { split; [intros Hin; apply elem_of_nil in Hin as [] | intros [[=] _]]. }
    rewrite extensionMatchedBackends_spec. split.
    + intros (bo & exts & ext & stem & Hin & Hext & Hstem).
      apply tarfile_item in Hin as ->.
      apply elem_of_getTarExtensions in Hext.
      split; [reflexivity|]. exists ext, stem. auto.
    + intros [_ (ext & stem & Hstem & Hext)].
      exists (_openTarMountSource env), (_getTarExtensions env), ext, stem.
      split; [apply tarfile_registered|]. split; [|exact Hstem].
      apply elem_of_getTarExtensions, Hext.
  - intros opts p prio Hlocal Hstat Hprio Hsplit.
    destruct (openMountSource_file env path opts p prio Hlocal Hstat Hprio Hsplit)
      as (q & Hev & _).
    exists q. exact Hev.
Qed.

(** X4.  The backends that lines 434 to 436 put first for the extension
    of a path come in the order of their registration in [_BACKENDS], each
    of them once. *)
Theorem extension_matches_keep_registration_order env (path : string) :
  extensionMatchedBackends env path `sublist_of` backendNames env
  ∧ NoDup (extensionMatchedBackends env path).
Proof.
  assert (extensionMatchedBackends env path `sublist_of` backendNames env) as Hsub.
  { unfold extensionMatchedBackends, backendNames.
    apply (fmap_sublist fst), sublist_filter. }
  split; [exact Hsub|].
  eapply sublist_NoDup; [|exact Hsub].
  unfold backendNames, _BACKENDS. cbn [map fst].
  repeat (apply NoDup_cons; split;
          [intros Hin; repeat (apply elem_of_cons in Hin as [Hin|Hin]; [discriminate|]);
           apply elem_of_nil in Hin as [] |]).
  apply NoDup_nil_2.
Qed.

(** ** The order of the candidates, in parts *)

Lemma elem_of_firstOccurrences (l : list string) (x : string) :
  x ∈ firstOccurrences l ↔ x ∈ l.
Proof.
  induction l as [|y l IH]; cbn [firstOccurrences]; [reflexivity|].
  rewrite !elem_of_cons, list_elem_of_filter, IH.
  destruct (decide (x = y)); tauto.
Qed.

Lemma firstOccurrences_app (l1 l2 : list string) :
  firstOccurrences (l1 ++ l2)
  = firstOccurrences l1 ++ filter (λ x, x ∉ l1) (firstOccurrences l2).
Proof.
  induction l1 as [|y l1 IH]; cbn [app firstOccurrences].
  - symmetry. apply filter_all, Forall_forall. intros x _. apply not_elem_of_nil.
  - rewrite IH, filter_app, list_filter_filter. do 2 f_equal.
    apply filter_ext_in. intros x _. rewrite not_elem_of_cons. tauto.
Qed.

Lemma elem_of_candidateOrder env (names : list string) (n : string) :
  n ∈ candidateOrder env names ↔
  isRegistered env n ∧ ∃ name, name ∈ names ∧ n = normalizeBackend env name.
Proof.
  unfold candidateOrder.
  rewrite list_elem_of_filter, elem_of_firstOccurrences, list_elem_of_fmap.
  split; intros [Hreg (name & H1 & H2)]; (split; [exact Hreg|]); exists name; auto.
Qed.

(** X5.  The loop of line 442 over a list of names joined of two is the
    loop over the first list, followed, when no backend of the first list
    accepts, by the loop over the second list from where the first left the
    stream, the names of the first list counted as tried.  When a backend of
    the first list accepts, what stands behind in the list changes nothing;
    otherwise result and position are those of the second loop, and the
    trace is the two traces one after the other.  The probes of the first
    list are made first in any case. *)
Theorem trial_of_a_concatenation env first rest tried src opts pd p :
  let o := trialLoop env (first ++ rest) tried src opts pd p in
  let o1 := trialLoop env first tried src opts pd p in
  let o2 :=
    trialLoop env rest (triedAfter env first tried) src opts pd (final_pos o1) in
  (∀ m, result o1 = Ok (Some m) → o = o1)
  ∧ (result o1 = Ok None →
     result o = result o2
     ∧ final_pos o = final_pos o2
     ∧ events o = events o1 ++ events o2
     ∧ probedNames (events o) = loopOrder env first tried ++ probedNames (events o2))
  ∧ (∃ more, probeSeq (events o) = probeSeq (events o1) ++ more).
Proof.
  cbv zeta. rewrite trialLoop_app. cbv zeta.
  pose proof (trialLoop_Run env src opts pd first tried p) as HR.
  destruct (result (trialLoop env first tried src opts pd p)) as [[m|]|e] eqn:Hres.
  - split; [reflexivity|]. split; [discriminate|].
    exists []. rewrite app_nil_r. reflexivity.
  - split; [discriminate|]. split.
    + intros _. cbn [prepend result final_pos events].
      split; [reflexivity|]. split; [reflexivity|]. split; [reflexivity|].
      rewrite probedNames_app. f_equal.
      eapply Run_exhausted; eauto.
    + eexists. cbn [prepend events]. apply probeSeq_app.
  - destruct (Run_result _ _ _ _ _ _ _ _ HR) as [r Hr]. congruence.
Qed.

Lemma backendNames_registered env (n : string) :
  n ∈ backendNames env ↔ isRegistered env n.
Proof.
  unfold isRegistered, backendNames, _BACKENDS. cbn [map fst dict_get]. split.
  - intros Hin.
    repeat (apply elem_of_cons in Hin as [->|Hin]; [cbn; eauto|]).
    apply elem_of_nil in Hin as [].
  - repeat (destruct (String.eqb _ n) eqn:Hname;
            [apply String.eqb_eq in Hname as <-; intros _;
             repeat first [apply list_elem_of_here | apply list_elem_of_further]
            | clear Hname]).
    intros [? [=]].
Qed.

(** X6.  Every registered backend whose name is not the name of a module
    of a TAR compression is a candidate, whatever the priority list and the
    extension of the path are; when the trial ends without an archive, with
    an exception or with the single file of a split file, that backend has
    been tried. *)
Theorem every_backend_gets_its_turn env src opts prio auto joinedName pd p name :
  priorityList opts = Some prio →
  isRegistered env name →
  name ∉ tarCompressionBackends env →
  let o := trialStage env src opts joinedName auto pd p in
  (name ∈ candidateOrder env (prio ++ auto ++ backendNames env))
  ∧ ((∀ m, result o ≠ Ok m) ∨ (∃ f, result o = Ok (SingleFileMountSource joinedName f)) →
     name ∈ probedNames (events o)).
Proof.
  intros Hprio Hreg Hmod. cbv zeta.
  assert (name ∈ candidateOrder env (prio ++ auto ++ backendNames env)) as Hin.
  { apply elem_of_candidateOrder. split; [exact Hreg|]. exists name. split.
    - rewrite !elem_of_app. right. right. apply backendNames_registered, Hreg.
    - symmetry. apply normalizeBackend_unknown, Hmod. }
  split; [exact Hin|]. intros Hend.
  destruct (trialStage_summary env src opts joinedName auto pd p prio Hprio)
    as (Hev & _ & Hres).
  cbv zeta in Hev, Hres.
  pose proof (trialLoop_Run env src opts pd (prio ++ auto ++ backendNames env) ∅ p) as HR.
  destruct Hres as [(m & _ & Hm & Harch)|[Hnone _]].
  - exfalso. destruct Hend as [Hno|[f Hf]].
    + exact (Hno m Hm).
    + rewrite Hm in Hf. injection Hf as ->. exact Harch.
  - rewrite Hev.
    destruct (Run_exhausted _ _ _ _ _ _ _ _ HR Hnone) as [-> _].
    rewrite loopOrder_candidateOrder. exact Hin.
Qed.

(** X6, witness: without a priority list, [SQLiteIndex] is tried on [notes.txt],
    which no backend accepts. *)
Lemma every_backend_gets_its_turn_witness :
  priorityList ∅ = Some []
  ∧ isRegistered Sample.plain "SQLiteIndex"
  ∧ ("SQLiteIndex" ∉ tarCompressionBackends Sample.plain)
  ∧ "SQLiteIndex"
    ∈ probedNames (events (trialStage Sample.plain (Path "notes.txt") ∅ "" [] 0 0%nat)).
Proof.
  assert (isRegistered Sample.plain "SQLiteIndex") as Hreg by (eexists; reflexivity).
  assert ("SQLiteIndex" ∉ tarCompressionBackends Sample.plain) as Hmod.
  { vm_compute. intros Hin.
    repeat (apply elem_of_cons in Hin as [Hin|Hin]; [discriminate|]).
    apply elem_of_nil in Hin as []. }
  split; [reflexivity|]. split; [exact Hreg|]. split; [exact Hmod|].
  refine (proj2 (every_backend_gets_its_turn Sample.plain (Path "notes.txt")
                   (∅ : gmap string value) [] [] "" 0 0%nat
                   "SQLiteIndex" _ Hreg Hmod) _); [reflexivity|].
  left. intros m. vm_compute. discriminate.
Defined.

(** ** What the backends hand back *)

Lemma yields_call_construct_eq env cls src opts :
  yields (λ m, m = Archive cls src opts) (call_construct env cls src opts).
Proof.
  intros p m. unfold call_construct. destruct (construct _ _ _ _ _) as [[e|] q].
  - discriminate.
  - intros [= <-]. reflexivity.
Qed.
Lemma constructorOptions_tarfile_path path options :
  constructorOptions "tarfile" (Path path) options = delete "tarFileName" options.
Proof. reflexivity. Qed.

Lemma constructorOptions_file name f options :
  constructorOptions name (File f) options = options.
Proof. unfold constructorOptions. cbn [isinstance_str]. rewrite andb_false_r. reflexivity. Qed.

Lemma constructorOptions_other name src options :
  name ≠ "tarfile" → constructorOptions name src options = options.
Proof.
  intros Hne. unfold constructorOptions.
  destruct (String.eqb name "tarfile") eqn:E; [|reflexivity].
  apply String.eqb_eq in E. contradiction.
Qed.

Lemma backend_builds_its_class env name backendOpen extensions src opts :
  dict_get name (_BACKENDS env) = Some (backendOpen, extensions) →
  yields (builtBy name src opts) (backendOpen src opts).
Proof.
  unfold _BACKENDS. cbn [dict_get].
  repeat (destruct (String.eqb _ name) eqn:Hname;
          [apply String.eqb_eq in Hname as <-; intros [= <- _]; clear;
           cbv delta [_openRarMountSource _openTarMountSource _openZipMountSource
                      _openPySquashfsImage _openLibarchiveMountSource
                      _openPy7zrMountSource _openFATImage _openEXT4Image
                      _openSqlar _openRatarmountIndex] beta;
           repeat first
             [ apply yields_ret; intros ? Hm;
               first [ discriminate Hm
                     | injection Hm as <-; eexists; split; [reflexivity|]; f_equal;
                       first [ rewrite constructorOptions_tarfile_path;
                               first [ reflexivity | symmetry; apply delete_id; assumption ]
                             | symmetry; apply constructorOptions_file
                             | symmetry; apply constructorOptions_other; discriminate ] ]
             | apply yields_try_finally
             | apply yields_try_except; [|intros ?]
             | eapply yields_bind;
               [apply yields_call_construct_eq | intros ? Ha; cbv beta in Ha; subst]
             | eapply yields_bind; [apply yields_any | intros ? _]
             | match goal with
               | |- yields _ (match ?o !! ?k with _ => _ end) => destruct (o !! k) eqn:?Hkey
               | |- yields _ (if ?b then _ else _) => destruct b
               | |- yields _ (match ?x with _ => _ end) => destruct x
               end ] | clear Hname]).
  discriminate.
Qed.

Section RunTraces.

Variable env : Env.
Variables (src : Source) (opts : gmap string value) (pd : Z).

Local Abbreviation Run := (Run env src opts pd).

Ltac unlet := repeat match goal with x := _ |- _ => subst x end.

Ltac probes :=
  unlet; cbn [prepend events result final_pos];
  rewrite ?probeSeq_app, ?probeSeq_probeIntro, ?probeSeq_skipLog,
    ?probeSeq_openedLog, ?probeSeq_probeErrorLog, ?probeSeq_seekToStart;
  try match goal with
    | H : dict_get _ (_BACKENDS env) = Some _ |- _ =>
        rewrite ?(probeSeq_backend _ _ _ _ _ _ _ H)
    end;
  cbn [app fmap list_fmap fst].

(** The trace of a run that returns a mount source ends with the probe that
    handed it back. *)
Lemma Run_accepted_trace names tried p o m :
  Run names tried p o →
  result o = Ok (Some m) →
  ∃ evs n q backendOpen extensions,
    events o = evs ++ probeIntro n src opts pd q ++ events (backendOpen src opts q)
                   ++ openedLog n pd
    ∧ dict_get n (_BACKENDS env) = Some (backendOpen, extensions)
    ∧ result (backendOpen src opts q) = Ok (Some m).
Proof.
  induction 1; cbn [prepend result events]; intros Hsome;
    try lazymatch goal with
      | IH : result _ = _ → _ |- _ =>
          destruct (IH Hsome) as (evs & n' & q & bo' & exts' & Hev & Hget' & Hres');
          rewrite Hev
      end.
  - discriminate.
  - exists evs, n', q, bo', exts'. split; [reflexivity|]. split; assumption.
  - exists (skipLog (normalizeBackend env name) pd ++ evs), n', q, bo', exts'.
    rewrite <- app_assoc. split; [reflexivity|]. split; assumption.
  - injection Hsome as ->. unlet.
    exists [], (normalizeBackend env name), p, backendOpen, extensions.
    split; [reflexivity|]. split; assumption.
  - unlet.
    exists ((probeIntro (normalizeBackend env name) src opts pd p
             ++ events (backendOpen src opts p)) ++ evs), n', q, bo', exts'.
    rewrite <- !app_assoc. split; [reflexivity|]. split; assumption.
  - unlet.
    exists ((probeIntro (normalizeBackend env name) src opts pd p
             ++ events (backendOpen src opts p)
             ++ probeErrorLog (normalizeBackend env name) e pd
             ++ events (seekToStart src pd (final_pos (backendOpen src opts p)))) ++ evs),
      n', q, bo', exts'.
    rewrite <- !app_assoc. split; [reflexivity|]. split; assumption.
Qed.

(** Where a probe that is not the first one of a run finds the stream: where
    the probe before it left it when that one returned [None], and where the
    handler left it when that one raised. *)
Lemma Run_next_pos names tried p o l1 n1 p1 n2 p2 l2 :
  Run names tried p o →
  probeSeq (events o) = l1 ++ (n1, p1) :: (n2, p2) :: l2 →
  ∃ backendOpen extensions,
    dict_get n1 (_BACKENDS env) = Some (backendOpen, extensions)
    ∧ ((result (backendOpen src opts p1) = Ok None
        ∧ p2 = final_pos (backendOpen src opts p1))
       ∨ (∃ e, result (backendOpen src opts p1) = Raise e
               ∧ p2 = final_pos (seekToStart src pd (final_pos (backendOpen src opts p1))))).
Proof.
  intros HR. revert l1.
  induction HR; intros l1; probes; intros Heq.
  - destruct l1; discriminate.
  - eauto.
  - eauto.
  - destruct l1 as [|? [|? ?]]; discriminate.
  - destruct l1 as [|x l1]; cbn [app] in Heq.
    + injection Heq as <- <- Heq.
      apply (Run_head_pos _ _ _ _ _ _ _ _ _ _ _ HR) in Heq. subst p2.
      exists backendOpen, extensions. split; [assumption|]. left. auto.
    + injection Heq as _ Heq. eauto.
  - destruct l1 as [|x l1]; cbn [app] in Heq.
    + injection Heq as <- <- Heq.
      apply (Run_head_pos _ _ _ _ _ _ _ _ _ _ _ HR) in Heq. subst p2.
      exists backendOpen, extensions. split; [assumption|]. right. eauto.
    + injection Heq as _ Heq. eauto.
Qed.

End RunTraces.

Lemma probedNames_probeIntro name src opts pd p :
  probedNames (probeIntro name src opts pd p) = [name].
Proof. unfold probedNames. rewrite probeSeq_probeIntro. reflexivity. Qed.


(** An archive comes with the call of its constructor. *)
Lemma backend_constructs env name backendOpen extensions src opts p cls opts' :
  dict_get name (_BACKENDS env) = Some (backendOpen, extensions) →
  result (backendOpen src opts p) = Ok (Some (Archive cls src opts')) →
  Construct cls src opts' ∈ events (backendOpen src opts p).
Proof.
  assert (∀ c o q a, result (call_construct env c src o q) = Ok a →
                     a = Archive c src o
                     ∧ events (call_construct env c src o q) = [Construct c src o]
                     ∧ True) as Hctor.
  { intros c o q a. unfold call_construct.
    destruct (construct env c src o q) as [[e|] q']; cbn [result events]; [discriminate|].
    intros [= <-]. auto. }
  assert (∀ c o q (k : MountSource → M (option MountSource)),
            (∀ a, k a = ret (Some a)) →
            result (bind (call_construct env c src o) k q) = Ok (Some (Archive cls src opts')) →
            Construct cls src opts' ∈ events (bind (call_construct env c src o) k q)) as Hstep.
  { intros c o q k Hk. rewrite result_bind, events_bind.
    destruct (result (call_construct env c src o q)) as [a|e] eqn:Ha; [|discriminate].
    destruct (Hctor c o q a Ha) as (-> & -> & _). rewrite Hk. cbn [ret result].
    intros [= -> ->]. apply elem_of_app. left. left. }
  unfold _BACKENDS. cbn [dict_get].
  repeat (destruct (String.eqb _ name);
          [intros [= <- _];
           cbv delta [_openRarMountSource _openTarMountSource _openZipMountSource
                      _openPySquashfsImage _openLibarchiveMountSource
                      _openPy7zrMountSource _openFATImage _openEXT4Image
                      _openSqlar _openRatarmountIndex] beta | ]).
  11: discriminate.
  - (* rarfile *)
    destruct (has_rarfile env); [|discriminate].
    rewrite result_bind, events_bind.
    destruct (result (call_check env is_rarfile_sfx src p)) as [[]|]; try discriminate.
    intros H. apply elem_of_app. right. revert H. apply Hstep. reflexivity.
  - (* tarfile *)
    destruct src as [path|f]; [destruct (opts !! "tarFileName")|];
      apply Hstep; reflexivity.
  - destruct (has_zipfile env); [|discriminate].
    rewrite result_bind, events_bind.
    destruct (result (call_check env is_zipfile src p)) as [[]|]; try discriminate.
    intros H. apply elem_of_app. right. revert H. apply Hstep. reflexivity.
  - destruct (has_PySquashfsImage env); [|discriminate].
    rewrite result_bind, events_bind.
    destruct (result ((if isinstance_str src then ret true else call_check env isSquashFS src) p))
      as [[]|]; try discriminate.
    intros H. apply elem_of_app. right. revert H. apply Hstep. reflexivity.
  - (* libarchive *)
    destruct (has_libarchive env); cbn [negb]; [|discriminate].
    unfold try_finally. cbn [result events].
    rewrite seekToStart_result.
    intros H. apply elem_of_app. left. revert H.
    rewrite try_except_unfold.
    destruct (result (bind _ _ p)) as [r|e] eqn:Hr.
    + rewrite Hr. intros [= ->]. revert Hr.
      rewrite result_bind, events_bind.
      destruct (2 <=? getPrintDebug opts); cbn [when print emit ret result final_pos events app];
        intros H; [right|]; revert H; apply Hstep; reflexivity.
    + cbn [prepend result]. rewrite !result_bind.
      destruct (2 <=? getPrintDebug opts), (3 <=? getPrintDebug opts);
        cbn [when print print_exc emit ret result final_pos]; discriminate.
  - destruct (has_py7zr env); [|discriminate].
    rewrite result_bind, events_bind.
    destruct (result (call_check env is_7zfile src p)) as [[]|]; try discriminate.
    intros H. apply elem_of_app. right. revert H. apply Hstep. reflexivity.
  - apply Hstep; reflexivity.
  - apply Hstep; reflexivity.
  - apply Hstep; reflexivity.
  - apply Hstep; reflexivity.
Qed.

(** X7.  When the loop over the candidates returns a mount source, the
    backend tried last has made it: it is an object of the class of that
    backend, constructed from the source and the options of the call,
    without [tarFileName] when [tarfile] opens a path; the call of the
    constructor is on record, and from debug level 2 on the last line
    printed names that backend. *)
Theorem mount_source_is_built_by_the_last_probe env names tried src opts pd p m :
  let o := trialLoop env names tried src opts pd p in
  result o = Ok (Some m) →
  ∃ name cls,
    last (probedNames (events o)) = Some name
    ∧ backendClass name = Some cls
    ∧ m = Archive cls src (constructorOptions name src opts)
    ∧ Construct cls src (constructorOptions name src opts) ∈ events o
    ∧ (2 <= pd →
       last (events o)
       = Some (Print ("[Info] Opened archive with " +:+ name +:+ " backend."))).
Proof.
  cbv zeta. intros Hres.
  pose proof (trialLoop_Run env src opts pd names tried p) as HR.
  destruct (Run_accepted_trace _ _ _ _ _ _ _ _ _ HR Hres)
    as (evs & n & q & bo & exts & Hev & Hget & Hbo).
  destruct (backend_builds_its_class env n bo exts src opts Hget q (Some m) Hbo m eq_refl)
    as (cls & Hcls & ->).
  exists n, cls. rewrite Hev. split; [|split; [exact Hcls|split; [reflexivity|split]]].
  - rewrite !probedNames_app, probedNames_probeIntro.
    unfold probedNames at 2 3.
    rewrite (probeSeq_backend _ _ _ _ _ _ _ Hget), probeSeq_openedLog. cbn [fmap list_fmap].
    rewrite app_nil_r. apply last_snoc.
  - rewrite !elem_of_app. right. right. left.
    exact (backend_constructs env n bo exts src opts q cls _ Hget Hbo).
  - intros Hpd. unfold openedLog. apply Z.leb_le in Hpd. rewrite Hpd.
    rewrite !app_assoc. apply last_snoc.
Qed.

(** X7, witness: [archive.tar] with the option [tarFileName], where TAR
    archives are recognized. *)
Lemma mount_source_is_built_by_the_last_probe_witness :
  result (trialLoop Sample.tars (backendNames Sample.tars) ∅ (Path "archive.tar")
            {[ "tarFileName" := VStr "archive" ]} 2 0%nat)
  = Ok (Some (Archive SQLiteIndexedTar (Path "archive.tar") ∅))
  ∧ ∃ name cls,
      last (probedNames
              (events (trialLoop Sample.tars (backendNames Sample.tars) ∅ (Path "archive.tar")
                         {[ "tarFileName" := VStr "archive" ]} 2 0%nat)))
      = Some name
      ∧ backendClass name = Some cls
      ∧ Archive SQLiteIndexedTar (Path "archive.tar") ∅
        = Archive cls (Path "archive.tar")
            (constructorOptions name (Path "archive.tar") {[ "tarFileName" := VStr "archive" ]})
      ∧ Construct cls (Path "archive.tar")
          (constructorOptions name (Path "archive.tar") {[ "tarFileName" := VStr "archive" ]})
        ∈ events (trialLoop Sample.tars (backendNames Sample.tars) ∅ (Path "archive.tar")
                    {[ "tarFileName" := VStr "archive" ]} 2 0%nat)
      ∧ (2 <= 2 →
         last (events (trialLoop Sample.tars (backendNames Sample.tars) ∅ (Path "archive.tar")
                         {[ "tarFileName" := VStr "archive" ]} 2 0%nat))
         = Some (Print ("[Info] Opened archive with " +:+ name +:+ " backend."))).
Proof.
  assert (result (trialLoop Sample.tars (backendNames Sample.tars) ∅ (Path "archive.tar")
                    {[ "tarFileName" := VStr "archive" ]} 2 0%nat)
          = Ok (Some (Archive SQLiteIndexedTar (Path "archive.tar") ∅))) as Hres
    by (vm_compute; reflexivity).
  split; [exact Hres|].
  exact (mount_source_is_built_by_the_last_probe Sample.tars (backendNames Sample.tars) ∅
           (Path "archive.tar") {[ "tarFileName" := VStr "archive" ]} 2 0%nat _ Hres).
Defined.

(** X8.  [_openLibarchiveMountSource] never raises.  It returns the mount
    source when the constructor of [LibarchiveMountSource] returns, and
    [None] when the constructor raises or libarchive is missing; without
    libarchive it does nothing at all.  With libarchive, a file object with
    a [seek] attribute is sent [seek(0)], whether the constructor raised or
    not. *)
Theorem libarchive_backend_never_raises env src opts p :
  let o := _openLibarchiveMountSource env src opts p in
  result o
  = Ok (if has_libarchive env
        then match (construct env LibarchiveMountSource src opts p).1 with
             | None => Some (Archive LibarchiveMountSource src opts)
             | Some _ => None
             end
        else None)
  ∧ (has_libarchive env = false → o = mkOutcome (Ok None) p [])
  ∧ (has_libarchive env = true →
     ∀ f, src = File f → s_hasSeek f = true → Seek f 0 ∈ events o).
Proof.
  cbv zeta. unfold _openLibarchiveMountSource.
  destruct (has_libarchive env); cbn [negb].
  2:{ split; [reflexivity|]. split; [reflexivity | discriminate]. }
  unfold try_finally. cbn [result events]. rewrite seekToStart_result.
  split; [|split; [discriminate|]].
  - rewrite try_except_unfold, bind_when_print.
    unfold prepend. cbn [result events final_pos].
    rewrite result_bind. unfold call_construct.
    destruct (construct env LibarchiveMountSource src opts p) as [[e|] q];
      cbn [result fst]; [|reflexivity].
    rewrite !result_bind.
    destruct (2 <=? getPrintDebug opts), (3 <=? getPrintDebug opts); reflexivity.
  - intros _ f -> Hseek. apply elem_of_app. right.
    rewrite seekToStart_unfold, Hseek. destruct (s_seekError f); left.
Qed.

(** ** Where a probe finds the stream *)

Lemma constructing_never_declines env cls src opts p :
  result (bind (call_construct env cls src opts) (λ m, ret (Some m)) p) ≠ Ok None.
Proof.
  rewrite result_bind. unfold call_construct.
  destruct (construct env cls src opts p) as [[e|] q]; discriminate.
Qed.

Lemma tarfile_never_declines env src opts p :
  result (_openTarMountSource env src opts p) ≠ Ok None.
Proof.
  unfold _openTarMountSource.
  destruct src as [path|f]; [destruct (opts !! "tarFileName")|];
    apply constructing_never_declines.
Qed.

(** X9.  On a file object whose [seek] works, a probe that follows
    another one finds the stream at its start, with one exception: the probe
    before was that of a backend that tests the format first ([rarfile],
    [zipfile], [pysquashfsimage], [py7zr]), or of [libarchive] without its
    module, and that backend handed back [None].  Then the stream is where
    that backend left it. *)
Theorem stream_is_rewound_unless_a_format_test_said_no env names tried f opts pd p
    l1 n1 p1 n2 p2 l2 :
  s_hasSeek f = true →
  s_seekError f = None →
  probeSeq (events (trialLoop env names tried (File f) opts pd p))
  = l1 ++ (n1, p1) :: (n2, p2) :: l2 →
  p2 = 0%nat
  ∨ ((n1 ∈ testingBackends ∨ (n1 = "libarchive" ∧ has_libarchive env = false))
     ∧ ∃ backendOpen extensions,
         dict_get n1 (_BACKENDS env) = Some (backendOpen, extensions)
         ∧ result (backendOpen (File f) opts p1) = Ok None
         ∧ p2 = final_pos (backendOpen (File f) opts p1)).
Proof.
  intros Hseek Herr Heq.
  pose proof (trialLoop_Run env (File f) opts pd names tried p) as HR.
  destruct (Run_next_pos env (File f) opts pd names tried p _ l1 n1 p1 n2 p2 l2 HR Heq)
    as (bo & exts & Hget & [[Hnone Hp2]|(e & Hraise & Hp2)]).
  2:{ left. rewrite Hp2, seekToStart_unfold, Hseek, Herr. reflexivity. }
  assert (n1 ∈ testingBackends ∨ n1 = "libarchive"
          ∨ result (bo (File f) opts p1) ≠ Ok None) as Hcases.
  { revert Hget. clear. unfold _BACKENDS, testingBackends. cbn [dict_get].
    repeat (destruct (String.eqb _ n1) eqn:Hname;
            [apply String.eqb_eq in Hname as <-; intros [= <- _] | clear Hname]).
    11: discriminate.
    all: first [ left; repeat first [apply list_elem_of_here | apply list_elem_of_further]; fail
               | right; left; reflexivity
               | right; right;
                 first [apply tarfile_never_declines | apply constructing_never_declines] ]. }
  destruct Hcases as [Htest|[->|Hnever]]; [| |contradiction].
  - right. split; [left; exact Htest|]. exists bo, exts. auto.
  - injection Hget as <- <-.
    destruct (has_libarchive env) eqn:Hlib.
    + left. rewrite Hp2. apply libarchive_rewinds; assumption.
    + right. split; [right; auto|].
      exists (_openLibarchiveMountSource env), (libarchiveExtensions env). auto.
Qed.

(** X9, witness: the test of [rarfile] reads seven bytes and says no, and
    [tarfile] finds the stream at offset 7. *)
Lemma stream_is_rewound_unless_a_format_test_said_no_witness :
  s_hasSeek (Sample.stream "<stream>") = true
  ∧ s_seekError (Sample.stream "<stream>") = None
  ∧ probeSeq (events (trialLoop Sample.reading (backendNames Sample.reading) ∅
                        (File (Sample.stream "<stream>")) ∅ 0 0%nat))
    = [] ++ ("rarfile", 0%nat) :: ("tarfile", 7%nat)
      :: [("zipfile", 0%nat); ("pysquashfsimage", 7%nat); ("libarchive", 14%nat);
          ("py7zr", 0%nat); ("pyfatfs", 7%nat); ("ext4", 0%nat); ("sqlar", 0%nat);
          ("SQLiteIndex", 0%nat)]
  ∧ (7%nat = 0%nat
     ∨ (("rarfile" ∈ testingBackends ∨ ("rarfile" = "libarchive" ∧ has_libarchive Sample.reading = false))
        ∧ ∃ backendOpen extensions,
            dict_get "rarfile" (_BACKENDS Sample.reading) = Some (backendOpen, extensions)
            ∧ result (backendOpen (File (Sample.stream "<stream>")) ∅ 0%nat) = Ok None
            ∧ 7%nat = final_pos (backendOpen (File (Sample.stream "<stream>")) ∅ 0%nat))).
Proof.
  assert (probeSeq (events (trialLoop Sample.reading (backendNames Sample.reading) ∅
                        (File (Sample.stream "<stream>")) ∅ 0 0%nat))
    = [] ++ ("rarfile", 0%nat) :: ("tarfile", 7%nat)
      :: [("zipfile", 0%nat); ("pysquashfsimage", 7%nat); ("libarchive", 14%nat);
          ("py7zr", 0%nat); ("pyfatfs", 7%nat); ("ext4", 0%nat); ("sqlar", 0%nat);
          ("SQLiteIndex", 0%nat)]) as Hprobes by (vm_compute; reflexivity).
  split; [reflexivity|]. split; [reflexivity|]. split; [exact Hprobes|].
  exact (stream_is_rewound_unless_a_format_test_said_no Sample.reading
           (backendNames Sample.reading) ∅ (Sample.stream "<stream>") ∅ 0 0%nat
           [] "rarfile" 0%nat "tarfile" 7%nat _ eq_refl eq_refl Hprobes).
Defined.

(** ** Printing *)

Section MoreEmits.

Context (P : event → Prop).

Lemma emits_try_except {A} (m : M A) (h : exn → M A) :
  emits P m → (∀ e, emits P (h e)) → emits P (try_except m h).
Proof.
  intros Hm Hh p. unfold try_except.
  destruct (result (m p)) as [a|e]; [apply Hm|].
  cbn [events]. apply Forall_app. split; [apply Hm | apply Hh].
Qed.

Lemma emits_try_finally {A} (m : M A) (c : M unit) :
  emits P m → emits P c → emits P (try_finally m c).
Proof.
  intros Hm Hc p. unfold try_finally. cbn [events].
  apply Forall_app. split; [apply Hm | apply Hc].
Qed.

Lemma emits_get_pos : emits P get_pos.
Proof. intros p. constructor. Qed.

Lemma emits_call_check env what src :
  P (Check what src) → emits P (call_check env what src).
Proof.
  intros He p. unfold call_check. destruct (format_check env what src p).
  repeat constructor. exact He.
Qed.

Lemma emits_call_construct env cls src opts :
  P (Construct cls src opts) → emits P (call_construct env cls src opts).
Proof.
  intros He p. unfold call_construct. destruct (construct env cls src opts p).
  repeat constructor. exact He.
Qed.

Lemma emits_when_false (b : bool) (m : M unit) : b = false → emits P (when b m).
Proof. intros ->. apply emits_ret. Qed.

End MoreEmits.

(** One step of a proof that a computation prints nothing: the lines behind
    a test of the level are out of reach when the level is below 1. *)
Ltac silent_steps :=
  repeat first
    [ apply emits_bind; [|intros ?]
    | apply emits_ret | apply emits_raise | apply emits_set_pos | apply emits_get_pos
    | apply emits_when_false; apply Z.leb_gt; lia
    | apply emits_try_finally
    | apply emits_try_except; [|intros ?]
    | apply emits_emit; reflexivity
    | apply emits_seek; reflexivity
    | apply emits_read; reflexivity
    | apply emits_call_fs; reflexivity
    | apply emits_call_transport; reflexivity
    | apply emits_call_resolver; reflexivity
    | apply emits_call_check; reflexivity
    | apply emits_call_construct; reflexivity
    | match goal with
      | |- emits _ (let '(_, _) := ?x in _) => destruct x
      | |- emits _ (if ?b then _ else _) => destruct b
      | |- emits _ (match ?x with _ => _ end) => destruct x
      end ].

Lemma seekToStart_silent src pd : pd <= 0 → silent (seekToStart src pd).
Proof. intros Hpd. unfold silent, seekToStart. silent_steps. Qed.

Lemma backend_silent env name backendOpen extensions src opts :
  dict_get name (_BACKENDS env) = Some (backendOpen, extensions) →
  getPrintDebug opts <= 0 →
  silent (backendOpen src opts).
Proof.
  unfold _BACKENDS. cbn [dict_get]. intros Hget Hpd. revert Hget.
  repeat (destruct (String.eqb _ name);
          [intros [= <- _];
           cbv delta [_openRarMountSource _openTarMountSource _openZipMountSource
                      _openPySquashfsImage _openLibarchiveMountSource
                      _openPy7zrMountSource _openFATImage _openEXT4Image
                      _openSqlar _openRatarmountIndex] beta;
           unfold silent; cbv zeta;
           repeat first [ apply seekToStart_silent; assumption | progress silent_steps ] |]).
  discriminate.
Qed.

Lemma trialLoop_silent env names tried src opts pd :
  pd <= 0 → getPrintDebug opts <= 0 →
  silent (trialLoop env names tried src opts pd).
Proof.
  intros Hpd Hopts. revert tried.
  induction names as [|name names IH]; intros tried; cbn [trialLoop].
  { apply emits_ret. }
  case_bool_decide; [apply IH|].
  destruct (dict_get (normalizeBackend env name) (_BACKENDS env))
    as [[backendOpen extensions]|] eqn:Hget.
  - apply emits_bind.
    + unfold tryBackend. apply emits_try_except.
      * apply emits_bind; [apply emits_when_false, Z.leb_gt; lia|]. intros _.
        apply emits_bind; [apply emits_get_pos|]. intros offset.
        apply emits_bind; [apply emits_emit; reflexivity|]. intros _.
        apply emits_bind; [eapply backend_silent; eassumption|]. intros [m|].
        -- apply emits_bind; [apply emits_when_false, Z.leb_gt; lia|]. intros _.
           apply emits_ret.
        -- apply emits_ret.
      * intros e.
        apply emits_bind; [apply emits_when_false, Z.leb_gt; lia|]. intros _.
        apply emits_bind; [apply emits_when_false, Z.leb_gt; lia|]. intros _.
        apply emits_bind; [apply seekToStart_silent; assumption|]. intros _.
        apply emits_ret.
    + intros [m|]; [apply emits_ret | apply IH].
  - apply emits_bind; [apply emits_when_false, Z.leb_gt; lia|]. intros _. apply IH.
Qed.

Lemma trialStage_silent env src opts joinedName auto pd :
  pd <= 0 → getPrintDebug opts <= 0 →
  silent (trialStage env src opts joinedName auto pd).
Proof.
  intros Hpd Hopts. unfold trialStage. apply emits_bind.
  - destruct (opts !! "prioritizedBackends") as [[]|];
      first [apply emits_ret | apply emits_raise].
  - intros prio. apply emits_bind; [apply trialLoop_silent; assumption|].
    intros [m|]; [apply emits_ret|].
    destruct (_ && _); [apply emits_ret | apply emits_raise].
Qed.

Lemma openResolved_silent env src opts pd :
  pd <= 0 → getPrintDebug opts <= 0 →
  silent (openResolved env src opts pd).
Proof.
  intros Hpd Hopts. unfold openResolved.
  destruct src as [path|f]; [|apply trialStage_silent; assumption].
  destruct (os_stat env path); [apply emits_raise | apply emits_ret |].
  destruct (checkForSplitFile env path) as [[[|first rest] format]|].
  - apply emits_raise.
  - apply emits_bind; [apply emits_set_pos|]. intros _.
    apply trialStage_silent; [assumption|].
    rewrite getPrintDebug_withIndexFilePath. assumption.
  - apply trialStage_silent; assumption.
Qed.

Lemma tryOpenURL_silent env url pd : pd <= 0 → silent (tryOpenURL env url pd).
Proof.
  intros Hpd. unfold silent, tryOpenURL, openFileSystemPath. silent_steps.
Qed.

Lemma getPrintDebug_tarFileName opts (v : value) :
  getPrintDebug (<["tarFileName" := v]> opts) = getPrintDebug opts.
Proof. unfold getPrintDebug. rewrite lookup_insert_ne by discriminate. reflexivity. Qed.

Lemma noPrints_Forall (evs : list event) :
  Forall (λ e, isPrint e = false) evs → noPrints evs = true.
Proof.
  unfold noPrints. intros H. apply forallb_forall. intros e Hin.
  rewrite Forall_forall in H. rewrite (H e); [reflexivity | apply list_elem_of_In, Hin].
Qed.

(** X10.  With a debug level below 1, which is the default and what any
    [printDebug] that is no integer amounts to, [openMountSource] prints
    nothing, whatever the source is and however the call ends. *)
Theorem nothing_is_printed_below_level_1 env src opts p :
  getPrintDebug opts <= 0 →
  noPrints (events (openMountSource env src opts p)) = true.
Proof.
  intros Hpd. apply noPrints_Forall. revert p.
  change (silent (openMountSource env src opts)).
  unfold openMountSource.
  destruct src as [url|f]; [|apply openResolved_silent; assumption].
  destruct (PyStr.contains url "://"); [|apply openResolved_silent; assumption].
  apply emits_bind; [apply tryOpenURL_silent; assumption|].
  intros [m|f|path].
  - apply emits_ret.
  - apply openResolved_silent; [assumption|].
    destruct (opts !! "tarFileName"); rewrite ?getPrintDebug_tarFileName; assumption.
  - apply openResolved_silent; assumption.
Qed.

(** X10, witness: [printDebug] is the string [3], the priority list names an
    unknown backend, and no backend accepts the file. *)
Lemma nothing_is_printed_below_level_1_witness :
  getPrintDebug {[ "printDebug" := VStr "3"; "prioritizedBackends" := VList ["Z"] ]} <= 0
  ∧ noPrints
      (events (openMountSource Sample.plain (Path "blob.bin")
                 {[ "printDebug" := VStr "3"; "prioritizedBackends" := VList ["Z"] ]}
                 0%nat))
    = true.
Proof.
  assert (getPrintDebug {[ "printDebug" := VStr "3"; "prioritizedBackends" := VList ["Z"] ]}
          <= 0) as Hpd by (vm_compute; discriminate).
  split; [exact Hpd|].
  exact (nothing_is_printed_below_level_1 Sample.plain (Path "blob.bin") _ 0%nat Hpd).
Defined.

(** ** File objects, split files and the priority list *)

(** X11.  A file object is probed as it was given and with the options of
    the call, and no backend is put first for an extension: the probes made
    are a beginning of the candidates of the priority list followed by the
    registered backends.  The call returns an archive, or it raises the
    error of line 480 with [str] of the file object after all the
    candidates have been probed. *)
Theorem file_object_is_probed_as_given env f opts prio p :
  priorityList opts = Some prio →
  let o := openMountSource env (File f) opts p in
  probedNames (events o) `prefix_of` candidateOrder env (prio ++ backendNames env)
  ∧ Forall (λ a, a = (File f, opts)) (omap probeArgs (events o))
  ∧ ((∃ m, result o = Ok m ∧ isArchive m)
     ∨ (result o
        = Raise (CompressionError
                   ("Archive to open (" +:+ s_repr f +:+ ") has unrecognized format!"))
        ∧ probedNames (events o) = candidateOrder env (prio ++ backendNames env))).
Proof.
  intros Hprio. cbv zeta.
  change (openMountSource env (File f) opts p)
    with (trialStage env (File f) opts "" [] (getPrintDebug opts) p).
  destruct (trialStage_summary env (File f) opts "" [] (getPrintDebug opts) p prio Hprio)
    as (Hev & _ & Hres).
  cbv zeta in Hev, Hres. cbn [app] in Hev, Hres.
  pose proof (trialLoop_Run env (File f) opts (getPrintDebug opts)
                (prio ++ backendNames env) ∅ p) as HR.
  split; [|split].
  - rewrite Hev, <- loopOrder_candidateOrder. eapply Run_probedNames_prefix, HR.
  - apply trialStage_probe_args.
  - destruct Hres as [(m & _ & Hm & Harch)|[Hnone Hres]]; [left; eauto|].
    right. split; [exact Hres|].
    rewrite Hev, <- loopOrder_candidateOrder. eapply Run_exhausted; eauto.
Qed.

(** X11, witness: a stream that no backend accepts. *)
Lemma file_object_is_probed_as_given_witness :
  priorityList Sample.priorityZ = Some ["Z"]
  ∧ result (openMountSource Sample.plain (File (Sample.stream "<stream>")) Sample.priorityZ 3%nat)
    = Raise (CompressionError "Archive to open (<stream>) has unrecognized format!").
Proof.
  split; [reflexivity|].
  destruct (file_object_is_probed_as_given Sample.plain (Sample.stream "<stream>")
              Sample.priorityZ ["Z"] 3%nat eq_refl) as (_ & _ & [(m & Hm & Harch)|[Hres _]]).
  - exfalso.
    assert (result (openMountSource Sample.plain (File (Sample.stream "<stream>"))
                      Sample.priorityZ 3%nat)
            = Raise (CompressionError "Archive to open (<stream>) has unrecognized format!"))
      as Hraise by (vm_compute; reflexivity).
    rewrite Hraise in Hm. discriminate.
  - exact Hres.
Defined.

(** ** The index file of a split file *)

Lemma append_not_empty (s t : string) : t ≠ "" → s +:+ t ≠ "".
Proof. intros Ht. destruct s; [exact Ht | discriminate]. Qed.

Lemma truthy_index_path (first : string) : truthy (VStr (first +:+ ".index.sqlite")) = true.
Proof.
  cbn [truthy]. destruct (String.eqb _ "") eqn:E; [|reflexivity].
  apply String.eqb_eq in E. exfalso. revert E. apply append_not_empty. discriminate.
Qed.

(** X12.  For the path of a split file every probe gets the joined file
    and options in which [indexFilePath] is set and not empty: the options
    of the call when their [indexFilePath] is truthy, and otherwise those
    with the first file of the split followed by [.index.sqlite]; every
    other option is passed on as it was given. *)
Theorem split_file_gets_an_index_path env path opts p first rest format :
  PyStr.contains path "://" = false →
  os_stat env path = NotDirectory →
  checkForSplitFile env path = Some (first :: rest, format) →
  let options := withIndexFilePath opts first in
  Forall (λ a, a = (File (JoinedFileFromFactory env (first :: rest)), options))
    (omap probeArgs (events (openMountSource env (Path path) opts p)))
  ∧ (∃ v, options !! "indexFilePath" = Some v ∧ truthy v = true)
  ∧ (∀ v, opts !! "indexFilePath" = Some v → truthy v = true → options = opts)
  ∧ ((∀ v, opts !! "indexFilePath" = Some v → truthy v = false) →
     options !! "indexFilePath" = Some (VStr (first +:+ ".index.sqlite")))
  ∧ (∀ key, key ≠ "indexFilePath" → options !! key = opts !! key).
Proof.
  intros Hlocal Hstat Hsplit. cbv zeta. split; [|split; [|split; [|split]]].
  - rewrite (openMountSource_local _ _ _ Hlocal). unfold openResolved.
    rewrite Hstat, Hsplit. rewrite bind_set_pos. unfold prepend. cbn [events app].
    apply trialStage_probe_args.
  - unfold withIndexFilePath.
    destruct (opts !! "indexFilePath") as [v|] eqn:Hv; [destruct (truthy v) eqn:Ht|].
    + eauto.
    + rewrite lookup_insert_eq. eauto using truthy_index_path.
    + rewrite lookup_insert_eq. eauto using truthy_index_path.
  - intros v Hv Ht. unfold withIndexFilePath. rewrite Hv, Ht. reflexivity.
  - intros Hfalsy. unfold withIndexFilePath.
    destruct (opts !! "indexFilePath") as [v|] eqn:Hv.
    + rewrite (Hfalsy v eq_refl). apply lookup_insert_eq.
    + apply lookup_insert_eq.
  - intros key Hkey. unfold withIndexFilePath.
    destruct (opts !! "indexFilePath") as [v|]; [destruct (truthy v)|];
      rewrite ?lookup_insert_ne by congruence; reflexivity.
Qed.

(** X12, witness: the shards of [archive.bin] with an empty [indexFilePath]. *)
Lemma split_file_gets_an_index_path_witness :
  PyStr.contains "/data/archive.bin.001" "://" = false
  ∧ os_stat Sample.shards "/data/archive.bin.001" = NotDirectory
  ∧ checkForSplitFile Sample.shards "/data/archive.bin.001"
    = Some (["/data/archive.bin.001"; "/data/archive.bin.002"], "0")
  ∧ withIndexFilePath {[ "indexFilePath" := VStr "" ]} "/data/archive.bin.001" !! "indexFilePath"
    = Some (VStr "/data/archive.bin.001.index.sqlite").
Proof.
  split; [reflexivity|]. split; [reflexivity|]. split; [reflexivity|].
  refine (proj1 (proj2 (proj2 (proj2
            (split_file_gets_an_index_path Sample.shards "/data/archive.bin.001"
               {[ "indexFilePath" := VStr "" ]} 0%nat
               "/data/archive.bin.001" ["/data/archive.bin.002"] "0"
               eq_refl eq_refl eq_refl)))) _).
  intros v Hv. rewrite lookup_singleton_eq in Hv. injection Hv as <-. reflexivity.
Defined.

(** X13.  When the option [prioritizedBackends] is given and is no list,
    [openMountSource] raises a [TypeError] at the concatenation of line 442,
    before anything is printed and before any backend is probed: for a file
    object, and for the path of a file that is not split. *)
Theorem prioritizedBackends_must_be_a_list env opts p :
  priorityList opts = None →
  (∀ f, openMountSource env (File f) opts p
        = mkOutcome (Raise (TypeError "prioritizedBackends + autoPrioritizedBackends")) p [])
  ∧ (∀ path,
       PyStr.contains path "://" = false →
       os_stat env path = NotDirectory →
       checkForSplitFile env path = None →
       openMountSource env (Path path) opts p
       = mkOutcome (Raise (TypeError "prioritizedBackends + autoPrioritizedBackends")) p []).
Proof.
  intros Hprio. split.
  - intros f.
    change (openMountSource env (File f) opts p)
      with (trialStage env (File f) opts "" [] (getPrintDebug opts) p).
    apply trialStage_ill_typed, Hprio.
  - intros path Hlocal Hstat Hsplit.
    rewrite (openMountSource_local _ _ _ Hlocal). unfold openResolved.
    rewrite Hstat, Hsplit. apply trialStage_ill_typed, Hprio.
Qed.

(** X13, witness: [prioritizedBackends] is the string [tarfile]. *)
Lemma prioritizedBackends_must_be_a_list_witness :
  priorityList {[ "prioritizedBackends" := VStr "tarfile" ]} = None
  ∧ openMountSource Sample.tars (File (Sample.stream "<stream>"))
      {[ "prioritizedBackends" := VStr "tarfile" ]} 0%nat
    = mkOutcome (Raise (TypeError "prioritizedBackends + autoPrioritizedBackends")) 0%nat [].
Proof.
  split; [reflexivity|].
  exact (proj1 (prioritizedBackends_must_be_a_list Sample.tars
                  {[ "prioritizedBackends" := VStr "tarfile" ]} 0%nat eq_refl)
           (Sample.stream "<stream>")).
Defined.

(** ** Strings that are no URLs *)

Lemma split1_without_separator (sep s : string) :
  PyStr.contains s sep = false → PyStr.split1 sep s = (s, None).
Proof.
  induction s as [|c s IH]; cbn [PyStr.contains PyStr.split1]; unfold PyStr.startswith.
  - destruct (PyStr.strip_prefix sep ""); [discriminate | reflexivity].
  - destruct (PyStr.strip_prefix sep (String c s)); [discriminate|].
    intros H. rewrite (IH H). reflexivity.
Qed.

(** X14.  [tryOpenURL] raises its error for a string without [://] and
    for a string that starts with [://], whose protocol is empty, without
    printing or calling anything; and so does [openMountSource] for a string
    that starts with [://]. *)
Theorem url_needs_a_protocol env opts p :
  (∀ url pd, PyStr.contains url "://" = false →
     tryOpenURL env url pd p = mkOutcome (Raise (notAURL url)) p [])
  ∧ (∀ rest pd,
       tryOpenURL env ("://" +:+ rest) pd p = mkOutcome (Raise (notAURL ("://" +:+ rest))) p [])
  ∧ (∀ rest,
       openMountSource env (Path ("://" +:+ rest)) opts p
       = mkOutcome (Raise (notAURL ("://" +:+ rest))) p []).
Proof.
  assert (∀ rest pd, tryOpenURL env ("://" +:+ rest) pd p
                     = mkOutcome (Raise (notAURL ("://" +:+ rest))) p []) as Hempty.
  { intros rest pd. reflexivity. }
  split; [|split; [exact Hempty|]].
  - intros url pd Hno. unfold tryOpenURL.
    rewrite (split1_without_separator _ _ Hno). reflexivity.
  - intros rest. unfold openMountSource.
    change (PyStr.contains ("://" +:+ rest) "://") with true. cbv iota.
    erewrite bind_raise by (rewrite Hempty; reflexivity).
    rewrite Hempty. reflexivity.
Qed.

(** X15.  For a string with [://], a mount source or an exception of
    [tryOpenURL] is final: [openMountSource] returns that mount source, or
    raises that exception, with what [tryOpenURL] did and nothing more, and
    no backend is probed. *)
Theorem url_resolution_decides env url opts p :
  PyStr.contains url "://" = true →
  let t := tryOpenURL env url (getPrintDebug opts) p in
  let o := openMountSource env (Path url) opts p in
  (∀ m, result t = Ok (RMount m) →
     o = mkOutcome (Ok m) (final_pos t) (events t) ∧ probedNames (events o) = [])
  ∧ (∀ e, result t = Raise e →
       o = mkOutcome (Raise e) (final_pos t) (events t) ∧ probedNames (events o) = []).
Proof.
  intros Hurl. cbv zeta.
  assert (probedNames (events (tryOpenURL env url (getPrintDebug opts) p)) = []) as Hquiet.
  { unfold probedNames. rewrite (tryOpenURL_quiet env url _ p). reflexivity. }
  split.
  - intros m Hm.
    assert (openMountSource env (Path url) opts p
            = mkOutcome (Ok m) (final_pos (tryOpenURL env url (getPrintDebug opts) p))
                (events (tryOpenURL env url (getPrintDebug opts) p))) as Heq.
    { unfold openMountSource. rewrite Hurl.
      erewrite bind_prepend by exact Hm. cbv beta iota.
      unfold prepend, ret. cbn [result final_pos events]. rewrite app_nil_r. reflexivity. }
    split; [exact Heq|]. rewrite Heq. exact Hquiet.
  - intros e He.
    assert (openMountSource env (Path url) opts p
            = mkOutcome (Raise e) (final_pos (tryOpenURL env url (getPrintDebug opts) p))
                (events (tryOpenURL env url (getPrintDebug opts) p))) as Heq.
    { unfold openMountSource. rewrite Hurl. apply bind_raise, He. }
    split; [exact Heq|]. rewrite Heq. exact Hquiet.
Qed.

(** X15, witness: the root of a Dropbox, which is a directory. *)
Lemma url_resolution_decides_witness :
  PyStr.contains "dropbox://" "://" = true
  ∧ openMountSource Sample.withToken (Path "dropbox://") ∅ 0%nat
    = mkOutcome (Ok (FSSpecMountSource (FixedDropboxDriveFileSystem "secret") ""))
        0%nat [FsCall fs_isdir (FixedDropboxDriveFileSystem "secret") ""].
Proof.
  split; [reflexivity|].
  exact (proj1 (proj1 (url_resolution_decides Sample.withToken "dropbox://" ∅ 0%nat eq_refl)
                  (FSSpecMountSource (FixedDropboxDriveFileSystem "secret") "") eq_refl)).
Defined.

(** ** The optional packages *)

(** X16.  A URL whose protocol is not [file], not [git] and not one of the
    secure shell with sshfs installed needs fsspec: without fsspec the call
    raises the instruction to install it, and with fsspec [webdav] without
    webdav4 and [dropbox] without dropboxdrivefs raise the instruction to
    install the package; in the three cases no transport and no file system
    has been called.  With fsspec, every protocol other than [webdav] and
    [dropbox] goes to [url_to_fs] with the whole URL, which is the first
    call made, after the two lines of debug level 3. *)
Theorem urls_that_go_to_fsspec env url protocol rest pd p :
  PyStr.split1 "://" url = (protocol, Some rest) →
  protocol ≠ "" → protocol ≠ "file" → protocol ≠ "git" →
  has_sshfs env && bool_decide (protocol ∈ sshProtocols) = false →
  let o := tryOpenURL env url pd p in
  (has_fsspec env = false →
   result o
   = Raise (RatarmountError
              "An fsspec URL was detected but fsspec is not installed. Install it with: pip install ratarmount[fsspec]")
   ∧ Forall (λ e, isRemoteCall e = false) (events o))
  ∧ (has_fsspec env = true → protocol = "webdav" → has_webdav4 env = false →
     result o = Raise (RatarmountError "Install the webdav4 Python package to mount webdav://.")
     ∧ Forall (λ e, isRemoteCall e = false) (events o))
  ∧ (has_fsspec env = true → protocol = "dropbox" → has_dropboxdrivefs env = false →
     result o
     = Raise (RatarmountError "Install the dropboxdrivefs Python package to mount dropbox://.")
     ∧ Forall (λ e, isRemoteCall e = false) (events o))
  ∧ (has_fsspec env = true → protocol ≠ "webdav" → protocol ≠ "dropbox" →
     ∃ evs, events o = (if 3 <=? pd
                        then [Print ("[Info] Try to open URL: " +:+ url);
                              Print "[Info] Try to open with fsspec"]
                        else [])
                       ++ AdapterCall "url_to_fs" url :: evs).
Proof.
  intros Hsplit Hne Hfile Hgit Hssh. cbv zeta. unfold tryOpenURL.
  rewrite Hsplit. cbn [fst snd].
  apply String.eqb_neq in Hne, Hfile, Hgit. rewrite Hne, Hfile, Hgit, Hssh.
  rewrite bind_when_print.
  split; [|split; [|split]].
  - intros ->. cbn [negb]. rewrite prepend_raise. cbn [result events].
    split; [reflexivity|]. destruct (3 <=? pd); repeat constructor.
  - intros -> -> ->. cbn [negb]. rewrite bind_when_print, prepend_prepend.
    change (String.eqb "webdav" "webdav") with true. cbv iota.
    erewrite bind_raise by reflexivity. unfold prepend. cbn [result events].
    split; [reflexivity|]. rewrite app_nil_r. destruct (3 <=? pd); repeat constructor.
  - intros -> -> ->. cbn [negb]. rewrite bind_when_print, prepend_prepend.
    change (String.eqb "dropbox" "webdav") with false.
    change (String.eqb "dropbox" "dropbox") with true. cbv iota.
    erewrite bind_raise by reflexivity. unfold prepend. cbn [result events].
    split; [reflexivity|]. rewrite app_nil_r. destruct (3 <=? pd); repeat constructor.
  - intros -> Hwebdav Hdropbox. cbn [negb].
    apply String.eqb_neq in Hwebdav, Hdropbox. rewrite Hwebdav, Hdropbox.
    rewrite bind_when_print, prepend_prepend.
    unfold prepend. cbn [events]. rewrite events_bind.
    unfold call_resolver at 1. cbn [events].
    eexists. rewrite <- !app_assoc. cbn [app].
    destruct (3 <=? pd); reflexivity.
Qed.

(** X16, witness: an [https] URL. *)
Lemma urls_that_go_to_fsspec_witness :
  PyStr.split1 "://" "https://host/archive.tar" = ("https", Some "host/archive.tar")
  ∧ ∃ evs, events (tryOpenURL Sample.plain "https://host/archive.tar" 0 0%nat)
           = [] ++ AdapterCall "url_to_fs" "https://host/archive.tar" :: evs.
Proof.
  split; [reflexivity|].
  refine (proj2 (proj2 (proj2
            (urls_that_go_to_fsspec Sample.plain
               "https://host/archive.tar" "https" "host/archive.tar" 0 0%nat
               eq_refl _ _ _ eq_refl))) eq_refl _ _); discriminate.
Defined.

(** ** Remote directories and files *)

Lemma openFileSystemPath_unfold env url fs path pd p :
  openFileSystemPath env url fs path pd p =
  prepend
    ((if 3 <=? pd then [Print ("[Info] Opened filesystem: " +:+ fs_str env fs)] else [])
     ++ (directoryTest env fs path).2)
    match (directoryTest env fs path).1 with
    | Raise e => mkOutcome (Raise e) p []
    | Ok true => mkOutcome (Ok (RMount (FSSpecMountSource fs path))) p []
    | Ok false => openedFile env url fs path p
    end.
Proof.
  unfold openFileSystemPath. rewrite bind_when_print.
  rewrite <- prepend_prepend. f_equal.
  assert (∀ p,
            (pathExists <- call_fs fs_exists (fs_call_exists env) fs path ;;
             if negb pathExists then
               raise (RatarmountError
                        ("Opening URL " +:+ url +:+ " failed because path " +:+ path
                         +:+ " does not exist on remote!"))
             else
               result <- call_fs fs_open (fs_call_open env) fs path ;;
               set_pos 0 ;; seek result 1 ;; read env result 1 ;; seek result 0 ;;
               ret (RStream result)) p
            = openedFile env url fs path p) as Hfile.
  { intros q. unfold openedFile, remoteFileMissing.
    cbv beta iota zeta delta [bind ret raise call_fs set_pos result final_pos events negb].
    destruct (fs_call_exists env fs path) as [[]|e]; [|reflexivity|reflexivity].
    cbv beta iota zeta delta [bind ret raise call_fs set_pos result final_pos events negb].
    destruct (fs_call_open env fs path) as [f|e]; [|reflexivity].
    cbv beta iota zeta delta [seek result final_pos events].
    destruct (s_seekError f) as [e|]; [reflexivity|].
    cbv beta iota zeta delta [read result final_pos events].
    destruct (read_error env f) as [e|]; reflexivity. }
  assert (∀ q,
            (if isHTTPFileSystem env fs then
               mimetype <- call_fs fs_info (fs_call_info env) fs path ;;
               if bool_decide (mimetype = Some "text/html")
               then call_fs fs_isdir (fs_call_isdir env) fs path
               else ret false
             else call_fs fs_isdir (fs_call_isdir env) fs path) q
            = mkOutcome (directoryTest env fs path).1 q (directoryTest env fs path).2)
    as Hdir.
  { intros q. unfold directoryTest. destruct (isHTTPFileSystem env fs); [|reflexivity].
    cbv beta iota zeta delta [bind ret call_fs result final_pos events].
    destruct (fs_call_info env fs path) as [mimetype|e]; [|reflexivity].
    case_bool_decide; reflexivity. }
  unfold bind at 1. rewrite Hdir. cbn [result final_pos events].
  destruct (directoryTest env fs path).1 as [[]|e].
  - unfold prepend, ret. cbn [result final_pos events]. reflexivity.
  - rewrite Hfile. unfold prepend. cbn [result final_pos events]. reflexivity.
  - unfold prepend. cbn [result final_pos events]. rewrite app_nil_r. reflexivity.
Qed.

(** Going through the elements of a list given in full. *)
Ltac elements Hin :=
  repeat (apply elem_of_cons in Hin as [Hin|Hin];
          [first [discriminate Hin | injection Hin; intros; subst | subst] |]);
  try (apply elem_of_nil in Hin as []).

Lemma log_has_no_call (b : bool) (line : string) (e : event) :
  e ∈ (if b then [Print line] else []) → isPrint e = true.
Proof. destruct b; intros Hin; elements Hin. reflexivity. Qed.

Lemma openedFile_is_no_mount env url fs path p m :
  result (openedFile env url fs path p) ≠ Ok (RMount m).
Proof.
  unfold openedFile.
  destruct (fs_call_exists env fs path) as [[]|?]; try discriminate.
  destruct (fs_call_open env fs path) as [f|?]; try discriminate.
  destruct (s_seekError f); try discriminate.
  destruct (read_error env f); discriminate.
Qed.

Lemma openedFile_asks_no_directory env url fs path p op path' :
  FsCall op fs path' ∈ events (openedFile env url fs path p) →
  op = fs_exists ∨ op = fs_open.
Proof.
  unfold openedFile.
  destruct (fs_call_exists env fs path) as [[]|?];
    [destruct (fs_call_open env fs path) as [f|?];
     [destruct (s_seekError f); [|destruct (read_error env f)]|]| |];
    cbn [events]; intros Hin; elements Hin; auto.
Qed.

(** X17.  The test for a directory of lines 363 to 368.  A file system
    that is no [HTTPFileSystem] is never asked for [info].  An
    [HTTPFileSystem] whose [info] has a MIME type other than [text/html],
    or none, is never asked [isdir], and the path is not mounted as a
    directory.  Whenever a mount source comes back it is
    [FSSpecMountSource(fileSystem, path)]: [isdir] said yes, on HTTP [info]
    said [text/html], and nothing but [info] and [isdir] has been called on
    the file system. *)
Theorem http_directory_needs_html env url fs path pd p :
  let o := openFileSystemPath env url fs path pd p in
  (isHTTPFileSystem env fs = false → ∀ path', FsCall fs_info fs path' ∉ events o)
  ∧ (isHTTPFileSystem env fs = true →
     ∀ mimetype,
       fs_call_info env fs path = Ok mimetype →
       mimetype ≠ Some "text/html" →
       (∀ path', FsCall fs_isdir fs path' ∉ events o)
       ∧ ∀ m, result o ≠ Ok (RMount m))
  ∧ (∀ m, result o = Ok (RMount m) →
       m = FSSpecMountSource fs path
       ∧ fs_call_isdir env fs path = Ok true
       ∧ (isHTTPFileSystem env fs = true → fs_call_info env fs path = Ok (Some "text/html"))
       ∧ ∀ op path', FsCall op fs path' ∈ events o → op = fs_info ∨ op = fs_isdir).
Proof.
  cbv zeta. rewrite openFileSystemPath_unfold. unfold prepend, directoryTest.
  cbn [result events].
  split; [|split].
  - intros -> path' Hin. cbn [fst snd] in Hin.
    rewrite !elem_of_app in Hin. destruct Hin as [[Hin|Hin]|Hin].
    + apply log_has_no_call in Hin. discriminate.
    + elements Hin.
    + destruct (fs_call_isdir env fs path) as [[]|e]; cbn [events] in Hin;
        try solve [elements Hin].
      apply openedFile_asks_no_directory in Hin as [?|?]; discriminate.
  - intros -> mimetype -> Hne.
    rewrite bool_decide_eq_false_2 by exact Hne. cbn [fst snd]. split.
    + intros path' Hin. rewrite !elem_of_app in Hin. destruct Hin as [[Hin|Hin]|Hin].
      * apply log_has_no_call in Hin. discriminate.
      * elements Hin.
      * apply openedFile_asks_no_directory in Hin as [?|?]; discriminate.
    + intros m. apply openedFile_is_no_mount.
  - intros m.
    destruct (isHTTPFileSystem env fs).
    + destruct (fs_call_info env fs path) as [mimetype|e]; cbn [fst snd]; [|discriminate].
      case_bool_decide as Hmime; cbn [fst snd].
      * destruct (fs_call_isdir env fs path) as [[]|e]; cbn [result events];
          [|intros H; exfalso; revert H; apply openedFile_is_no_mount|discriminate].
        intros [= <-]. subst mimetype. repeat split.
        intros op path' Hin. rewrite app_nil_r in Hin. apply elem_of_app in Hin as [Hin|Hin].
        -- apply log_has_no_call in Hin. discriminate.
        -- elements Hin; auto.
      * intros H. exfalso. revert H. apply openedFile_is_no_mount.
    + cbn [fst snd].
      destruct (fs_call_isdir env fs path) as [[]|e]; cbn [result events];
        [|intros H; exfalso; revert H; apply openedFile_is_no_mount|discriminate].
      intros [= <-]. repeat split; [discriminate|].
      intros op path' Hin. rewrite app_nil_r in Hin. apply elem_of_app in Hin as [Hin|Hin].
      * apply log_has_no_call in Hin. discriminate.
      * elements Hin; auto.
Qed.

(** *** Streams that [tryOpenURL] returns *)

Lemma openFileSystemPath_stream env url fs path pd p f :
  let o := openFileSystemPath env url fs path pd p in
  result o = Ok (RStream f) →
  fs_call_exists env fs path = Ok true
  ∧ fs_call_open env fs path = Ok f
  ∧ s_seekError f = None
  ∧ read_error env f = None
  ∧ final_pos o = 0%nat
  ∧ ∃ evs, events o = evs ++ [FsCall fs_open fs path; Seek f 1; Read f 1; Seek f 0].
Proof.
  cbv zeta. rewrite openFileSystemPath_unfold. unfold prepend. cbn [result final_pos events].
  destruct (directoryTest env fs path).1 as [[]|e]; cbn [result]; try discriminate.
  unfold openedFile.
  destruct (fs_call_exists env fs path) as [[]|?]; try discriminate.
  destruct (fs_call_open env fs path) as [f'|?]; try discriminate.
  destruct (s_seekError f') eqn:Hseek; try discriminate.
  destruct (read_error env f') eqn:Hread; try discriminate.
  cbn [result final_pos events]. intros [= ->].
  repeat split; try assumption.
  exists (((if 3 <=? pd then [Print ("[Info] Opened filesystem: " +:+ fs_str env fs)] else [])
           ++ (directoryTest env fs path).2) ++ [FsCall fs_exists fs path]).
  rewrite <- !app_assoc. reflexivity.
Qed.

Lemma openFileSystemPath_failed_test env url fs path pd p f :
  let o := openFileSystemPath env url fs path pd p in
  FsCall fs_open fs path ∈ events o →
  fs_call_open env fs path = Ok f →
  (∀ e, s_seekError f = Some e → result o = Raise e ∧ Read f 1 ∉ events o)
  ∧ (∀ e, s_seekError f = None → read_error env f = Some e → result o = Raise e).
Proof.
  cbv zeta. rewrite openFileSystemPath_unfold. unfold prepend. cbn [result final_pos events].
  intros Hin Hopen.
  assert (∀ e : event, e ∈ (directoryTest env fs path).2 →
                       e = FsCall fs_info fs path ∨ e = FsCall fs_isdir fs path) as Hdir.
  { intros e He. unfold directoryTest in He.
    destruct (isHTTPFileSystem env fs);
      [destruct (fs_call_info env fs path); [case_bool_decide|]|];
      cbn [snd] in He; elements He; auto. }
  assert ((directoryTest env fs path).1 = Ok false
          ∧ fs_call_exists env fs path = Ok true) as [Hfile Hex].
  { rewrite !elem_of_app in Hin. destruct Hin as [[Hin|Hin]|Hin].
    - apply log_has_no_call in Hin. discriminate.
    - apply Hdir in Hin as [?|?]; discriminate.
    - destruct (directoryTest env fs path).1 as [[]|e]; cbn [events] in Hin;
        try solve [elements Hin].
      split; [reflexivity|]. unfold openedFile in Hin.
      destruct (fs_call_exists env fs path) as [[]|?]; [reflexivity| |];
        cbn [events] in Hin; elements Hin. }
  rewrite Hfile. unfold openedFile. rewrite Hex, Hopen. split.
  - intros e ->. cbn [result events]. split; [reflexivity|].
    intros Hread. rewrite !elem_of_app in Hread. destruct Hread as [[Hread|Hread]|Hread].
    + apply log_has_no_call in Hread. discriminate.
    + apply Hdir in Hread as [?|?]; discriminate.
    + elements Hread.
  - intros e -> ->. reflexivity.
Qed.

(** The ways through [tryOpenURL]: an error before any file system is
    there, a local path, a transport, or a file system and a path. *)
Lemma tryOpenURL_ways env url pd p :
  let o := tryOpenURL env url pd p in
  (∃ e, result o = Raise e ∧ Forall (λ ev, beforeFileSystem ev = true) (events o))
  ∨ (∃ rest, o = prepend (tryOpenLog url pd) (ret (RPath rest) p))
  ∨ (∃ rest,
       PyStr.split1 "://" url = ("git", Some rest)
       ∧ o = mkOutcome (git_adapter env url) 0%nat
               (tryOpenLog url pd ++ [AdapterCall "git" url]))
  ∨ (∃ protocol rest,
       PyStr.split1 "://" url = (protocol, Some rest)
       ∧ protocol ∈ sshProtocols
       ∧ has_sshfs env = true
       ∧ o = mkOutcome (sshfs_adapter env url) 0%nat
               (tryOpenLog url pd ++ [AdapterCall "sshfs" url]))
  ∨ (∃ fs path evs,
       o = prepend evs (openFileSystemPath env url fs path pd p)
       ∧ Forall (λ ev, beforeFileSystem ev = true) evs).
Proof.
  cbv zeta. unfold tryOpenURL.
  destruct (PyStr.split1 "://" url) as [protocol [rest|]] eqn:Hsplit; cbn [fst snd].
  2:{ left. eexists. split; [reflexivity | constructor]. }
  destruct (String.eqb protocol "") eqn:Hempty.
  { left. eexists. split; [reflexivity | constructor]. }
  rewrite bind_when_print. fold (tryOpenLog url pd).
  assert (Forall (λ ev, beforeFileSystem ev = true) (tryOpenLog url pd)) as Hlog.
  { unfold tryOpenLog. destruct (3 <=? pd); repeat constructor. }
  destruct (String.eqb protocol "file") eqn:Hfile.
  { right. left. exists rest. reflexivity. }
  destruct (String.eqb protocol "git") eqn:Hgit.
  { right. right. left. apply String.eqb_eq in Hgit. subst protocol.
    exists rest. split; reflexivity. }
  destruct (has_sshfs env && bool_decide (protocol ∈ sshProtocols)) eqn:Hssh.
  { right. right. right. left. apply andb_true_iff in Hssh as [Hhas Hin].
    apply bool_decide_eq_true in Hin.
    exists protocol, rest. repeat split; assumption. }
  destruct (has_fsspec env); cbn [negb].
  2:{ left. eexists. rewrite prepend_raise. cbn [result events]. split; [reflexivity|].
      exact Hlog. }
  rewrite bind_when_print, prepend_prepend.
  set (log := tryOpenLog url pd
              ++ (if 3 <=? pd then [Print "[Info] Try to open with fsspec"] else [])).
  assert (Forall (λ ev, beforeFileSystem ev = true) log) as Hlog'.
  { unfold log. apply Forall_app. split; [exact Hlog|].
    destruct (3 <=? pd); repeat constructor. }
  match goal with
  | |- context [bind ?m ?k p] => set (resolver := m); set (rest' := k)
  end.
  assert (Forall (λ ev, beforeFileSystem ev = true) (events (resolver p))) as Hres.
  { unfold resolver.
    destruct (String.eqb protocol "webdav");
      [destruct (has_webdav4 env); cbn [negb]; repeat constructor|].
    destruct (String.eqb protocol "dropbox"); [|repeat constructor].
    destruct (has_dropboxdrivefs env); cbn [negb]; [|constructor].
    destruct (os_environ env !! "DROPBOX_TOKEN") as [token|]; [|constructor].
    destruct (String.eqb token ""); constructor. }
  destruct (result (resolver p)) as [[fs path]|e] eqn:Hresolved.
  - right. right. right. right. exists fs, path, (log ++ events (resolver p)).
    split; [|apply Forall_app; auto].
    rewrite (bind_prepend _ _ _ _ Hresolved), prepend_prepend. unfold rest'.
    assert (final_pos (resolver p) = p) as ->; [|reflexivity].
    unfold resolver.
    destruct (String.eqb protocol "webdav");
      [destruct (has_webdav4 env); reflexivity|].
    destruct (String.eqb protocol "dropbox"); [|reflexivity].
    destruct (has_dropboxdrivefs env); cbn [negb]; [|reflexivity].
    destruct (os_environ env !! "DROPBOX_TOKEN") as [token|]; [|reflexivity].
    destruct (String.eqb token ""); reflexivity.
  - left. exists e. rewrite (bind_raise _ _ _ _ Hresolved).
    unfold prepend. cbn [result events]. split; [reflexivity|].
    apply Forall_app. auto.
Qed.

Lemma no_call_in (evs : list event) (e : event) :
  Forall (λ ev, beforeFileSystem ev = true) evs → beforeFileSystem e = false → e ∉ evs.
Proof.
  rewrite Forall_forall. intros H He Hin. specialize (H _ Hin). congruence.
Qed.

Lemma tryOpenLog_before url pd :
  Forall (λ ev, beforeFileSystem ev = true) (tryOpenLog url pd).
Proof. unfold tryOpenLog. destruct (3 <=? pd); repeat constructor. Qed.

(** X18.  A stream that [tryOpenURL] returns comes from one of three
    places.  For a [git://] URL it is what [_openGitMountSource] returned,
    for a secure-shell URL what [_openSSHFSMountSource] returned: it is
    handed on as it is, and nothing was called but the adapter.  Otherwise
    it comes from a file system of fsspec and has passed the test of lines
    389 to 391: the path exists, [open] has returned the stream, and
    [seek(1)], [read(1)] and [seek(0)] went through, as the last calls made
    and in this order, so that the stream is at its start.  When the [seek]
    of a file that was opened on a file system raises, that exception is
    raised and nothing is read; when [read(1)] raises, that exception is
    raised. *)
Theorem opened_stream_passed_the_seek_test env url pd p :
  let o := tryOpenURL env url pd p in
  (∀ f, result o = Ok (RStream f) →
     (∃ rest,
        PyStr.split1 "://" url = ("git", Some rest)
        ∧ git_adapter env url = Ok (RStream f)
        ∧ events o = tryOpenLog url pd ++ [AdapterCall "git" url])
     ∨ (∃ protocol rest,
          PyStr.split1 "://" url = (protocol, Some rest)
          ∧ protocol ∈ sshProtocols
          ∧ has_sshfs env = true
          ∧ sshfs_adapter env url = Ok (RStream f)
          ∧ events o = tryOpenLog url pd ++ [AdapterCall "sshfs" url])
     ∨ (∃ fs path evs,
          events o = evs ++ [FsCall fs_open fs path; Seek f 1; Read f 1; Seek f 0]
          ∧ fs_call_exists env fs path = Ok true
          ∧ fs_call_open env fs path = Ok f
          ∧ s_seekError f = None
          ∧ read_error env f = None
          ∧ final_pos o = 0%nat))
  ∧ (∀ fs path f,
       FsCall fs_open fs path ∈ events o →
       fs_call_open env fs path = Ok f →
       (∀ e, s_seekError f = Some e → result o = Raise e ∧ Read f 1 ∉ events o)
       ∧ (∀ e, s_seekError f = None → read_error env f = Some e → result o = Raise e)).
Proof.
  cbv zeta.
  destruct (tryOpenURL_ways env url pd p)
    as [(e & He & Hcalls)|[(rest & Hpath)|[(rest & Hsplit & Ho)
        |[(protocol & rest & Hsplit & Hin & Hhas & Ho)|(fs & path & evs & Ho & Hcalls)]]]];
    cbv zeta in *.
  - split; [intros f Hf; congruence|].
    intros fs path f Hin. exfalso. exact (no_call_in _ (FsCall fs_open _ _) Hcalls eq_refl Hin).
  - rewrite Hpath. unfold prepend, ret. cbn [result events]. rewrite app_nil_r.
    split; [intros f [=]|].
    intros fs path f Hin. exfalso.
    exact (no_call_in _ (FsCall fs_open _ _) (tryOpenLog_before url pd) eq_refl Hin).
  - rewrite Ho. cbn [result events]. split.
    + intros f Hf. left. exists rest. auto.
    + intros fs path f Hin. exfalso. apply elem_of_app in Hin as [Hin|Hin].
      * unfold tryOpenLog in Hin. destruct (3 <=? pd); elements Hin.
      * elements Hin.
  - rewrite Ho. cbn [result events]. split.
    + intros f Hf. right. left. exists protocol, rest. auto.
    + intros fs path f Hin'. exfalso. apply elem_of_app in Hin' as [Hin'|Hin'].
      * unfold tryOpenLog in Hin'. destruct (3 <=? pd); elements Hin'.
      * elements Hin'.
  - rewrite Ho. unfold prepend. cbn [result final_pos events]. split.
    + intros f Hf. right. right.
      destruct (openFileSystemPath_stream env url fs path pd p f Hf)
        as (Hex & Hopen & Hseek & Hread & Hpos & evs' & Hev).
      exists fs, path, (evs ++ evs'). rewrite Hev, app_assoc. auto 10.
    + intros fs' path' f Hin Hopen.
      apply elem_of_app in Hin as [Hin|Hin]; [exfalso; exact (no_call_in _ (FsCall fs_open _ _) Hcalls eq_refl Hin)|].
      pose proof (openFileSystemPath_calls env url fs path pd p) as Hon.
      rewrite Forall_forall in Hon. destruct (Hon _ Hin) as [-> ->].
      destruct (openFileSystemPath_failed_test env url fs path pd p f Hin Hopen)
        as [Hseek Hread].
      split; [|exact Hread].
      intros e He. destruct (Hseek e He) as [Hraise Hnoread]. split; [exact Hraise|].
      intros Hr. apply elem_of_app in Hr as [Hr|Hr]; [|contradiction].
      exact (no_call_in _ (Read _ _) Hcalls eq_refl Hr).
Qed.

(** ** [_openGitMountSource] *)

Lemma strip_prefix_char (c : ascii) (s : string) :
  PyStr.strip_prefix (String c "") s
  = match s with
    | String b s' => if Ascii.eqb c b then Some s' else None
    | EmptyString => None
    end.
Proof. destruct s as [|b s']; reflexivity. Qed.


(** Splitting at a separator of one character what was joined by it. *)
Lemma split1_joined (c : ascii) (head tail : string) :
  PyStr.contains head (String c "") = false →
  PyStr.split1 (String c "") (head +:+ String c "" +:+ tail) = (head, Some tail).
Proof.
  change (String c "" +:+ tail) with (String c tail).
  induction head as [|b head IH].
  - intros _. change ("" +:+ String c tail) with (String c tail).
    cbn [PyStr.split1]. rewrite strip_prefix_char, Ascii.eqb_refl. reflexivity.
  - change (String b head +:+ String c tail) with (String b (head +:+ String c tail)).
    cbn [PyStr.contains]. unfold PyStr.startswith. rewrite strip_prefix_char.
    cbn [PyStr.split1]. rewrite strip_prefix_char.
    destruct (Ascii.eqb c b); [discriminate|].
    intros H. rewrite (IH H). reflexivity.
Qed.

(** Joining what was split gives the string back. *)
Lemma split1_inverse (sep s : string) :
  match PyStr.split1 sep s with
  | (head, Some tail) => s = head +:+ sep +:+ tail
  | (head, None) => s = head ∧ PyStr.contains s sep = false
  end.
Proof.
  assert (∀ p t r, PyStr.strip_prefix p t = Some r → t = p +:+ r) as Hstrip.
  { induction p as [|a p IHp]; intros t r; cbn [PyStr.strip_prefix].
    - intros [= ->]. reflexivity.
    - destruct t as [|b t]; [discriminate|].
      destruct (Ascii.eqb a b) eqn:E; [|discriminate].
      apply Ascii.eqb_eq in E as <-. intros H. rewrite (IHp _ _ H). reflexivity. }
  induction s as [|c s IH]; cbn [PyStr.split1 PyStr.contains]; unfold PyStr.startswith.
  - destruct (PyStr.strip_prefix sep "") as [r|] eqn:E.
    + apply Hstrip in E. exact E.
    + auto.
  - destruct (PyStr.strip_prefix sep (String c s)) as [r|] eqn:E.
    + apply Hstrip in E. exact E.
    + destruct (PyStr.split1 sep s) as [head [tail|]].
      * rewrite IH. reflexivity.
      * destruct IH as [<- ->]. auto.
Qed.

Lemma append_assoc (a b c : string) : (a +:+ b) +:+ c = a +:+ (b +:+ c).
Proof.
  induction a as [|x a IH]; [reflexivity|].
  change ((String x a +:+ b) +:+ c) with (String x ((a +:+ b) +:+ c)).
  rewrite IH. reflexivity.
Qed.

(** X19.  What follows [git://] is read as [repository:reference@path],
    where the repository with its colon and the reference with its at sign
    may be left out: a repository path without a colon and a reference
    without an at sign are given back as they were written, together with
    the path.  Writing the parts one after the other, the repository with
    its colon and the reference with its at sign, gives the string back,
    whatever it was. *)
Theorem git_url_parts (repositoryPath reference path : string) :
  (PyStr.contains repositoryPath ":" = false →
   PyStr.contains reference "@" = false →
   gitURLParts (repositoryPath +:+ ":" +:+ reference +:+ "@" +:+ path)
   = (Some repositoryPath, Some reference, path))
  ∧ (PyStr.contains repositoryPath ":" = false →
     PyStr.contains path "@" = false →
     gitURLParts (repositoryPath +:+ ":" +:+ path) = (Some repositoryPath, None, path))
  ∧ (PyStr.contains (reference +:+ "@" +:+ path) ":" = false →
     PyStr.contains reference "@" = false →
     gitURLParts (reference +:+ "@" +:+ path) = (None, Some reference, path))
  ∧ (PyStr.contains path ":" = false →
     PyStr.contains path "@" = false →
     gitURLParts path = (None, None, path))
  ∧ (∀ rest, gitURLRest (gitURLParts rest) = rest).
Proof.
  unfold gitURLParts, splitHead, splitLast. cbv zeta.
  split; [|split; [|split; [|split]]].
  - intros Hrepo Href. rewrite (split1_joined ":" _ _ Hrepo). cbn [fst snd].
    rewrite (split1_joined "@" _ _ Href). reflexivity.
  - intros Hrepo Hpath. rewrite (split1_joined ":" _ _ Hrepo). cbn [fst snd].
    rewrite (split1_without_separator _ _ Hpath). reflexivity.
  - intros Hcolon Href. rewrite (split1_without_separator _ _ Hcolon). cbn [fst snd].
    rewrite (split1_joined "@" _ _ Href). reflexivity.
  - intros Hcolon Hat. rewrite (split1_without_separator _ _ Hcolon). cbn [fst snd].
    rewrite (split1_without_separator _ _ Hat). reflexivity.
  - intros rest. unfold gitURLRest.
    pose proof (split1_inverse ":" rest) as Hrepo.
    destruct (PyStr.split1 ":" rest) as [head [tail|]]; cbn [fst snd].
    + pose proof (split1_inverse "@" tail) as Href.
      destruct (PyStr.split1 "@" tail) as [head' [tail'|]]; cbn [fst snd].
      * rewrite Hrepo, Href. rewrite !append_assoc. reflexivity.
      * destruct Href as [<- _]. rewrite Hrepo. rewrite !append_assoc. reflexivity.
    + destruct Hrepo as [<- _].
      pose proof (split1_inverse "@" rest) as Href.
      destruct (PyStr.split1 "@" rest) as [head' [tail'|]]; cbn [fst snd].
      * symmetry. etransitivity; [exact Href|]. rewrite !append_assoc. reflexivity.
      * destruct Href as [<- _]. reflexivity.
Qed.

(** X20.  [_openGitMountSource] on a URL that starts with [git://] raises
    when [GitMountSource] could not be loaded.  When it returns, the URL
    starts with [git://] and the repository has been opened with the
    repository path and the reference of the URL.  It returns the
    repository as it is when the URL names no path, the repository with its
    [prefix] set to the path when the path is a directory of the
    repository, and what [open] returns when the path is anything else that
    the repository has. *)
Theorem git_url_outcome git (url : string) :
  (∀ rest, url = "git://" +:+ rest →
     GitMountSource_enabled git = false →
     _openGitMountSource git url
     = Raise (RatarmountError
                "Detected git:// URL but GitMountSource could not be loaded. Please ensure that pygit2 is installed."))
  ∧ (∀ opened, _openGitMountSource git url = Ok opened →
       ∃ rest repositoryPath reference path,
         url = "git://" +:+ rest
         ∧ gitURLParts rest = (repositoryPath, reference, path)
         ∧ GitMountSource_enabled git = true
         ∧ GitMountSource_init git repositoryPath reference = None
         ∧ match opened with
           | GitMount (GitMountSource repositoryPath' reference' prefix) =>
               repositoryPath' = repositoryPath ∧ reference' = reference
               ∧ ((path = "" ∧ prefix = None)
                  ∨ (prefix = Some path
                     ∧ ∃ fileInfo,
                         GitMountSource_getFileInfo git repositoryPath reference path
                         = Ok (Some fileInfo)
                         ∧ S_ISDIR (mode fileInfo) = true))
           | GitFile f =>
               path ≠ ""
               ∧ ∃ fileInfo,
                   GitMountSource_getFileInfo git repositoryPath reference path
                   = Ok (Some fileInfo)
                   ∧ S_ISDIR (mode fileInfo) = false
                   ∧ GitMountSource_open git repositoryPath reference fileInfo = Ok f
           end).
Proof.
  split.
  - intros rest -> Hoff. unfold _openGitMountSource.
    change (PyStr.split1 "://" ("git://" +:+ rest)) with ("git", Some rest).
    cbn [fst snd]. change (String.eqb "git" "git") with true. rewrite Hoff. reflexivity.
  - intros opened. unfold _openGitMountSource.
    pose proof (split1_inverse "://" url) as Hurl.
    destruct (PyStr.split1 "://" url) as [protocol [rest|]]; cbn [fst snd]; [|discriminate].
    destruct (String.eqb protocol "git") eqn:Hgit; cbn [negb]; [|discriminate].
    apply String.eqb_eq in Hgit. subst protocol.
    destruct (GitMountSource_enabled git); cbn [negb]; [|discriminate].
    destruct (gitURLParts rest) as [[repositoryPath reference] path] eqn:Hparts.
    destruct (GitMountSource_init git repositoryPath reference) eqn:Hinit; [discriminate|].
    destruct (String.eqb path "") eqn:Hpath; cbn [negb].
    + apply String.eqb_eq in Hpath. subst path. intros [= <-].
      exists rest, repositoryPath, reference, "". repeat split; auto.
    + apply String.eqb_neq in Hpath.
      destruct (GitMountSource_getFileInfo git repositoryPath reference path)
        as [[fileInfo|]|] eqn:Hinfo; try discriminate.
      destruct (S_ISDIR (mode fileInfo)) eqn:Hdir.
      * intros [= <-]. exists rest, repositoryPath, reference, path.
        repeat split; auto. right. eauto.
      * destruct (GitMountSource_open git repositoryPath reference fileInfo) eqn:Hopen;
          [|discriminate].
        intros [= <-]. exists rest, repositoryPath, reference, path.
        repeat split; eauto.
Qed.

(** ** [_openSSHFSMountSource] *)

Lemma sshPath_not_empty (path : string) : sshPath path ≠ "".
Proof.
  unfold sshPath.
  destruct (String.eqb _ "") eqn:E; [discriminate | apply String.eqb_neq, E].
Qed.

(** X21.  The path that [_openSSHFSMountSource] asks the remote for is
    never empty.  One slash at its start is removed, not more; what is empty
    then is replaced by [.]; a path that is not empty and does not start
    with a slash is taken as it is. *)
Theorem ssh_path_is_never_empty (path : string) :
  sshPath path ≠ ""
  ∧ sshPath "" = "."
  ∧ sshPath "/" = "."
  ∧ (∀ rest, rest ≠ "" → sshPath ("/" +:+ rest) = rest)
  ∧ (PyStr.startswith path "/" = false → path ≠ "" → sshPath path = path).
Proof.
  split; [apply sshPath_not_empty|]. split; [reflexivity|]. split; [reflexivity|]. split.
  - intros rest Hrest. unfold sshPath.
    change (PyStr.startswith ("/" +:+ rest) "/") with true. cbv iota.
    change (dropFirst ("/" +:+ rest)) with rest.
    apply String.eqb_neq in Hrest. rewrite Hrest. reflexivity.
  - intros Hslash Hne. unfold sshPath. rewrite Hslash.
    apply String.eqb_neq in Hne. rewrite Hne. reflexivity.
Qed.

(** X22.  [_openSSHFSMountSource] raises when sshfs is not installed, and
    it raises the error that names the URL and the remote path when the
    remote says that the path does not exist.  When it returns, the remote
    path exists; the result is what [open] returns when [isfile] says yes,
    and [FSSpecMountSource(fs, path)] when it says no, never a local
    path. *)
Theorem ssh_url_outcome (installed : bool) ssh (url : string) :
  (installed = false →
   _openSSHFSMountSource installed ssh url
   = Raise (RatarmountError
              "Cannot open with sshfs module because it seems to not be installed!"))
  ∧ (∀ opened, _openSSHFSMountSource installed ssh url = Ok opened →
       ∃ fs path,
         FixedSSHFileSystem_init ssh url = Ok fs
         ∧ infer_storage_options_path ssh url = Ok path
         ∧ sshPath path ≠ ""
         ∧ ssh_exists ssh fs (sshPath path) = Ok true
         ∧ match opened with
           | RMount mountSource =>
               mountSource = FSSpecMountSource fs (sshPath path)
               ∧ ssh_isfile ssh fs (sshPath path) = Ok false
           | RStream file =>
               ssh_isfile ssh fs (sshPath path) = Ok true
               ∧ ssh_open ssh fs (sshPath path) = Ok file
           | RPath _ => False
           end)
  ∧ (∀ fs path,
       installed = true →
       FixedSSHFileSystem_init ssh url = Ok fs →
       infer_storage_options_path ssh url = Ok path →
       ssh_exists ssh fs (sshPath path) = Ok false →
       _openSSHFSMountSource installed ssh url
       = Raise (RatarmountError
                  ("Cannot open URL: " +:+ url +:+ " because the remote path: "
                   +:+ sshPath path +:+ " does not exist!"))).
Proof.
  unfold _openSSHFSMountSource. split; [|split].
  - intros ->. reflexivity.
  - intros opened. destruct installed; cbn [negb]; [|discriminate].
    destruct (FixedSSHFileSystem_init ssh url) as [fs|]; [|discriminate].
    destruct (infer_storage_options_path ssh url) as [path|]; [|discriminate].
    cbv zeta.
    destruct (ssh_exists ssh fs (sshPath path)) as [[]|] eqn:Hex; try discriminate.
    destruct (ssh_isfile ssh fs (sshPath path)) as [[]|] eqn:Hfile; try discriminate.
    + destruct (ssh_open ssh fs (sshPath path)) as [file|] eqn:Hopen; [|discriminate].
      intros [= <-]. exists fs, path.
      repeat split; auto. apply sshPath_not_empty.
    + intros [= <-]. exists fs, path.
      repeat split; auto. apply sshPath_not_empty.
  - intros fs path -> -> -> Hex. cbn [negb]. cbv zeta. rewrite Hex. reflexivity.
Qed.

(** ** The WebDAV branch *)

Lemma span_append (cls : CharClass) (s : string) :
  fst (span cls s) +:+ snd (span cls s) = s.
Proof.
  induction s as [|c s IH]; [reflexivity|]. cbn [span].
  destruct (accepts cls c); [|reflexivity].
  destruct (span cls s) as [a b]. cbn [fst snd] in *.
  change (String c a +:+ b) with (String c (a +:+ b)). rewrite IH. reflexivity.
Qed.

Lemma span_stops (cls : CharClass) (s : string) : stopsAt cls (snd (span cls s)) = true.
Proof.
  induction s as [|c s IH]; [reflexivity|]. cbn [span].
  destruct (accepts cls c) eqn:E.
  - destruct (span cls s) as [a b]. exact IH.
  - cbn [snd stopsAt]. rewrite E. reflexivity.
Qed.

Lemma span_accepted (cls : CharClass) (s : string) : allAccepted cls (fst (span cls s)) = true.
Proof.
  induction s as [|c s IH]; [reflexivity|]. cbn [span].
  destruct (accepts cls c) eqn:E; [|reflexivity].
  destruct (span cls s) as [a b]. cbn [fst allAccepted] in *. rewrite E, IH. reflexivity.
Qed.

Lemma span_joined (cls : CharClass) (a b : string) :
  allAccepted cls a = true → stopsAt cls b = true → span cls (a +:+ b) = (a, b).
Proof.
  intros Ha Hb. induction a as [|c a IH].
  - change ("" +:+ b) with b. destruct b as [|c b]; [reflexivity|].
    cbn [span stopsAt] in *. destruct (accepts cls c); [discriminate | reflexivity].
  - change (String c a +:+ b) with (String c (a +:+ b)).
    cbn [allAccepted] in Ha. apply andb_true_iff in Ha as [Hc Ha].
    cbn [span]. rewrite Hc, (IH Ha). reflexivity.
Qed.


Lemma substring_start (a b : string) : String.substring 0 (String.length a) (a +:+ b) = a.
Proof.
  induction a as [|c a IH].
  - destruct b; reflexivity.
  - change (String c a +:+ b) with (String c (a +:+ b)).
    cbn [String.length String.substring]. rewrite IH. reflexivity.
Qed.

Lemma consumed_append (a b : string) : consumed (a +:+ b) b = a.
Proof.
  unfold consumed. rewrite length_append.
  replace (String.length a + String.length b - String.length b)%nat
    with (String.length a) by lia.
  apply substring_start.
Qed.

Lemma consumed_span (cls : CharClass) (s : string) :
  consumed s (snd (span cls s)) = fst (span cls s).
Proof. rewrite <- (span_append cls s) at 1. apply consumed_append. Qed.

(** [x*] is greedy: when what follows matches after the longest run, that is
    the match. *)
Lemma matchStar_greedy (cls : CharClass) (s : string) k groups :
  k (snd (span cls s)) = Some groups → matchStar cls s k = Some groups.
Proof.
  induction s as [|c s IH]; cbn [span matchStar]; [auto|].
  destruct (accepts cls c); [|auto].
  destruct (span cls s) as [a b]. cbn [snd] in *. intros H. rewrite (IH H). reflexivity.
Qed.

(** When what follows [x*] cannot start with a character of the class, the
    longest run is the only try there is. *)
Lemma matchStar_only_try (cls : CharClass) (s : string) k :
  (∀ c t, accepts cls c = true → k (String c t) = None) →
  matchStar cls s k = k (snd (span cls s)).
Proof.
  intros Hk. induction s as [|c s IH]; cbn [span matchStar]; [reflexivity|].
  destruct (accepts cls c) eqn:E; [|reflexivity].
  rewrite IH, (Hk c s E). destruct (span cls s) as [a b]. cbn [snd].
  destruct (k b); reflexivity.
Qed.

(** The host and the path, which always match. *)
Lemma match_host_and_path (s : string) (groups : Captures) :
  matchFrom (Seq (Group 3 (Star (NoneOf ["/"]%char))) (Group 4 (Star AnyChar))) s groups
    (fun _ groups' => Some groups')
  = Some (<[4%nat := fst (span AnyChar (snd (span (NoneOf ["/"]%char) s)))]>
            (<[3%nat := fst (span (NoneOf ["/"]%char) s)]> groups)).
Proof.
  cbn [matchFrom]. apply matchStar_greedy.
  rewrite consumed_span. apply matchStar_greedy.
  rewrite consumed_span. reflexivity.
Qed.

Lemma webdavURI_groups (rest : string) :
  re_match webdavURI rest = Some (webdavGroups rest).
Proof.
  unfold re_match, webdavURI, webdavGroups, webdavCredentials.
  set (host := Seq (Group 3 (Star (NoneOf ["/"]%char))) (Group 4 (Star AnyChar))).
  cbn [matchFrom].
  assert (∀ s g, matchFrom host s g (fun _ groups' => Some groups')
                 = Some (<[4%nat := fst (span AnyChar (snd (span (NoneOf ["/"]%char) s)))]>
                           (<[3%nat := fst (span (NoneOf ["/"]%char) s)]> g))) as Hhost.
  { intros s g. apply match_host_and_path. }
  rewrite matchStar_only_try.
  2:{ intros c t Hc. cbn [accepts existsb] in Hc.
      destruct (Ascii.eqb c ":") eqn:E; [discriminate|].
      cbn [accepts]. rewrite Ascii.eqb_sym, E. reflexivity. }
  rewrite consumed_span.
  destruct (span (NoneOf [":"; "/"]%char) rest) as [username afterUser]. cbn [fst snd].
  assert (∀ s, (let '(h, afterHost) := span (NoneOf ["/"]%char) s in
                <[4%nat := fst (span AnyChar afterHost)]> (<[3%nat := h]> (∅ : Captures)))
               = <[4%nat := fst (span AnyChar (snd (span (NoneOf ["/"]%char) s)))]>
                   (<[3%nat := fst (span (NoneOf ["/"]%char) s)]> ∅)) as Hnone.
  { intros s. destruct (span (NoneOf ["/"]%char) s). reflexivity. }
  destruct afterUser as [|c afterColon]; [rewrite Hhost, Hnone; reflexivity|].
  cbn [accepts].
  destruct (Ascii.eqb ":" c) eqn:Ecolon; [|rewrite Hhost, Hnone; reflexivity].
  rewrite matchStar_only_try.
  2:{ intros c0 t Hc. cbn [accepts existsb] in Hc.
      destruct (Ascii.eqb c0 "@") eqn:E; [discriminate|].
      cbn [accepts]. rewrite Ascii.eqb_sym, E. reflexivity. }
  rewrite consumed_span.
  destruct (span (NoneOf ["@"; "/"]%char) afterColon) as [password afterPassword]. cbn [fst snd].
  destruct afterPassword as [|c' afterAt]; [rewrite Hhost, Hnone; reflexivity|].
  cbn [accepts].
  destruct (Ascii.eqb "@" c') eqn:Eat; [|rewrite Hhost, Hnone; reflexivity].
  rewrite Hhost. destruct (span (NoneOf ["/"]%char) afterAt). reflexivity.
Qed.


Lemma webdavCredentials_inverse (rest username password afterAt : string) :
  webdavCredentials rest = Some (username, password, afterAt) →
  rest = username +:+ ":" +:+ password +:+ "@" +:+ afterAt
  ∧ allAccepted (NoneOf [":"; "/"]%char) username = true
  ∧ allAccepted (NoneOf ["@"; "/"]%char) password = true.
Proof.
  unfold webdavCredentials.
  pose proof (span_append (NoneOf [":"; "/"]%char) rest) as Huser.
  pose proof (span_accepted (NoneOf [":"; "/"]%char) rest) as Hu.
  destruct (span (NoneOf [":"; "/"]%char) rest) as [u afterUser]. cbn [fst snd] in *.
  destruct afterUser as [|c afterColon]; [discriminate|].
  destruct (Ascii.eqb ":" c) eqn:Ec; [|discriminate].
  apply Ascii.eqb_eq in Ec. subst c.
  pose proof (span_append (NoneOf ["@"; "/"]%char) afterColon) as Hpass.
  pose proof (span_accepted (NoneOf ["@"; "/"]%char) afterColon) as Hp.
  destruct (span (NoneOf ["@"; "/"]%char) afterColon) as [pw afterPassword].
  cbn [fst snd] in *.
  destruct afterPassword as [|c afterAt']; [discriminate|].
  destruct (Ascii.eqb "@" c) eqn:Ec; [|discriminate].
  apply Ascii.eqb_eq in Ec. subst c.
  intros [= <- <- <-]. rewrite <- Huser, <- Hpass. auto.
Qed.

Lemma webdavCredentials_joined (username password afterAt : string) :
  allAccepted (NoneOf [":"; "/"]%char) username = true →
  allAccepted (NoneOf ["@"; "/"]%char) password = true →
  webdavCredentials (username +:+ ":" +:+ password +:+ "@" +:+ afterAt)
  = Some (username, password, afterAt).
Proof.
  intros Hu Hp. unfold webdavCredentials.
  rewrite (span_joined _ username (":" +:+ password +:+ "@" +:+ afterAt) Hu eq_refl).
  change (":" +:+ password +:+ "@" +:+ afterAt)
    with (String ":" (password +:+ "@" +:+ afterAt)).
  cbv iota beta.
  rewrite (span_joined _ password ("@" +:+ afterAt) Hp eq_refl). reflexivity.
Qed.

Lemma allAccepted_append (cls : CharClass) (a b : string) :
  allAccepted cls (a +:+ b) = allAccepted cls a && allAccepted cls b.
Proof.
  induction a as [|c a IH]; [reflexivity|].
  change (String c a +:+ b) with (String c (a +:+ b)).
  cbn [allAccepted]. rewrite IH, andb_assoc. reflexivity.
Qed.

Lemma allAccepted_weaken (cs cs' : list ascii) (s : string) :
  (∀ c, existsb (Ascii.eqb c) cs' = true → existsb (Ascii.eqb c) cs = true) →
  allAccepted (NoneOf cs) s = true → allAccepted (NoneOf cs') s = true.
Proof.
  intros Hsub. induction s as [|c s IH]; [reflexivity|].
  cbn [allAccepted accepts]. rewrite !andb_true_iff, !negb_true_iff.
  intros [Hc Hs]. split; [|apply IH, Hs].
  destruct (existsb (Ascii.eqb c) cs') eqn:E; [|reflexivity].
  rewrite (Hsub c E) in Hc. discriminate.
Qed.

Lemma span_through (cls : CharClass) (a b : string) :
  allAccepted cls a = true →
  span cls (a +:+ b) = (a +:+ fst (span cls b), snd (span cls b)).
Proof.
  intros Ha. induction a as [|c a IH].
  - change ("" +:+ b) with b. destruct (span cls b). reflexivity.
  - change (String c a +:+ b) with (String c (a +:+ b)).
    cbn [allAccepted] in Ha. apply andb_true_iff in Ha as [Hc Ha].
    cbn [span]. rewrite Hc, (IH Ha). reflexivity.
Qed.

Lemma accepted_inside (cls : CharClass) (a : string) (c : ascii) (b : string) :
  allAccepted cls (a +:+ String c b) = true → accepts cls c = true.
Proof.
  rewrite allAccepted_append. cbn [allAccepted]. rewrite !andb_true_iff. tauto.
Qed.

(** A host without an at sign is not taken for credentials. *)
Lemma webdavCredentials_none (host path : string) :
  allAccepted (NoneOf ["@"; "/"]%char) host = true →
  stopsAt (NoneOf ["/"]%char) path = true →
  webdavCredentials (host +:+ path) = None.
Proof.
  intros Hhost Hpath.
  destruct (webdavCredentials (host +:+ path)) as [[[u p] r]|] eqn:E; [|reflexivity].
  exfalso. apply webdavCredentials_inverse in E as (Heq & Hu & Hp).
  assert (allAccepted (NoneOf ["/"]%char) host = true) as Hhost'.
  { revert Hhost. apply allAccepted_weaken. intros c. cbn [existsb].
    rewrite !orb_false_r. intros ->. apply orb_true_r. }
  assert (allAccepted (NoneOf ["/"]%char) u = true) as Hu'.
  { revert Hu. apply allAccepted_weaken. intros c. cbn [existsb].
    rewrite !orb_false_r. intros ->. apply orb_true_r. }
  assert (allAccepted (NoneOf ["/"]%char) p = true) as Hp'.
  { revert Hp. apply allAccepted_weaken. intros c. cbn [existsb].
    rewrite !orb_false_r. intros ->. apply orb_true_r. }
  apply (f_equal (span (NoneOf ["/"]%char))) in Heq.
  rewrite (span_joined _ host path Hhost' Hpath) in Heq.
  replace (u +:+ ":" +:+ p +:+ "@" +:+ r) with ((u +:+ ":" +:+ p +:+ "@") +:+ r) in Heq.
  2:{ rewrite !append_assoc. reflexivity. }
  rewrite span_through in Heq.
  2:{ rewrite !allAccepted_append, Hu', Hp'. reflexivity. }
  injection Heq as Hh _.
  rewrite Hh in Hhost.
  replace ((u +:+ ":" +:+ p +:+ "@") +:+ fst (span (NoneOf ["/"]%char) r))
    with ((u +:+ ":" +:+ p) +:+ String "@" (fst (span (NoneOf ["/"]%char) r))) in Hhost.
  2:{ rewrite !append_assoc. reflexivity. }
  apply accepted_inside in Hhost. discriminate.
Qed.

Lemma webdavGroups_lookup (rest : string) :
  match webdavCredentials rest with
  | Some (username, password, afterAt) =>
      webdavGroups rest !! 1%nat = Some username
      ∧ webdavGroups rest !! 2%nat = Some password
      ∧ webdavGroups rest !! 3%nat = Some (fst (span (NoneOf ["/"]%char) afterAt))
      ∧ webdavGroups rest !! 4%nat
        = Some (fst (span AnyChar (snd (span (NoneOf ["/"]%char) afterAt))))
  | None =>
      webdavGroups rest !! 1%nat = None
      ∧ webdavGroups rest !! 2%nat = None
      ∧ webdavGroups rest !! 3%nat = Some (fst (span (NoneOf ["/"]%char) rest))
      ∧ webdavGroups rest !! 4%nat
        = Some (fst (span AnyChar (snd (span (NoneOf ["/"]%char) rest))))
  end.
Proof.
  unfold webdavGroups.
  destruct (webdavCredentials rest) as [[[username password] afterAt]|].
  - destruct (span (NoneOf ["/"]%char) afterAt) as [host afterHost]. cbn [fst snd].
    repeat split;
      repeat first [ rewrite lookup_insert_eq; reflexivity
                   | rewrite lookup_insert_ne by discriminate ].
  - destruct (span (NoneOf ["/"]%char) rest) as [host afterHost]. cbn [fst snd].
    repeat split;
      repeat first [ rewrite lookup_insert_eq; reflexivity
                   | rewrite lookup_insert_ne by discriminate
                   | apply lookup_empty ].
Qed.

(** X23.  The pattern of the WebDAV branch matches every string, so that
    the error of lines 304 to 308 is never raised.  The host (group 3) and
    the path (group 4) are always set: the host has no slash, the path is
    empty or starts with a slash and ends at the first newline.  The user
    name and the password (groups 1 and 2) are set together or not at all:
    the user name has no colon and no slash, the password no at sign and no
    slash.  The string is the groups written one after the other, with the
    colon and the at sign when there are credentials, followed by what the
    path left. *)
Theorem webdav_uri_always_matches (rest : string) :
  ∃ groups host path tail,
    re_match webdavURI rest = Some groups
    ∧ groups !! 3%nat = Some host
    ∧ groups !! 4%nat = Some path
    ∧ allAccepted (NoneOf ["/"]%char) host = true
    ∧ stopsAt (NoneOf ["/"]%char) (path +:+ tail) = true
    ∧ allAccepted AnyChar path = true
    ∧ stopsAt AnyChar tail = true
    ∧ ((groups !! 1%nat = None ∧ groups !! 2%nat = None ∧ rest = host +:+ path +:+ tail)
       ∨ ∃ username password,
           groups !! 1%nat = Some username
           ∧ groups !! 2%nat = Some password
           ∧ allAccepted (NoneOf [":"; "/"]%char) username = true
           ∧ allAccepted (NoneOf ["@"; "/"]%char) password = true
           ∧ rest = username +:+ ":" +:+ password +:+ "@" +:+ host +:+ path +:+ tail).
Proof.
  assert (∀ s, s = fst (span (NoneOf ["/"]%char) s)
                   +:+ fst (span AnyChar (snd (span (NoneOf ["/"]%char) s)))
                   +:+ snd (span AnyChar (snd (span (NoneOf ["/"]%char) s)))) as Hparts.
  { intros s. rewrite span_append, span_append. reflexivity. }
  assert (∀ s, stopsAt (NoneOf ["/"]%char)
                 (fst (span AnyChar (snd (span (NoneOf ["/"]%char) s)))
                  +:+ snd (span AnyChar (snd (span (NoneOf ["/"]%char) s)))) = true) as Hstop.
  { intros s. rewrite span_append. apply span_stops. }
  pose proof (webdavGroups_lookup rest) as Hlookup.
  exists (webdavGroups rest).
  destruct (webdavCredentials rest) as [[[username password] afterAt]|] eqn:Hcred.
  - destruct Hlookup as (H1 & H2 & H3 & H4).
    apply webdavCredentials_inverse in Hcred as (Hrest & Hu & Hp).
    exists (fst (span (NoneOf ["/"]%char) afterAt)),
      (fst (span AnyChar (snd (span (NoneOf ["/"]%char) afterAt)))),
      (snd (span AnyChar (snd (span (NoneOf ["/"]%char) afterAt)))).
    split; [apply webdavURI_groups|]. split; [exact H3|]. split; [exact H4|].
    split; [apply span_accepted|]. split; [apply Hstop|].
    split; [apply span_accepted|]. split; [apply span_stops|].
    right. exists username, password. repeat split; try assumption.
    rewrite <- Hparts. exact Hrest.
  - destruct Hlookup as (H1 & H2 & H3 & H4).
    exists (fst (span (NoneOf ["/"]%char) rest)),
      (fst (span AnyChar (snd (span (NoneOf ["/"]%char) rest)))),
      (snd (span AnyChar (snd (span (NoneOf ["/"]%char) rest)))).
    split; [apply webdavURI_groups|]. split; [exact H3|]. split; [exact H4|].
    split; [apply span_accepted|]. split; [apply Hstop|].
    split; [apply span_accepted|]. split; [apply span_stops|].
    left. auto.
Qed.

(** X24.  A URI written as [user:password@host/path] is read as written:
    when the user name has no colon and no slash, the password no at sign
    and no slash, the host no slash, and the path is empty or starts with a
    slash and has no newline, the four groups are the user name, the
    password, the host and the path.  A URI written as [host/path] with no
    at sign in the host has no credentials, also when the host comes with a
    port. *)
Theorem webdav_uri_round_trip (username password host path : string) :
  allAccepted (NoneOf ["/"]%char) host = true →
  stopsAt (NoneOf ["/"]%char) path = true →
  allAccepted AnyChar path = true →
  (allAccepted (NoneOf [":"; "/"]%char) username = true →
   allAccepted (NoneOf ["@"; "/"]%char) password = true →
   ∃ groups,
     re_match webdavURI (username +:+ ":" +:+ password +:+ "@" +:+ host +:+ path)
     = Some groups
     ∧ groups !! 1%nat = Some username ∧ groups !! 2%nat = Some password
     ∧ groups !! 3%nat = Some host ∧ groups !! 4%nat = Some path)
  ∧ (allAccepted (NoneOf ["@"]%char) host = true →
     ∃ groups,
       re_match webdavURI (host +:+ path) = Some groups
       ∧ groups !! 1%nat = None ∧ groups !! 2%nat = None
       ∧ groups !! 3%nat = Some host ∧ groups !! 4%nat = Some path).
Proof.
  intros Hhost Hslash Hpath.
  assert (span (NoneOf ["/"]%char) (host +:+ path) = (host, path)) as Hspan.
  { apply span_joined; assumption. }
  assert (span AnyChar path = (path, "")) as Hspan'.
  { rewrite <- (span_joined AnyChar path "" Hpath eq_refl). f_equal.
    clear. induction path as [|c path IH]; [reflexivity|].
    change (String c path +:+ "") with (String c (path +:+ "")). rewrite <- IH. reflexivity. }
  split.
  - intros Hu Hp.
    exists (webdavGroups (username +:+ ":" +:+ password +:+ "@" +:+ host +:+ path)).
    split; [apply webdavURI_groups|].
    pose proof (webdavGroups_lookup
                  (username +:+ ":" +:+ password +:+ "@" +:+ host +:+ path)) as Hlookup.
    rewrite (webdavCredentials_joined username password (host +:+ path) Hu Hp) in Hlookup.
    rewrite Hspan in Hlookup. cbn [fst snd] in Hlookup. rewrite Hspan' in Hlookup.
    exact Hlookup.
  - intros Hat.
    assert (allAccepted (NoneOf ["@"; "/"]%char) host = true) as Hboth.
    { clear -Hhost Hat. induction host as [|c host IH]; [reflexivity|].
      cbn [allAccepted accepts existsb] in *.
      rewrite !andb_true_iff, !negb_true_iff, !orb_false_r in *.
      destruct Hhost as [Hc Hhost], Hat as [Hc' Hat].
      rewrite Hc, Hc'. auto. }
    exists (webdavGroups (host +:+ path)). split; [apply webdavURI_groups|].
    pose proof (webdavGroups_lookup (host +:+ path)) as Hlookup.
    rewrite (webdavCredentials_none host path Hboth Hslash) in Hlookup.
    rewrite Hspan in Hlookup. cbn [fst snd] in Hlookup. rewrite Hspan' in Hlookup.
    exact Hlookup.
Qed.

(** X24, witness: a host with a port, and a password with a colon. *)
Lemma webdav_uri_round_trip_witness :
  allAccepted (NoneOf ["/"]%char) "cloud.example.org:8443" = true
  ∧ stopsAt (NoneOf ["/"]%char) "/remote.php/dav" = true
  ∧ allAccepted AnyChar "/remote.php/dav" = true
  ∧ allAccepted (NoneOf [":"; "/"]%char) "ada" = true
  ∧ allAccepted (NoneOf ["@"; "/"]%char) "s3cr:t" = true
  ∧ ∃ groups,
      re_match webdavURI "ada:s3cr:t@cloud.example.org:8443/remote.php/dav" = Some groups
      ∧ groups !! 1%nat = Some "ada" ∧ groups !! 2%nat = Some "s3cr:t"
      ∧ groups !! 3%nat = Some "cloud.example.org:8443"
      ∧ groups !! 4%nat = Some "/remote.php/dav".
Proof.
  split; [reflexivity|]. split; [reflexivity|]. split; [reflexivity|].
  split; [reflexivity|]. split; [reflexivity|].
  exact (proj1 (webdav_uri_round_trip "ada" "s3cr:t" "cloud.example.org:8443" "/remote.php/dav"
                  eq_refl eq_refl eq_refl) eq_refl eq_refl).
Defined.

(** *** The client *)

Lemma checkForHTTPS_unfold web url pd p :
  checkForHTTPS web url pd p
  = match HTTPSConnection_head web url with
    | Ok response => mkOutcome (Ok response) p []
    | Raise exception =>
        mkOutcome (Ok false) p
          (if 3 <=? pd
           then [Print ("[Info] Determined WebDAV URL to not use HTTP instead HTTPS because of: "
                        +:+ exn_str exception)]
           else [])
    end.
Proof.
  unfold checkForHTTPS. destruct (HTTPSConnection_head web url); [reflexivity|].
  rewrite bind_when_print. unfold prepend, ret. cbn [result final_pos events].
  rewrite app_nil_r. reflexivity.
Qed.

(** X25.  When the WebDAV branch gets to its file system, the client has
    been made for [https://] and the host when the HEAD request to the host
    was answered, and for [http://] and the host when the request raised or
    its response is falsy.  The credentials are those of the URI when it
    has them; otherwise those of the environment variables [WEBDAV_USER]
    and [WEBDAV_PASSWORD] when both are set; otherwise there are none.  The
    path that goes on is the fourth group of the pattern. *)
Theorem webdav_client env web (rest : string) pd p client path :
  result (openWebdav env web rest pd p) = Ok (client, path) →
  ∃ groups host transportProtocol,
    re_match webdavURI rest = Some groups
    ∧ groups !! 3%nat = Some host
    ∧ groups !! 4%nat = Some path
    ∧ client
      = WebdavFileSystem (transportProtocol +:+ "://" +:+ host)
          (match groups !! 1%nat, groups !! 2%nat with
           | Some username, Some password => Some (username, password)
           | _, _ =>
               match os_environ env !! "WEBDAV_USER", os_environ env !! "WEBDAV_PASSWORD" with
               | Some username, Some password => Some (username, password)
               | _, _ => None
               end
           end)
    ∧ ((transportProtocol = "https" ∧ HTTPSConnection_head web (Some host) = Ok true)
       ∨ (transportProtocol = "http" ∧ HTTPSConnection_head web (Some host) ≠ Ok true)).
Proof.
  unfold openWebdav.
  destruct (has_webdav4 env); cbn [negb raise result]; [|discriminate].
  rewrite webdavURI_groups. cbv zeta.
  pose proof (webdavGroups_lookup rest) as Hlookup.
  set (groups := webdavGroups rest) in *.
  assert (∃ host path, groups !! 3%nat = Some host ∧ groups !! 4%nat = Some path
                       ∧ ((groups !! 1%nat = None ∧ groups !! 2%nat = None)
                          ∨ ∃ u w, groups !! 1%nat = Some u ∧ groups !! 2%nat = Some w))
    as (host & path0 & H3 & H4 & Hcred).
  { destruct (webdavCredentials rest) as [[[u w] afterAt]|];
      destruct Hlookup as (H1 & H2 & H3 & H4); eauto 10. }
  rewrite H3, H4. cbn [format_optional].
  set (auth := webdavAuth (os_environ env) (groups !! 1%nat) (groups !! 2%nat)).
  assert (auth = match groups !! 1%nat, groups !! 2%nat with
                 | Some username, Some password => Some (username, password)
                 | _, _ =>
                     match os_environ env !! "WEBDAV_USER",
                           os_environ env !! "WEBDAV_PASSWORD" with
                     | Some username, Some password => Some (username, password)
                     | _, _ => None
                     end
                 end) as Hauth.
  { subst auth. unfold webdavAuth.
    destruct Hcred as [[-> ->]|(u & w & -> & ->)]; reflexivity. }
  unfold bind. rewrite checkForHTTPS_unfold.
  destruct (HTTPSConnection_head web (Some host)) as [[]|e] eqn:Hhead;
    cbn [result final_pos events];
    match goal with
    | |- context [WebdavFileSystem_init web ?b auth] =>
        destruct (WebdavFileSystem_init web b auth) as [exception|] eqn:Hinit
    end;
    cbn [raise ret result]; try discriminate; intros [= <- <-].
  - exists groups, host, "https". rewrite <- Hauth. auto 10.
  - exists groups, host, "http". rewrite <- Hauth.
    repeat split; auto. right. split; [reflexivity | rewrite Hhead; discriminate].
  - exists groups, host, "http". rewrite <- Hauth.
    repeat split; auto. right. split; [reflexivity | rewrite Hhead; discriminate].
Qed.

(** X25, witness: the host does not answer HTTPS and the URI has
    credentials. *)
Lemma webdav_client_witness :
  result (openWebdav Sample.plain Remote.webdav "ada:s3cret@cloud.example.org/dav" 0 0%nat)
  = Ok (WebdavFileSystem "http://cloud.example.org" (Some ("ada", "s3cret")), "/dav")
  ∧ ∃ groups host transportProtocol,
      re_match webdavURI "ada:s3cret@cloud.example.org/dav" = Some groups
      ∧ groups !! 3%nat = Some host
      ∧ groups !! 4%nat = Some "/dav"
      ∧ WebdavFileSystem "http://cloud.example.org" (Some ("ada", "s3cret"))
        = WebdavFileSystem (transportProtocol +:+ "://" +:+ host)
            (match groups !! 1%nat, groups !! 2%nat with
             | Some username, Some password => Some (username, password)
             | _, _ =>
                 match os_environ Sample.plain !! "WEBDAV_USER",
                       os_environ Sample.plain !! "WEBDAV_PASSWORD" with
                 | Some username, Some password => Some (username, password)
                 | _, _ => None
                 end
             end)
      ∧ ((transportProtocol = "https"
          ∧ HTTPSConnection_head Remote.webdav (Some host) = Ok true)
         ∨ (transportProtocol = "http"
            ∧ HTTPSConnection_head Remote.webdav (Some host) ≠ Ok true)).
Proof.
  assert (result (openWebdav Sample.plain Remote.webdav "ada:s3cret@cloud.example.org/dav"
                    0 0%nat)
          = Ok (WebdavFileSystem "http://cloud.example.org" (Some ("ada", "s3cret")), "/dav"))
    as Hresult by (vm_compute; reflexivity).
  split; [exact Hresult|].
  exact (webdav_client Sample.plain Remote.webdav "ada:s3cret@cloud.example.org/dav" 0 0%nat
           (WebdavFileSystem "http://cloud.example.org" (Some ("ada", "s3cret"))) "/dav"
           Hresult).
Defined.

(** ** Examples *)

(** The extension test ignores the case and wants a dot in front of the
    extension at the very end of the name. *)
Example matchesExtension_examples :
  matchesExtension "Archive.TAR.GZ" ["tar.gz"] = true
  ∧ matchesExtension "archive.tgz" ["TGZ"] = true
  ∧ matchesExtension "archive.tar.gz.bak" ["tar.gz"] = false
  ∧ matchesExtension "guitar" ["tar"] = false
  ∧ matchesExtension "/data.tar/readme" ["tar"] = false.
Proof. repeat split. Qed.

Example dropboxPath_examples :
  dropboxPath "" = ""
  ∧ dropboxPath "/" = ""
  ∧ dropboxPath "folder/archive.tar/" = "/folder/archive.tar"
  ∧ dropboxPath "/folder" = "/folder"
  ∧ dropboxPath "//folder//" = "//folder".
Proof. repeat split. Qed.

Example joined_name_examples :
  PyStr.rsplit1_head "." (PyStr.basename "/data/archive.tar.gz.001") = "archive.tar.gz"
  ∧ PyStr.rsplit1_head "." (PyStr.basename "/data/.001") = ""
  ∧ PyStr.rsplit1_head "." (PyStr.basename "/data.d/shard") = "shard".
Proof. repeat split. Qed.

Example split1_examples :
  PyStr.split1 "://" "ssh://host/a://b" = ("ssh", Some "host/a://b")
  ∧ PyStr.split1 "://" "/plain/path" = ("/plain/path", None)
  ∧ PyStr.split1 "://" "://nothing" = ("", Some "nothing").
Proof. repeat split. Qed.

(** With TAR archives recognized, [archive.tar.gz] is opened by the second
    probe when [zipfile] is given priority, and by the first without it. *)
Example tar_is_found :
  probedNames (events (openMountSource Sample.tars (Path "archive.tar.gz") ∅ 0%nat))
  = ["tarfile"]
  ∧ probedNames
      (events (openMountSource Sample.tars (Path "archive.tar.gz")
                 (<["prioritizedBackends" := VList ["zipfile"; "rapidgzip"]]> ∅) 0%nat))
    = ["zipfile"; "tarfile"]
  ∧ result (openMountSource Sample.tars (Path "archive.tar.gz") ∅ 0%nat)
    = Ok (Archive SQLiteIndexedTar (Path "archive.tar.gz") ∅).
Proof. repeat split. Qed.

(** At level 1 the unknown name [Z] is reported, once. *)
Example skip_is_logged_at_level_1 :
  filter (λ e, isPrint e = true)
    (events (openMountSource Sample.plain (Path "blob.bin")
               (<["printDebug" := VInt 1]> Sample.priorityZ) 0%nat))
  = [skipLine "Z"].
Proof. vm_compute. reflexivity. Qed.

(** A Dropbox URL without a token stops at the instruction to set one. *)
Example dropbox_without_token :
  tryOpenURL Sample.plain "dropbox://folder/archive.tar" 0 0%nat
  = mkOutcome (Raise dropboxTokenMissing) 0%nat [].
Proof. reflexivity. Qed.

(** With a token, the file system is asked about [/folder/archive.tar]. *)
Example dropbox_with_token :
  filter (λ e, isRemoteCall e = true)
    (events (tryOpenURL Sample.withToken "dropbox://folder/archive.tar/" 0 0%nat))
  = [ FsCall fs_isdir (FixedDropboxDriveFileSystem "secret") "/folder/archive.tar";
      FsCall fs_exists (FixedDropboxDriveFileSystem "secret") "/folder/archive.tar";
      FsCall fs_open (FixedDropboxDriveFileSystem "secret") "/folder/archive.tar" ].
Proof. vm_compute. reflexivity. Qed.

(** A repository path, a reference and a path; and what is left to the path
    when the colon or the at sign is missing. *)
Example gitURLParts_examples :
  gitURLParts "/home/ada/project:v1.2@src/main.c"
  = (Some "/home/ada/project", Some "v1.2", "src/main.c")
  ∧ gitURLParts "v1.2@src" = (None, Some "v1.2", "src")
  ∧ gitURLParts "src" = (None, None, "src")
  ∧ gitURLParts "" = (None, None, "")
  ∧ gitURLParts "ada@host:project" = (Some "ada@host", None, "project").
Proof. repeat split. Qed.

(** A directory of the repository becomes the prefix of the mount source, a
    file is opened, and what is not there is reported. *)
Example git_examples :
  _openGitMountSource Remote.git "git://v1.2@src"
  = Ok (GitMount (GitMountSource None (Some "v1.2") (Some "src")))
  ∧ _openGitMountSource Remote.git "git://README.md" = Ok (GitFile (Sample.stream "<GitFile>"))
  ∧ _openGitMountSource Remote.git "git://" = Ok (GitMount (GitMountSource None None None))
  ∧ _openGitMountSource Remote.git "git://LICENSE"
    = Raise (RatarmountError
               "The path LICENSE in the git repository specified via 'git://LICENSE' does not exist!")
  ∧ _openGitMountSource Remote.git "ssh://host/src"
    = Raise (RatarmountError "Expected URL starting with git://").
Proof. repeat split. Qed.

(** The dict of [openMountSource] keeps [tarFileName]; the dict that
    [SQLiteIndexedTar] gets, the fourth there is after the call, is without
    it. *)
Example tarFileName_is_deleted_from_a_copy :
  let options : gmap string value :=
    {[ "tarFileName" := VStr "archive"; "printDebug" := VInt 1 ]} in
  let called := call_openTarMountSource (Path "archive.tar") 0 [options] in
  called.1 = 3%nat
  ∧ length called.2 = 4%nat
  ∧ dict_items 0 called.2 !! "tarFileName" = Some (VStr "archive")
  ∧ dict_items 1 called.2 !! "tarFileName" = Some (VStr "archive")
  ∧ dict_items 2 called.2 !! "tarFileName" = None
  ∧ dict_items 3 called.2 !! "tarFileName" = None
  ∧ dict_items 3 called.2 !! "printDebug" = Some (VInt 1).
Proof. repeat split. Qed.

(** The home directory, a file in it, and a path that is not there. *)
Example ssh_examples :
  _openSSHFSMountSource true Remote.ssh "ssh://host"
  = Ok (RMount (FSSpecMountSource (OtherFileSystem "<SSHFileSystem>") "."))
  ∧ _openSSHFSMountSource true Remote.ssh "ssh://host/"
    = Ok (RMount (FSSpecMountSource (OtherFileSystem "<SSHFileSystem>") "."))
  ∧ _openSSHFSMountSource true Remote.ssh "ssh://host/data/archive.tar"
    = Ok (RStream (Sample.stream "data/archive.tar"))
  ∧ _openSSHFSMountSource true Remote.ssh "ssh://host//data"
    = Raise (RatarmountError
               "Cannot open URL: ssh://host//data because the remote path: /data does not exist!").
Proof. repeat split. Qed.

(** A port is no password, and the credentials of the environment are used
    when the URI has none. *)
Example webdav_examples :
  re_match webdavURI "cloud.example.org:8443/remote.php/dav"
  = Some (<[4%nat := "/remote.php/dav"]> (<[3%nat := "cloud.example.org:8443"]> ∅))
  ∧ result (openWebdav Remote.withCredentials Remote.webdav "cloud.example.org:8443/dav"
              0 0%nat)
    = Ok (WebdavFileSystem "http://cloud.example.org:8443"
            (Some ("ada", "from the environment")), "/dav")
  ∧ events (openWebdav Remote.withCredentials Remote.webdav "cloud.example.org/dav" 3 0%nat)
    = [Print "[Info] Determined WebDAV URL to not use HTTP instead HTTPS because of: Connection refused"].
Proof. repeat split; vm_compute; reflexivity. Qed.
